(** * PyPulse: the shared progress store, the progress tracker and the task session

    A shallow embedding of [pypulse_state.py] (module [State]) and of
    [pypulse.py] (modules [PulseProgress] and [PulseTask]), with the
    properties of the store, the stale-record reaper, the iterator wrapper
    and the step-based session proved over it.

    Conventions of the embedding
    - Python values that travel through the JSON documents are the type
      [value]; a dict is a [gmap string value].
    - A Python float is the rational number it stands for ([Q]).  A division
      gives the quotient rounded to the nearest binary64 number, ties to the
      even significand, and a conversion of an integer to a float rounds
      alike; [int(x)] truncates towards zero.  The significand has its 53
      bits; the exponent is not bounded, so that the model has no infinity
      and no subnormal number.  The readings of the clock are kept as they
      are, to the microsecond.
    - An instant is an integer number of microseconds since the epoch.  The
      string [datetime.isoformat()] produces for the instant [t] is the value
      [VTime t]; [datetime.fromisoformat] gives [t] back on it and fails on
      every other value.  [VStr] holds the strings that are not timestamps.
      A timestamp without an offset, which the store never writes, is not a
      value of the model.
    - A string stands for text that UTF-8 can encode.
    - The wall clock is an oracle in the world: the [k]-th reading of the
      clock ([time.time()] or [datetime.now()]) returns [clock w k].
    - The reentrant lock only serialises threads; in this sequential model
      [with self._lock] is the identity.
    - A method of a mutable object is a computation over the pair of the
      object and the world. *)

From Stdlib Require Import ZArith QArith String List Lia.
From stdpp Require Import gmap strings list fin_maps pretty.

Local Open Scope string_scope.
Local Open Scope Z_scope.
Set Warnings "-register-all".

(** ** Python values *)

Inductive value : Type :=
| VNone
| VBool (b : bool)
| VInt (z : Z)
| VFloat (q : Q)
| VStr (s : string)
| VTime (t : Z)
| VList (l : list value)
| VDict (d : gmap string value).

Abbreviation dict := (gmap string value).

(** Truth value testing ([bool(v)]). *)
Definition truthy (v : value) : bool :=
  match v with
  | VNone => false
  | VBool b => b
  | VInt z => negb (z =? 0)
  | VFloat q => negb (Qnum q =? 0)
  | VStr s => negb (String.eqb s "")
  | VTime _ => true
  | VList l => match l with [] => false | _ => true end
  | VDict d => match map_to_list d with [] => false | _ => true end
  end.

(** [a or b] *)
Definition py_or (a b : value) : value := if truthy a then a else b.

Definition of_option {A} (f : A -> value) (o : option A) : value :=
  match o with Some a => f a | None => VNone end.

(** Float arithmetic, results kept in lowest terms. *)
Definition Qltb (x y : Q) : bool := negb (Qle_bool y x).

(** [a / (d * 2 ^ e)] as a numerator and a denominator, for an exponent [e]
    of either sign. *)
Definition scaled (a d e : Z) : Z * Z :=
  if 0 <=? e then (a, d * 2 ^ e) else (a * 2 ^ (- e), d).

(** [a / (d * 2 ^ e)] rounded to the nearest integer, ties to the even
    one. *)
Definition round_half_even (a d e : Z) : Z :=
  let N := fst (scaled a d e) in
  let D := snd (scaled a d e) in
  let m := N / D in
  let r := N mod D in
  if (D <? 2 * r) || ((D =? 2 * r) && Z.odd m) then m + 1 else m.

Definition pow2 (e : Z) : Q :=
  if 0 <=? e then inject_Z (2 ^ e) else 1 # Z.to_pos (2 ^ (- e)).

(** The binary64 number nearest to [a / d], for [a] and [d] positive: the
    exponent [e] is the one that leaves a significand of 53 bits,
    [2 ^ 52 <= a / (d * 2 ^ e) < 2 ^ 53]. *)
Definition round53 (a d : Z) : Q :=
  let e := Z.log2 a - Z.log2 d - 53 in
  let e' := if fst (scaled a d e) / snd (scaled a d e) <? 2 ^ 53 then e else e + 1 in
  (inject_Z (round_half_even a d e') * pow2 e')%Q.

(** Rounding to nearest, ties to even, at the precision of binary64. *)
Definition round_float (q : Q) : Q :=
  match Qnum q with
  | Z0 => 0%Q
  | Zpos a => round53 (Zpos a) (Zpos (Qden q))
  | Zneg a => (- round53 (Zpos a) (Zpos (Qden q)))%Q
  end.

(** [a / b] on floats, and on integers, whose true division is correctly
    rounded. *)
Definition true_div (a b : Q) : Q := Qred (round_float (a / b)).

(** [float(z)], the conversion of an integer operand of a float operation. *)
Definition py_float (z : Z) : Q := Qred (round_float (inject_Z z)).

(** [int(x)] on a float: truncation towards zero. *)
Definition py_int (q : Q) : Z := Z.quot (Qnum q) (Z.pos (Qden q)).

(** [min(a, b)] returns [a] unless [b < a]; [max(a, b)] returns [a] unless
    [b > a]. *)
Definition py_min (a b : Q) : Q := if Qltb b a then b else a.
Definition py_max (a b : Q) : Q := if Qltb a b then b else a.

(** ** Exceptions *)

Inductive exc_type : Type :=
| FileNotFoundError
| PermissionError
| JSONDecodeError
| UnicodeDecodeError
| KeyError
| AttributeError
| TypeError
| ValueError
| UserError (name : string).

Definition __name__ (t : exc_type) : string :=
  match t with
  | FileNotFoundError => "FileNotFoundError"
  | PermissionError => "PermissionError"
  | JSONDecodeError => "JSONDecodeError"
  | UnicodeDecodeError => "UnicodeDecodeError"
  | KeyError => "KeyError"
  | AttributeError => "AttributeError"
  | TypeError => "TypeError"
  | ValueError => "ValueError"
  | UserError name => name
  end.

Record exn : Type := Exn { exc_class : exc_type; exc_val : string }.

(** [IOError] is [OSError]; the two file errors are its subclasses. *)
Definition is_IOError (e : exn) : bool :=
  match exc_class e with
  | FileNotFoundError | PermissionError => true
  | _ => false
  end.

Definition is_JSONDecodeError (e : exn) : bool :=
  match exc_class e with
  | JSONDecodeError => true
  | _ => false
  end.

(** ** Computations: state and exceptions

    A computation runs on a state, returns a value or raises, and leaves a
    state behind in both cases (what was done before a [raise] stays done). *)

Inductive outcome (A : Type) : Type :=
| Ret (a : A)
| Raise (e : exn).
Arguments Ret {A} a.
Arguments Raise {A} e.

Definition SE (St A : Type) : Type := St -> outcome A * St.

Definition ret {St A} (a : A) : SE St A := fun s => (Ret a, s).

Definition raise {St A} (e : exn) : SE St A := fun s => (Raise e, s).

Definition bind {St A B} (m : SE St A) (k : A -> SE St B) : SE St B :=
  fun s =>
    match m s with
    | (Ret a, s') => k a s'
    | (Raise e, s') => (Raise e, s')
    end.

(** [try: m  except <classes accepted by catches> as e: handler e] *)
Definition try_except {St A} (m : SE St A) (catches : exn -> bool)
    (handler : exn -> SE St A) : SE St A :=
  fun s =>
    match m s with
    | (Ret a, s') => (Ret a, s')
    | (Raise e, s') => if catches e then handler e s' else (Raise e, s')
    end.

(** [try: m  finally: fin] *)
Definition try_finally {St A} (m : SE St A) (fin : SE St unit) : SE St A :=
  fun s =>
    match m s with
    | (Ret a, s') =>
        match fin s' with
        | (Ret _, s'') => (Ret a, s'')
        | (Raise e, s'') => (Raise e, s'')
        end
    | (Raise e, s') =>
        match fin s' with
        | (Ret _, s'') => (Raise e, s'')
        | (Raise e', s'') => (Raise e', s'')
        end
    end.

Declare Scope se_scope.
Delimit Scope se_scope with se.
Notation "x <- c1 ;; c2" := (bind c1 (fun x => c2))
  (at level 100, c1 at next level, right associativity) : se_scope.
Notation "c1 ;; c2" := (bind c1 (fun _ => c2))
  (at level 100, right associativity) : se_scope.
Local Open Scope se_scope.

Definition when {St} (b : bool) (m : SE St unit) : SE St unit :=
  if b then m else ret tt.

(** ** The world: state files, clock, process id, trace *)

Inductive path : Type := PROGRESS_FILE | HISTORY_FILE | WIDGET_POSITION_FILE.

(** What a state file holds: bytes that are not UTF-8, text that is not one
    JSON document (the empty file and every proper prefix of a document are
    such texts), or the JSON text of a value. *)
Inductive contents : Type :=
| Undecodable
| Malformed
| Json (v : value).

(** [data = None]: the file does not exist. *)
Record file : Type := File {
  data : option contents;
  readable : bool;
  writable : bool
}.

Record disk : Type := Disk {
  progress_json : file;
  history_json : file;
  widget_position_json : file
}.

Definition fget (p : path) (d : disk) : file :=
  match p with
  | PROGRESS_FILE => progress_json d
  | HISTORY_FILE => history_json d
  | WIDGET_POSITION_FILE => widget_position_json d
  end.

Definition fset (p : path) (f : file) (d : disk) : disk :=
  match p with
  | PROGRESS_FILE => Disk f (history_json d) (widget_position_json d)
  | HISTORY_FILE => Disk (progress_json d) f (widget_position_json d)
  | WIDGET_POSITION_FILE => Disk (progress_json d) (history_json d) f
  end.

Definition set_data (c : contents) (f : file) : file :=
  File (Some c) (readable f) (writable f).

(** What the run leaves behind, most recent first: the primitive file operations
    that changed a file, the calls of the two mutators of the store, the lines
    sent to the logger and the final summaries printed. *)
Inductive event : Type :=
| EvOpenW (p : path)
| EvDump (p : path) (v : value)
| EvLogError (e : exn)
| EvUpdateProgress (task_name : string)
| EvCompleteTask (task_name : string)
| EvPrintFinal (desc : string) (n : Z) (elapsed : string).

Record world : Type := World {
  files : disk;
  clock : nat -> Z;
  reads : nat;
  getpid : Z;
  trace : list event
}.

Definition with_files (d : disk) (w : world) : world :=
  World d (clock w) (reads w) (getpid w) (trace w).

Definition emit (e : event) : SE world unit :=
  fun w => (Ret tt, World (files w) (clock w) (reads w) (getpid w) (e :: trace w)).

(** [datetime.now(timezone.utc)]: microseconds since the epoch. *)
Definition datetime_now : SE world Z :=
  fun w => (Ret (clock w (reads w)),
            World (files w) (clock w) (S (reads w)) (getpid w) (trace w)).

(** [time.time()]: seconds since the epoch, as a float. *)
Definition time_time : SE world Q :=
  fun w => (Ret (Qred (clock w (reads w) # 1000000)),
            World (files w) (clock w) (S (reads w)) (getpid w) (trace w)).

Definition os_getpid : SE world Z := fun w => (Ret (getpid w), w).

(** [(a - b).total_seconds()] *)
Definition total_seconds (a b : Z) : Q := Qred ((a - b) # 1000000).

Definition logger_error (e : exn) : SE world unit := emit (EvLogError e).

(** ** Dynamic operations on values *)

(** [v.get(key, default)] *)
Definition py_get {St} (v : value) (key : string) (default : value) : SE St value :=
  match v with
  | VDict d => ret (match d !! key with Some x => x | None => default end)
  | _ => raise (Exn AttributeError "object has no attribute 'get'")
  end.

(** [v[key]] with a string key *)
Definition py_getitem {St} (v : value) (key : string) : SE St value :=
  match v with
  | VDict d =>
      match d !! key with
      | Some x => ret x
      | None => raise (Exn KeyError key)
      end
  | _ => raise (Exn TypeError "indices must be integers or object is not subscriptable")
  end.

(** [v[key] = x] with a string key *)
Definition py_setitem {St} (v : value) (key : string) (x : value) : SE St value :=
  match v with
  | VDict d => ret (VDict (<[key := x]> d))
  | _ => raise (Exn TypeError "object does not support item assignment")
  end.

(** [v.insert(0, x)] *)
Definition py_insert0 {St} (v : value) (x : value) : SE St value :=
  match v with
  | VList l => ret (VList (x :: l))
  | _ => raise (Exn AttributeError "object has no attribute 'insert'")
  end.

(** [v[:k]] for the values that can follow a successful [insert] *)
Definition py_slice_to {St} (k : nat) (v : value) : SE St value :=
  match v with
  | VList l => ret (VList (take k l))
  | _ => raise (Exn TypeError "object is not subscriptable")
  end.

(** [datetime.fromisoformat(v)] *)
Definition fromisoformat {St} (v : value) : SE St Z :=
  match v with
  | VTime t => ret t
  | VStr _ => raise (Exn ValueError "Invalid isoformat string")
  | _ => raise (Exn TypeError "fromisoformat: argument must be str")
  end.

(** * pypulse_state.py *)

Module State.

(** The inactive template, written at initialisation and by [complete_task]. *)
Definition inactive_template : dict :=
  list_to_map [
    ("active", VBool false);
    ("task_name", VNone);
    ("current_step", VNone);
    ("progress", VFloat 0);
    ("eta_seconds", VNone);
    ("started_at", VNone);
    ("last_update", VNone);
    ("error", VNone);
    ("pid", VNone)].

(** What [open(filepath, 'r', encoding='utf-8')] followed by [json.load(f)]
    gives on a file.  A JSON text that the parser gives up on, by its depth
    ([RecursionError]) or by an integer of more than 4300 digits
    ([ValueError]), is not among the contents of the model. *)
Definition load (f : file) : outcome value :=
  match data f with
  | None => Raise (Exn FileNotFoundError "No such file or directory")
  | Some c =>
      if negb (readable f) then Raise (Exn PermissionError "Permission denied")
      else match c with
           | Undecodable => Raise (Exn UnicodeDecodeError "invalid start byte")
           | Malformed => Raise (Exn JSONDecodeError "Expecting value")
           | Json v => Ret v
           end
  end.

Definition open_r_load (filepath : path) : SE world value :=
  fun w => (load (fget filepath (files w)), w).

(** [open(filepath, 'w', encoding='utf-8')]: creates the file or truncates it
    to the empty text, at once and in place. *)
Definition open_w (filepath : path) : SE world unit :=
  fun w =>
    let f := fget filepath (files w) in
    if writable f
    then emit (EvOpenW filepath)
           (with_files (fset filepath (set_data Malformed f) (files w)) w)
    else (Raise (Exn PermissionError "Permission denied"), w).

(** [json.dump(data, f, ...)] and the close of [f] at the end of the [with]
    block: the text of the document reaches the file.  The strings of the
    model stand for text that UTF-8 can encode.  An integer of more than 4300
    digits, which the interpreter refuses to convert to text, is a value of
    the model all the same: [json.dump] raises [ValueError] on it, and this
    definition does not. *)
Definition json_dump (filepath : path) (v : value) : SE world unit :=
  fun w =>
    emit (EvDump filepath v)
      (with_files (fset filepath (set_data (Json v) (fget filepath (files w))) (files w)) w).

Definition _read_safe (filepath : path) : SE world value :=
  try_except (open_r_load filepath)
    (fun e => is_JSONDecodeError e || is_IOError e)
    (fun e => logger_error e ;; ret (VDict ∅)).

Definition _write_safe (filepath : path) (v : value) : SE world unit :=
  try_except (open_w filepath ;; json_dump filepath v)
    is_IOError
    (fun e => logger_error e).

(** [filepath.exists()], in a data directory that can be searched; one that
    cannot, where [exists] raises [PermissionError], is not among the worlds
    of the model. *)
Definition exists_ (filepath : path) : SE world bool :=
  fun w => (Ret (match data (fget filepath (files w)) with Some _ => true | None => false end), w).

Definition _ensure_files_exist : SE world unit :=
  b <- exists_ PROGRESS_FILE ;;
  when (negb b) (_write_safe PROGRESS_FILE (VDict inactive_template)) ;;
  b <- exists_ HISTORY_FILE ;;
  when (negb b)
    (_write_safe HISTORY_FILE (VDict (list_to_map [("completed_tasks", VList [])]))) ;;
  b <- exists_ WIDGET_POSITION_FILE ;;
  when (negb b)
    (_write_safe WIDGET_POSITION_FILE
       (VDict (list_to_map [("x", VInt 100); ("y", VInt 100)]))).

(** [PulseState.__init__] *)
Definition __init__ : SE world unit := _ensure_files_exist.

Definition _get_started_at : SE world value :=
  current <- _read_safe PROGRESS_FILE ;;
  py_get current "started_at" VNone.

Definition clamp (progress : Q) : Q := py_max 0 (py_min 1 progress).

Definition progress_record (task_name current_step : string) (progress : Q)
    (eta_seconds : option Z) (started_at : value) (now : Z)
    (error : option string) (pid : Z) : dict :=
  list_to_map [
    ("active", VBool true);
    ("task_name", VStr task_name);
    ("current_step", VStr current_step);
    ("progress", VFloat (clamp progress));
    ("eta_seconds", of_option VInt eta_seconds);
    ("started_at", py_or started_at (VTime now));
    ("last_update", VTime now);
    ("error", of_option VStr error);
    ("pid", VInt pid)].

Definition update_progress (task_name current_step : string) (progress : Q)
    (eta_seconds : option Z) (error : option string) (pid : option Z)
    : SE world unit :=
  emit (EvUpdateProgress task_name) ;;
  now <- datetime_now ;;
  started_at <- _get_started_at ;;
  pid' <- match pid with
          | Some p => if truthy (VInt p) then ret p else os_getpid
          | None => os_getpid
          end ;;
  _write_safe PROGRESS_FILE
    (VDict (progress_record task_name current_step progress eta_seconds
              started_at now error pid')).

Definition _calculate_duration : SE world value :=
  current <- _read_safe PROGRESS_FILE ;;
  started <- py_get current "started_at" VNone ;;
  if truthy started then
    start_time <- fromisoformat started ;;
    now <- datetime_now ;;
    ret (VInt (py_int (total_seconds now start_time)))
  else ret VNone.

Definition history_entry (task_name : string) (completed_at : Z) (duration : value) : value :=
  VDict (list_to_map [
    ("task_name", VStr task_name);
    ("completed_at", VTime completed_at);
    ("duration_seconds", duration)]).

Definition complete_task (task_name : string) : SE world unit :=
  emit (EvCompleteTask task_name) ;;
  current_state <- _read_safe PROGRESS_FILE ;;
  history <- _read_safe HISTORY_FILE ;;
  now <- datetime_now ;;
  duration <- _calculate_duration ;;
  let completed_task := history_entry task_name now duration in
  tasks <- py_getitem history "completed_tasks" ;;
  tasks <- py_insert0 tasks completed_task ;;
  history <- py_setitem history "completed_tasks" tasks ;;
  tasks <- py_getitem history "completed_tasks" ;;
  tasks <- py_slice_to 10 tasks ;;
  history <- py_setitem history "completed_tasks" tasks ;;
  _write_safe HISTORY_FILE history ;;
  _write_safe PROGRESS_FILE (VDict inactive_template).

Definition get_progress : SE world value := _read_safe PROGRESS_FILE.

Definition get_history : SE world value := _read_safe HISTORY_FILE.

Definition save_widget_position (x y : Z) : SE world unit :=
  _write_safe WIDGET_POSITION_FILE (VDict (list_to_map [("x", VInt x); ("y", VInt y)])).

Definition get_widget_position : SE world value :=
  pos <- _read_safe WIDGET_POSITION_FILE ;;
  x <- py_get pos "x" (VInt 100) ;;
  y <- py_get pos "y" (VInt 100) ;;
  ret (VDict (list_to_map [("x", x); ("y", y)])).

Definition stale_record (state : value) : SE world value :=
  task_name <- py_get state "task_name" VNone ;;
  current_step <- py_get state "current_step" VNone ;;
  progress <- py_get state "progress" (VFloat 0) ;;
  error <- py_get state "error" VNone ;;
  ret (VDict (list_to_map [
    ("active", VBool false);
    ("task_name", task_name);
    ("current_step", current_step);
    ("progress", progress);
    ("eta_seconds", VNone);
    ("started_at", VNone);
    ("last_update", VNone);
    ("error", error);
    ("pid", VNone)])).

(** One tick of the reaper. [except Exception] catches every exception. *)
Definition clear_stale_progress (max_idle_seconds : Z) : SE world unit :=
  try_except
    (state <- get_progress ;;
     active <- py_get state "active" VNone ;;
     last <- (if truthy active then py_get state "last_update" VNone else ret active) ;;
     if truthy last then
       last_update <- (v <- py_getitem state "last_update" ;; fromisoformat v) ;;
       now <- datetime_now ;;
       let idle_time := total_seconds now last_update in
       if Qltb (inject_Z max_idle_seconds) idle_time then
         record <- stale_record state ;;
         _write_safe PROGRESS_FILE record
       else ret tt
     else ret tt)
    (fun _ => true)
    (fun e => logger_error e).

End State.

(** * pypulse.py *)

(** ** Objects: a method runs on the pair of its object and the world *)

Definition in_world {S A} (m : SE world A) : SE (S * world) A :=
  fun sw =>
    match m (snd sw) with
    | (r, w') => (r, (fst sw, w'))
    end.

Definition get_self {S} : SE (S * world) S := fun sw => (Ret (fst sw), sw).

Definition set_self {S} (s : S) : SE (S * world) unit := fun sw => (Ret tt, (s, snd sw)).

(** Runs the rest of a constructor on the object under construction. *)
Definition construct {S} (self : S) (m : SE (S * world) unit) : SE world S :=
  fun w =>
    match m (self, w) with
    | (Ret _, sw) => (Ret (fst sw), snd sw)
    | (Raise e, sw) => (Raise e, snd sw)
    end.

(** An iterable handed to the wrapper: one that has [__len__] (a list, a
    range) or a lazy one (a generator).  Both are finite here. *)
Inductive iterable (A : Type) : Type :=
| Sized (l : list A)
| Lazy (l : list A).
Arguments Sized {A} l.
Arguments Lazy {A} l.

Definition elements_of {A} (it : iterable A) : list A :=
  match it with Sized l => l | Lazy l => l end.

(** [len(iterable)] where [hasattr(iterable, "__len__")] *)
Definition len_of {A} (it : option (iterable A)) : option Z :=
  match it with
  | Some (Sized l) => Some (Z.of_nat (length l))
  | _ => None
  end.

(** [s or d] on an optional string *)
Definition str_or (s : option string) (d : string) : string :=
  match s with
  | Some x => if truthy (VStr x) then x else d
  | None => d
  end.

Module PulseProgress.
Section Wrapper.
Context {A : Type}.

Record t : Type := Self {
  iterable_ : option (iterable A);
  desc : string;
  step : string;
  total : option Z;
  unit_ : string;
  leave : bool;
  mininterval : Q;
  disable : bool;
  initial : Z;
  n : Z;
  last_print_n : Z;
  last_print_t : Q;
  start_t : Q;
  last_update_t : Q
}.

Definition set_n (k : Z) (self : t) : t :=
  Self (iterable_ self) (desc self) (step self) (total self) (unit_ self)
    (leave self) (mininterval self) (disable self) (initial self) k
    (last_print_n self) (last_print_t self) (start_t self) (last_update_t self).

Definition set_last_update_t (x : Q) (self : t) : t :=
  Self (iterable_ self) (desc self) (step self) (total self) (unit_ self)
    (leave self) (mininterval self) (disable self) (initial self) (n self)
    (last_print_n self) (last_print_t self) (start_t self) x.

(** [bool(self.total)] *)
Definition has_total (self : t) : bool := truthy (of_option VInt (total self)).

Definition _calculate_eta : SE (t * world) (option Z) :=
  self <- get_self ;;
  if negb (has_total self) || (n self <=? 0) then ret None
  else
    now <- in_world time_time ;;
    let elapsed := Qred (now - start_t self) in
    let speed := if Qltb 0 elapsed then true_div (py_float (n self)) elapsed else 0%Q in
    if Qltb 0 speed then
      let remaining := true_div (py_float (default 0 (total self) - n self)) speed in
      ret (Some (py_int remaining))
    else ret None.

Definition _report_progress : SE (t * world) unit :=
  self <- get_self ;;
  if disable self then ret tt
  else
    pe <- (if has_total self then
             let progress := true_div (inject_Z (n self)) (inject_Z (default 0 (total self))) in
             eta <- _calculate_eta ;;
             ret (progress, eta)
           else ret (0%Q, None)) ;;
    let current_step :=
      (step self ++ ": " ++ pretty (n self) ++ "/"
         ++ (if has_total self then pretty (default 0 (total self)) else "?")
         ++ unit_ self)%string in
    in_world (State.update_progress (desc self) current_step (fst pe) (snd pe) None None).

(** The constructor, with the keyword arguments the class uses.
    [atexit.register(self.close)] is the call of [close] in [at_exit]. *)
Definition __init__ (iterable : option (iterable A)) (desc : option string)
    (total : option Z) (task step : option string) (unit_ : string)
    (leave : bool) (mininterval : Q) (disable : bool) (initial : Z)
    : SE world t :=
  now <- time_time ;;
  let total' := match total with
                | None => len_of iterable
                | Some _ => total
                end in
  let self := Self iterable (str_or desc (str_or task "Processing"))
                (str_or step "1/1") total' unit_ leave mininterval disable
                initial initial initial now now now in
  construct self (when (negb disable) _report_progress).

Definition update (k : Z) : SE (t * world) unit :=
  self <- get_self ;;
  if disable self then ret tt
  else
    set_self (set_n (n self + k) self) ;;
    now <- in_world time_time ;;
    self <- get_self ;;
    if Qle_bool (mininterval self) (Qred (now - last_update_t self)) then
      _report_progress ;;
      self <- get_self ;;
      set_self (set_last_update_t now self)
    else ret tt.

Definition _format_time (seconds : Z) : string :=
  if seconds <? 60 then (pretty seconds ++ "s")%string
  else if seconds <? 3600 then
    (pretty (seconds / 60) ++ "m " ++ pretty (seconds mod 60) ++ "s")%string
  else
    let hours := seconds / 3600 in
    let minutes := (seconds mod 3600) / 60 in
    (pretty hours ++ "h " ++ pretty minutes ++ "m")%string.

(** The summary line goes to [self.file]; of its text the event keeps the
    description, the count and the formatted elapsed time. *)
Definition _print_final : SE (t * world) unit :=
  self <- get_self ;;
  now <- in_world time_time ;;
  let elapsed := Qred (now - start_t self) in
  in_world (emit (EvPrintFinal (desc self) (n self) (_format_time (py_int elapsed)))).

Definition close : SE (t * world) unit :=
  self <- get_self ;;
  if negb (disable self) && (0 <? n self) then
    in_world (State.complete_task (desc self)) ;;
    if leave self then _print_final else ret tt
  else ret tt.

(** The body of the [for] loop of the generator, on the objects still to
    come; the result is the list of the objects yielded, for a consumer that
    takes every one of them. *)
Fixpoint iter_loop (objs : list A) : SE (t * world) (list A) :=
  match objs with
  | [] => ret []
  | obj :: rest =>
      update 1 ;;
      yielded <- iter_loop rest ;;
      ret (obj :: yielded)
  end.

(** [__iter__] is a generator function (its body has a [yield]): a [return]
    with a value ends the generator, and the value is not iterated. *)
Definition __iter__ : SE (t * world) (list A) :=
  self <- get_self ;;
  match iterable_ self with
  | None => ret []
  | Some it =>
      if disable self then ret []
      else try_finally (iter_loop (elements_of it)) close
  end.

Definition __enter__ : SE (t * world) unit := ret tt.

Definition __exit__ (exc : option exn) : SE (t * world) unit := close.

(** What the interpreter does at exit with the registered [close]: it calls
    it, and an exception from it is reported and dropped. *)
Definition at_exit : SE (t * world) unit :=
  try_except close (fun _ => true) (fun _ => ret tt).

End Wrapper.
Arguments t A : clear implicits.
End PulseProgress.

Module PulseTask.

(** A format template for [str.format] with the three named fields the class
    passes, as the sequence of its literal pieces and replacement fields. *)
Inductive piece : Type :=
| Lit (s : string)
| FStep
| FTotal
| FDescription.

(** ["Step {step}/{total}: {description}"] *)
Definition default_step_format : list piece :=
  [Lit "Step "; FStep; Lit "/"; FTotal; Lit ": "; FDescription].

Fixpoint format (tpl : list piece) (step total : Z) (description : string) : string :=
  match tpl with
  | [] => ""
  | Lit s :: tl => (s ++ format tl step total description)%string
  | FStep :: tl => (pretty step ++ format tl step total description)%string
  | FTotal :: tl => (pretty total ++ format tl step total description)%string
  | FDescription :: tl => (description ++ format tl step total description)%string
  end.

Record t : Type := Self {
  task_name : string;
  total_steps : Z;
  step_format : list piece;
  current_step : Z;
  start_time : option Q;
  closed : bool
}.

Definition set_current_step (k : Z) (self : t) : t :=
  Self (task_name self) (total_steps self) (step_format self) k
    (start_time self) (closed self).

Definition set_start_time (x : option Q) (self : t) : t :=
  Self (task_name self) (total_steps self) (step_format self)
    (current_step self) x (closed self).

Definition set_closed (b : bool) (self : t) : t :=
  Self (task_name self) (total_steps self) (step_format self)
    (current_step self) (start_time self) b.

(** [atexit.register(self.close)] is the call of [close] in [at_exit]. *)
Definition __init__ (task_name : string) (total_steps : Z)
    (step_format : list piece) : t :=
  Self task_name total_steps step_format 0 None false.

(** [self.current_step / self.total_steps if self.total_steps > 0 else 0.0] *)
Definition ratio (self : t) : Q :=
  if 0 <? total_steps self
  then true_div (inject_Z (current_step self)) (inject_Z (total_steps self))
  else 0%Q.

Definition close : SE (t * world) unit :=
  self <- get_self ;;
  if negb (closed self) && truthy (of_option VFloat (start_time self)) then
    set_self (set_closed true self) ;;
    in_world (State.complete_task (task_name self))
  else ret tt.

Definition __enter__ : SE (t * world) unit :=
  now <- in_world time_time ;;
  self <- get_self ;;
  set_self (set_start_time (Some now) self) ;;
  in_world (State.update_progress (task_name self) "Starting..." 0 None None None).

Definition __exit__ (exc : option exn) : SE (t * world) unit :=
  close ;;
  match exc with
  | Some e =>
      self <- get_self ;;
      let error_msg := (__name__ (exc_class e) ++ ": " ++ exc_val e)%string in
      in_world (State.update_progress (task_name self) "Error occurred"
                  (ratio self) None (Some error_msg) None)
  | None => ret tt
  end.

Definition step (description : string) (progress : option Q) : SE (t * world) unit :=
  self <- get_self ;;
  if closed self then ret tt
  else
    set_self (set_current_step (current_step self + 1) self) ;;
    self <- get_self ;;
    let progress := match progress with
                    | Some p => p
                    | None => ratio self
                    end in
    let step_text := format (step_format self) (current_step self)
                       (total_steps self) description in
    in_world (State.update_progress (task_name self) step_text progress None None None).

Definition update_progress (progress : Q) (description : option string)
    : SE (t * world) unit :=
  self <- get_self ;;
  if closed self then ret tt
  else
    let step_text :=
      str_or description
        ("Step " ++ pretty (current_step self) ++ "/" ++ pretty (total_steps self))%string in
    in_world (State.update_progress (task_name self) step_text progress None None None).

(** [with session: body].  [__exit__] returns [None], so an exception of the
    body goes on after it. *)
Definition with_ {A} (body : SE (t * world) A) : SE (t * world) A :=
  __enter__ ;;
  fun sw =>
    match body sw with
    | (Ret a, sw') => (__exit__ None ;; ret a) sw'
    | (Raise e, sw') => (__exit__ (Some e) ;; raise e) sw'
    end.

(** What the interpreter does at exit with the registered [close]. *)
Definition at_exit : SE (t * world) unit :=
  try_except close (fun _ => true) (fun _ => ret tt).

(** The calls a scope makes on its session. *)
Inductive call : Type :=
| CallStep (description : string) (progress : option Q)
| CallUpdateProgress (progress : Q) (description : option string)
| CallClose
| CallRaise (e : exn).

Definition perform (c : call) : SE (t * world) unit :=
  match c with
  | CallStep d p => step d p
  | CallUpdateProgress p d => update_progress p d
  | CallClose => close
  | CallRaise e => raise e
  end.

Fixpoint script (cs : list call) : SE (t * world) unit :=
  match cs with
  | [] => ret tt
  | c :: rest => perform c ;; script rest
  end.

End PulseTask.

(** [pulse_progress(iterable, desc, task, step, total)] with the defaults of
    the other keyword arguments *)
Definition pulse_progress {A} (iterable : option (iterable A))
    (desc task step : option string) (total : option Z) (disable : bool)
    : SE world (PulseProgress.t A) :=
  PulseProgress.__init__ iterable desc total task step "it" true (1 # 10) disable 0.

Definition pulse_task (task_name : string) (total_steps : Z) : PulseTask.t :=
  PulseTask.__init__ task_name total_steps PulseTask.default_step_format.

(** * Vocabulary of the statements *)

(** The file exists, can be read and written, and holds the JSON text of [v]. *)
Definition holds (f : file) (v : value) : Prop :=
  f = File (Some (Json v)) true true.

Definition good_file (f : file) : option dict :=
  match f with
  | File (Some (Json (VDict d))) true true => Some d
  | _ => None
  end.

(** The stored [started_at] is absent, falsy or a timestamp: what the store
    itself writes there. *)
Definition started_ok (d : dict) : bool :=
  match default VNone (d !! "started_at") with
  | VTime _ => true
  | v => negb (truthy v)
  end.

Definition progress_ok (f : file) : bool :=
  match good_file f with
  | Some d => started_ok d
  | None => false
  end.

Definition history_ok (f : file) : bool :=
  match good_file f with
  | Some h =>
      match h !! "completed_tasks" with
      | Some (VList _) => true
      | _ => false
      end
  | None => false
  end.

(** A store in working order: both documents are there, accessible, and of
    the shape the store writes. *)
Definition store_ok (w : world) : bool :=
  progress_ok (progress_json (files w)) && history_ok (history_json (files w)).

(** The file cannot be loaded for a reason [_read_safe] recovers from: it is
    missing, unreadable, or its text is not a JSON document. *)
Definition degraded (f : file) : bool :=
  match data f with
  | None => true
  | Some c =>
      negb (readable f) || match c with Malformed => true | _ => false end
  end.

Definition now_of (w : world) : Z := clock w (reads w).

Definition tick (w : world) : world :=
  World (files w) (clock w) (S (reads w)) (getpid w) (trace w).

Definition logged (e : event) (w : world) : world :=
  World (files w) (clock w) (reads w) (getpid w) (e :: trace w).

(** The world after a successful [_write_safe filepath v]. *)
Definition written (p : path) (v : value) (w : world) : world :=
  World (fset p (set_data (Json v) (fget p (files w))) (files w))
    (clock w) (reads w) (getpid w) (EvDump p v :: EvOpenW p :: trace w).

(** [pid or os.getpid()] *)
Definition pid_of (pid : option Z) (w : world) : Z :=
  match pid with
  | Some p => if truthy (VInt p) then p else getpid w
  | None => getpid w
  end.

(** The record [update_progress] writes over a progress document [d]. *)
Definition updated_record (tn cs : string) (p : Q) (eta : option Z)
    (err : option string) (pid : option Z) (d : dict) (w : world) : dict :=
  State.progress_record tn cs p eta (default VNone (d !! "started_at"))
    (now_of w) err (pid_of pid w).

(** What [_calculate_duration] returns over a progress document [d] whose
    [started_at] is as the store writes it, and the world it leaves. *)
Definition duration_of (d : dict) (w : world) : value * world :=
  match default VNone (d !! "started_at") with
  | VTime t => (VInt (py_int (total_seconds (now_of w) t)), tick w)
  | _ => (VNone, w)
  end.

(** The entry [complete_task] adds, over a progress document [d]. *)
Definition completed_entry (tn : string) (d : dict) (w : world) : value :=
  State.history_entry tn (now_of w)
    (fst (duration_of d (tick (logged (EvCompleteTask tn) w)))).

(** The world after [complete_task tn], over a progress document [d] and a
    history document [h] whose entries are [l]. *)
Definition completed (tn : string) (d h : dict) (l : list value) (w : world) : world :=
  written PROGRESS_FILE (VDict State.inactive_template)
    (written HISTORY_FILE
       (VDict (<["completed_tasks" := VList (take 10 (completed_entry tn d w :: l))]> h))
       (snd (duration_of d (tick (logged (EvCompleteTask tn) w))))).

Definition is_complete_task (e : event) : bool :=
  match e with EvCompleteTask _ => true | _ => false end.

(** How many times [complete_task] has been invoked. *)
Definition completions (w : world) : nat :=
  length (filter (fun e => is_complete_task e = true) (trace w)).

(** A computation on the world is quiet when it leaves the number of
    invocations of [complete_task] as it was, whether it returns or raises. *)
Definition quiet {A} (m : SE world A) : Prop :=
  forall w, completions (snd (m w)) = completions w.

(** The state a computation leaves, whether it returns or raises. *)
Definition after {St A} (m : SE St A) (s : St) : St := snd (m s).

(** A computation keeps a property of the state. *)
Definition keeps {St A} (P : St -> Prop) (m : SE St A) : Prop :=
  forall s, P s -> P (snd (m s)).

(** The session has been entered, and [complete_task] has been invoked for
    it once if it is closed and not at all if it is not; [c0] is the count
    before the session. *)
Definition session_inv (c0 : nat) (sw : PulseTask.t * world) : Prop :=
  truthy (of_option VFloat (PulseTask.start_time (fst sw))) = true
  /\ completions (snd sw)
     = (c0 + (if PulseTask.closed (fst sw) then 1 else 0))%nat.

(** The worlds a reader in another process can come upon while
    [_write_safe filepath v] runs from [w]: before the open, between the open
    and the dump, and at the end. *)
Definition write_safe_states (p : path) (v : value) (w : world) : list world :=
  w :: match State.open_w p w with
       | (Ret _, w1) => [w1; snd (State.json_dump p v w1)]
       | (Raise e, w1) => [snd (logger_error e w1)]
       end.

(** What a file holds in each world of a list. *)
Definition seen (p : path) (ws : list world) : list (option contents) :=
  map (fun w => data (fget p (files w))) ws.

(** The documents as the interface section of the specification gives them. *)
Definition is_null_or (P : value -> bool) (o : option value) : bool :=
  match o with
  | Some VNone => true
  | Some v => P v
  | None => false
  end.

Definition is_int (v : value) : bool := match v with VInt _ => true | _ => false end.
Definition is_number (v : value) : bool :=
  match v with VInt _ | VFloat _ => true | _ => false end.
Definition is_string (v : value) : bool := match v with VStr _ => true | _ => false end.
Definition is_timestamp (v : value) : bool := match v with VTime _ => true | _ => false end.

(** Specification, progress document:
    [{active: bool, task_name: string|null, current_step: string|null,
      progress: number, eta_seconds: integer|null, started_at: ISO-8601|null,
      last_update: ISO-8601|null, error: string|null, pid: integer|null}] *)
Definition spec_progress_document (v : value) : bool :=
  match v with
  | VDict d =>
      match d !! "active" with Some (VBool _) => true | _ => false end
      && is_null_or is_string (d !! "task_name")
      && is_null_or is_string (d !! "current_step")
      && match d !! "progress" with Some x => is_number x | None => false end
      && is_null_or is_int (d !! "eta_seconds")
      && is_null_or is_timestamp (d !! "started_at")
      && is_null_or is_timestamp (d !! "last_update")
      && is_null_or is_string (d !! "error")
      && is_null_or is_int (d !! "pid")
  | _ => false
  end.

(** Specification, history document: [{completed_tasks: array ...}] *)
Definition spec_history_document (v : value) : bool :=
  match v with
  | VDict d => match d !! "completed_tasks" with Some (VList _) => true | _ => false end
  | _ => false
  end.

(** Specification, widget-position document: [{x: integer, y: integer}] *)
Definition spec_position_document (v : value) : bool :=
  match v with
  | VDict d =>
      match d !! "x", d !! "y" with
      | Some (VInt _), Some (VInt _) => true
      | _, _ => false
      end
  | _ => false
  end.

(** The [task_name] of a history entry. *)
Definition entry_name (v : value) : option value :=
  match v with
  | VDict d => d !! "task_name"
  | _ => None
  end.

(** The task names of the history document of a world, newest first. *)
Definition history_names (w : world) : list (option value) :=
  match good_file (history_json (files w)) with
  | Some h =>
      match h !! "completed_tasks" with
      | Some (VList l) => map entry_name l
      | _ => []
      end
  | None => []
  end.

(** Reporting and completing the tasks of a list, one after the other. *)
Fixpoint run_tasks (names : list string) : SE world unit :=
  match names with
  | [] => ret tt
  | name :: rest =>
      State.update_progress name "working" 1 None None None ;;
      State.complete_task name ;;
      run_tasks rest
  end.

(** The whole life of a wrapper made by [pulse_progress] around a list: it is
    built, iterated to the end by a [for] loop, and the interpreter exits. *)
Definition tracker_life {A} (l : list A) (disable : bool) (w : world)
    : outcome (list A) * world :=
  match pulse_progress (Some (Sized l)) None (Some "Test") None None disable w with
  | (Ret self, w1) =>
      match PulseProgress.__iter__ (self, w1) with
      | (r, sw2) => (r, snd (after PulseProgress.at_exit sw2))
      end
  | (Raise e, w1) => (Raise e, w1)
  end.

(** A wrapper made for a known total and advanced by hand, once. *)
Definition tracker_advance (total k : Z) (w : world) : world :=
  match pulse_progress (@None (iterable unit)) None (Some "Job") None (Some total)
          false w with
  | (Ret self, w1) => snd (after (PulseProgress.update k) (self, w1))
  | (Raise e, w1) => w1
  end.

(** A wrapper as [pulse_progress] makes it around a list at time 0. *)
Definition sample_tracker {A} (l : list A) : PulseProgress.t A :=
  PulseProgress.Self (Some (Sized l)) "Test" "1/1" (Some (Z.of_nat (length l)))
    "it" true (1 # 10) false 0 0 0 0 0 0.

(** A scope around a session for [total_steps] steps. *)
Definition session_scope (tn : string) (total_steps : Z) (cs : list PulseTask.call)
    (w : world) : outcome unit * (PulseTask.t * world) :=
  PulseTask.with_ (PulseTask.script cs) (pulse_task tn total_steps, w).

(** ** Sample worlds *)

Definition absent : file := File None true true.

(** A fresh machine: no state file yet; the clock advances by ten seconds
    from one reading to the next. *)
Definition fresh_world : world :=
  World (Disk absent absent absent)
    (fun k => 1700000000000000 + 10000000 * Z.of_nat k) 0 4242 [].

(** The world once the module [pypulse_state] has been imported. *)
Definition started_world : world := snd (State.__init__ fresh_world).

(** A field of the progress document of a world. *)
Definition progress_field (key : string) (w : world) : option value :=
  match good_file (progress_json (files w)) with
  | Some d => d !! key
  | None => None
  end.

(** The counter, the total and the elapsed time are of a size at which the
    divisions of [_calculate_eta] stay within the exponents of binary64: the
    integers are below [2 ^ 64] and the elapsed time, when it is positive,
    lies between [2 ^ -64] and [2 ^ 64] seconds. *)
Definition eta_in_range (n T : Z) (elapsed : Q) : bool :=
  (n <? 2 ^ 64) && (Z.abs T <? 2 ^ 64)
  && Qle_bool elapsed (pow2 64)
  && (Qle_bool elapsed 0 || Qle_bool (pow2 (-64)) elapsed).

(** * Vocabulary of the further properties *)

(** The world after [_write_safe filepath v], whether the file can be opened
    for writing or not. *)
Definition wrote (p : path) (v : value) (w : world) : world :=
  if writable (fget p (files w)) then written p v w
  else logged (EvLogError (Exn PermissionError "Permission denied")) w.

(** The document [_ensure_files_exist] gives a state file that is missing. *)
Definition default_document (p : path) : value :=
  match p with
  | PROGRESS_FILE => VDict State.inactive_template
  | HISTORY_FILE => VDict (list_to_map [("completed_tasks", VList [])])
  | WIDGET_POSITION_FILE => VDict (list_to_map [("x", VInt 100); ("y", VInt 100)])
  end.

(** A state file after the initialisation of the store. *)
Definition created (p : path) (f : file) : file :=
  match data f with
  | Some _ => f
  | None => if writable f then set_data (Json (default_document p)) f else f
  end.

(** The world after the check of one state file by [_ensure_files_exist]. *)
Definition ensured (p : path) (w : world) : world :=
  match data (fget p (files w)) with
  | Some _ => w
  | None => wrote p (default_document p) w
  end.

(** The entries of the history document of a world, newest first. *)
Definition history_entries (w : world) : list value :=
  match good_file (history_json (files w)) with
  | Some h =>
      match h !! "completed_tasks" with
      | Some (VList l) => l
      | _ => []
      end
  | None => []
  end.

(** A computation leaves a file as it was, whether it returns or raises. *)
Definition untouched (p : path) {A} (m : SE world A) : Prop :=
  forall w, fget p (files (snd (m w))) = fget p (files w).

(** The three documents are there, accessible and JSON objects; the progress
    document has the nine fields with values of their kinds, and the history
    has a list of at most ten entries. *)
Definition store_inv (w : world) : bool :=
  store_ok w
  && match good_file (progress_json (files w)) with
     | Some d => spec_progress_document (VDict d)
     | None => false
     end
  && (length (history_names w) <=? 10)%nat
  && match good_file (widget_position_json (files w)) with
     | Some _ => true
     | None => false
     end.

(** The calls a client makes on the store. *)
Inductive store_call : Type :=
| DoUpdate (task_name current_step : string) (progress : Q)
    (eta_seconds : option Z) (error : option string) (pid : option Z)
| DoComplete (task_name : string)
| DoClearStale (max_idle_seconds : Z)
| DoSavePosition (x y : Z)
| DoGetProgress
| DoGetHistory
| DoGetPosition.

Definition run_call (c : store_call) : SE world unit :=
  match c with
  | DoUpdate tn cs p eta err pid => State.update_progress tn cs p eta err pid
  | DoComplete tn => State.complete_task tn
  | DoClearStale m => State.clear_stale_progress m
  | DoSavePosition x y => State.save_widget_position x y
  | DoGetProgress => State.get_progress ;; ret tt
  | DoGetHistory => State.get_history ;; ret tt
  | DoGetPosition => State.get_widget_position ;; ret tt
  end.

Fixpoint run_calls (cs : list store_call) : SE world unit :=
  match cs with
  | [] => ret tt
  | c :: rest => run_call c ;; run_calls rest
  end.

(** An integer that the interpreter converts to text, as [json.dump] has to:
    one of at most 4300 digits. *)
Definition int_prints (z : Z) : bool := Z.abs z <? 10 ^ 4300.

(** A call whose integer arguments [json.dump] can write. *)
Definition call_prints (c : store_call) : bool :=
  match c with
  | DoUpdate _ _ _ eta _ pid =>
      from_option int_prints true eta && from_option int_prints true pid
  | DoSavePosition x y => int_prints x && int_prints y
  | _ => true
  end.

(** The first rounds of [_cleanup_worker]: each round is one call of
    [clear_stale_progress] with its default threshold of 300 seconds; the
    sleep between two rounds is the passing of the clock. *)
Fixpoint _cleanup_worker (rounds : nat) : SE world unit :=
  match rounds with
  | O => ret tt
  | S k => State.clear_stale_progress 300 ;; _cleanup_worker k
  end.

(** A script without [raise]. *)
Definition raises_nothing (cs : list PulseTask.call) : bool :=
  forallb (fun c => match c with PulseTask.CallRaise _ => false | _ => true end) cs.

(** The state of a session inside its scope, on a store in working order:
    either it is open and [complete_task] has not been invoked, or it is
    closed, [complete_task] has been invoked once, and the progress document
    is the inactive template with the task at the head of the history.
    [c0] is the count before the session. *)
Definition scope_inv (c0 : nat) (sw : PulseTask.t * world) : Prop :=
  store_ok (snd sw) = true
  /\ truthy (of_option VFloat (PulseTask.start_time (fst sw))) = true
  /\ (if PulseTask.closed (fst sw)
      then completions (snd sw) = Datatypes.S c0
           /\ good_file (progress_json (files (snd sw))) = Some State.inactive_template
           /\ head (history_names (snd sw))
              = Some (Some (VStr (PulseTask.task_name (fst sw))))
      else completions (snd sw) = c0).

(** * Running computations *)

Lemma bind_run {St A B} (m : SE St A) (k : A -> SE St B) s a s' :
  m s = (Ret a, s') -> bind m k s = k a s'.
Proof. intros H. unfold bind. by rewrite H. Qed.

Ltac run_with tac := erewrite bind_run by tac.
Ltac run := run_with ltac:(reflexivity).

Lemma fget_fset p f d : fget p (fset p f d) = f.
Proof. by destruct p. Qed.

Lemma fset_fset p f g d : fset p f (fset p g d) = fset p f d.
Proof. by destruct p. Qed.

Lemma good_file_holds f d : good_file f = Some d -> holds f (VDict d).
Proof.
  unfold good_file, holds.
  destruct f as [[[| |[]]|] [] []]; intros H; try discriminate.
  by injection H as ->.
Qed.


Lemma holds_good_file f d : holds f (VDict d) -> good_file f = Some d.
Proof. unfold holds. by intros ->. Qed.

(** ** The store, on files in working order *)

Lemma read_safe_holds p w v :
  holds (fget p (files w)) v -> State._read_safe p w = (Ret v, w).
Proof.
  unfold holds. intros H.
  unfold State._read_safe, try_except, State.open_r_load, State.load.
  by rewrite H.
Qed.

Lemma write_safe_writable p v w :
  writable (fget p (files w)) = true ->
  State._write_safe p v w = (Ret tt, written p v w).
Proof.
  intros H.
  unfold State._write_safe, try_except, bind, State.open_w, State.json_dump, written.
  rewrite H. cbn [emit with_files files clock reads getpid trace].
  by rewrite fget_fset, fset_fset.
Qed.

Lemma write_safe_holds p v u w :
  holds (fget p (files w)) u ->
  State._write_safe p v w = (Ret tt, written p v w).
Proof. unfold holds. intros H. apply write_safe_writable. by rewrite H. Qed.

Lemma written_holds p v u w :
  holds (fget p (files w)) u -> holds (fget p (files (written p v w))) v.
Proof.
  unfold holds, written. intros H. cbn [files]. by rewrite fget_fset, H.
Qed.

Lemma get_started_at_run w d :
  holds (progress_json (files w)) (VDict d) ->
  State._get_started_at w = (Ret (default VNone (d !! "started_at")), w).
Proof.
  intros H. unfold State._get_started_at.
  run_with ltac:(by apply read_safe_holds). reflexivity.
Qed.

Lemma pid_run pid w :
  match pid with
  | Some p => if truthy (VInt p) then ret p else os_getpid
  | None => os_getpid
  end w = (Ret (pid_of pid w), w).
Proof.
  unfold pid_of. destruct pid as [p|]; [destruct (truthy (VInt p))|]; reflexivity.
Qed.

Lemma update_progress_run tn cs p eta err pid w d :
  holds (progress_json (files w)) (VDict d) ->
  State.update_progress tn cs p eta err pid w =
  (Ret tt,
   written PROGRESS_FILE (VDict (updated_record tn cs p eta err pid d w))
     (tick (logged (EvUpdateProgress tn) w))).
Proof.
  intros H. unfold State.update_progress.
  run. run. run_with ltac:(by apply get_started_at_run).
  run_with ltac:(apply pid_run).
  by rewrite (write_safe_holds _ _ (VDict d)).
Qed.

Lemma update_progress_holds tn cs p eta err pid w d :
  holds (progress_json (files w)) (VDict d) ->
  holds (progress_json (files (snd (State.update_progress tn cs p eta err pid w))))
    (VDict (updated_record tn cs p eta err pid d w)).
Proof.
  intros H. rewrite (update_progress_run _ _ _ _ _ _ _ d H). cbn [snd].
  by apply (written_holds PROGRESS_FILE _ (VDict d)).
Qed.

Lemma record_fields tn cs p eta st now err pid :
  let r := State.progress_record tn cs p eta st now err pid in
  r !! "active" = Some (VBool true)
  /\ r !! "task_name" = Some (VStr tn)
  /\ r !! "current_step" = Some (VStr cs)
  /\ r !! "progress" = Some (VFloat (State.clamp p))
  /\ r !! "eta_seconds" = Some (of_option VInt eta)
  /\ r !! "started_at" = Some (py_or st (VTime now))
  /\ r !! "last_update" = Some (VTime now)
  /\ r !! "error" = Some (of_option VStr err)
  /\ r !! "pid" = Some (VInt pid).
Proof. repeat split; reflexivity. Qed.

Lemma py_or_truthy a b : truthy b = true -> truthy (py_or a b) = true.
Proof. unfold py_or. intros H. by destruct (truthy a) eqn:E. Qed.

Lemma py_or_idem a b c : truthy b = true -> py_or (py_or a b) c = py_or a b.
Proof. intros H. unfold py_or at 1. by rewrite py_or_truthy. Qed.

Lemma started_ok_record tn cs p eta st now err pid d :
  started_ok d = true ->
  st = default VNone (d !! "started_at") ->
  started_ok (State.progress_record tn cs p eta st now err pid) = true.
Proof.
  unfold started_ok. intros H ->.
  destruct (record_fields tn cs p eta (default VNone (d !! "started_at")) now err pid)
    as (_ & _ & _ & _ & _ & -> & _).
  unfold py_or.
  destruct (default VNone (d !! "started_at")) eqn:E; cbn in *; try done;
    match goal with
    | H : negb ?b = true |- _ => destruct b; try done
    end.
Qed.

Lemma py_get_dict {St} (d : dict) key dflt (s : St) :
  py_get (VDict d) key dflt s = (Ret (default dflt (d !! key)), s).
Proof. reflexivity. Qed.

Lemma calculate_duration_run w d :
  holds (progress_json (files w)) (VDict d) ->
  started_ok d = true ->
  State._calculate_duration w = (Ret (fst (duration_of d w)), snd (duration_of d w)).
Proof.
  intros H Hs. unfold State._calculate_duration.
  run_with ltac:(by apply read_safe_holds). run_with ltac:(apply py_get_dict).
  unfold started_ok in Hs. unfold duration_of.
  destruct (default VNone (d !! "started_at")) eqn:E; cbn in Hs |- *;
    try (match type of Hs with negb ?b = true => destruct b; try done end);
    reflexivity.
Qed.

Lemma duration_of_files d w : files (snd (duration_of d w)) = files w.
Proof. unfold duration_of. by destruct (default VNone (d !! "started_at")). Qed.

Lemma complete_task_run tn w d h l :
  holds (progress_json (files w)) (VDict d) ->
  started_ok d = true ->
  holds (history_json (files w)) (VDict h) ->
  h !! "completed_tasks" = Some (VList l) ->
  State.complete_task tn w = (Ret tt, completed tn d h l w).
Proof.
  intros Hp Hs Hh Hl. unfold State.complete_task.
  run. run_with ltac:(by apply read_safe_holds).
  run_with ltac:(by apply read_safe_holds). run.
  run_with ltac:(by apply calculate_duration_run).
  cbn [py_getitem]. rewrite Hl. run. run. run.
  cbn [py_getitem]. rewrite lookup_insert_eq. run. run. run.
  rewrite insert_insert_eq.
  set (w2 := snd (duration_of d _)).
  assert (Hh2 : holds (fget HISTORY_FILE (files w2)) (VDict h)).
  { subst w2. by rewrite duration_of_files. }
  assert (Hp2 : holds (fget PROGRESS_FILE (files w2)) (VDict d)).
  { subst w2. by rewrite duration_of_files. }
  run_with ltac:(by apply (write_safe_holds _ _ (VDict h))).
  rewrite (write_safe_holds _ _ (VDict d)); [reflexivity|].
  unfold holds in *. cbn. cbn in Hp2. by rewrite Hp2.
Qed.

Lemma completed_progress tn d h l w :
  holds (progress_json (files w)) (VDict d) ->
  holds (progress_json (files (completed tn d h l w))) (VDict State.inactive_template).
Proof.
  unfold holds, completed, written. intros H. cbn.
  by rewrite duration_of_files; cbn; rewrite H.
Qed.

Lemma completed_history tn d h l w :
  holds (history_json (files w)) (VDict h) ->
  holds (history_json (files (completed tn d h l w)))
    (VDict (<["completed_tasks" := VList (take 10 (completed_entry tn d w :: l))]> h)).
Proof.
  unfold holds, completed, written. intros H. cbn.
  by rewrite duration_of_files; cbn; rewrite H.
Qed.

Lemma store_ok_inv w :
  store_ok w = true ->
  exists d h l,
    holds (progress_json (files w)) (VDict d) /\ started_ok d = true
    /\ holds (history_json (files w)) (VDict h)
    /\ h !! "completed_tasks" = Some (VList l).
Proof.
  unfold store_ok, progress_ok, history_ok. intros H.
  apply andb_prop in H as [Hp Hh].
  destruct (good_file (progress_json (files w))) as [d|] eqn:Ed; [|done].
  destruct (good_file (history_json (files w))) as [h|] eqn:Eh; [|done].
  destruct (h !! "completed_tasks") as [[]|] eqn:El; try done.
  eauto 10 using good_file_holds.
Qed.

Lemma store_ok_intro w d h l :
  holds (progress_json (files w)) (VDict d) -> started_ok d = true ->
  holds (history_json (files w)) (VDict h) ->
  h !! "completed_tasks" = Some (VList l) ->
  store_ok w = true.
Proof.
  intros Hp Hs Hh Hl. unfold store_ok, progress_ok, history_ok.
  rewrite (holds_good_file _ _ Hp), (holds_good_file _ _ Hh), Hs, Hl. done.
Qed.

Lemma written_other p q v w : p <> q -> fget q (files (written p v w)) = fget q (files w).
Proof. unfold written. cbn [files]. by destruct p, q. Qed.

Lemma update_progress_ok tn cs p eta err pid w :
  store_ok w = true ->
  fst (State.update_progress tn cs p eta err pid w) = Ret tt
  /\ store_ok (snd (State.update_progress tn cs p eta err pid w)) = true.
Proof.
  intros H. destruct (store_ok_inv _ H) as (d & h & l & Hp & Hs & Hh & Hl).
  split; [by rewrite (update_progress_run _ _ _ _ _ _ _ d Hp)|].
  apply (store_ok_intro _ (updated_record tn cs p eta err pid d w) h l); try done.
  - by apply update_progress_holds.
  - by eapply started_ok_record.
  - rewrite (update_progress_run _ _ _ _ _ _ _ d Hp). cbn [snd].
    change (history_json ?x) with (fget HISTORY_FILE x).
    by rewrite written_other.
Qed.

Lemma complete_task_ok tn w :
  store_ok w = true ->
  fst (State.complete_task tn w) = Ret tt
  /\ store_ok (snd (State.complete_task tn w)) = true.
Proof.
  intros H. destruct (store_ok_inv _ H) as (d & h & l & Hp & Hs & Hh & Hl).
  rewrite (complete_task_run tn w d h l Hp Hs Hh Hl). split; [done|]. cbn [snd].
  eapply store_ok_intro.
  - by apply completed_progress.
  - reflexivity.
  - by apply completed_history.
  - apply lookup_insert_eq.
Qed.

Lemma progress_field_holds key w d :
  holds (progress_json (files w)) (VDict d) -> progress_field key w = d !! key.
Proof. intros H. unfold progress_field. by rewrite (holds_good_file _ _ H). Qed.

(** ** The error field *)

(** C2, as stated, fails: a record that carries the error "boom" loses it at
    the next [update_progress] whose error argument is absent. *)
Lemma C2_nil_error_overwrites :
  let w1 := snd (State.update_progress "T" "step" (1 # 2) None (Some "boom") None
                   started_world) in
  let w2 := snd (State.update_progress "T" "step" (3 # 5) None None None w1) in
  progress_field "error" w1 = Some (VStr "boom")
  /\ progress_field "error" w2 = Some VNone.
Proof. vm_compute. done. Qed.

(** C2, amended: every [update_progress] writes its error argument wholesale.
    The persisted error is the argument of the call, null when the argument is
    absent, whatever error the record held before; [complete_task] sets it to
    null. *)
Theorem C2_error_written_wholesale w tn cs p eta err pid :
  store_ok w = true ->
  progress_field "error" (snd (State.update_progress tn cs p eta err pid w))
    = Some (of_option VStr err)
  /\ progress_field "error" (snd (State.complete_task tn w)) = Some VNone.
Proof.
  intros H. destruct (store_ok_inv _ H) as (d & h & l & Hp & Hs & Hh & Hl).
  split.
  - rewrite (progress_field_holds _ _ _ (update_progress_holds tn cs p eta err pid w d Hp)).
    apply record_fields.
  - rewrite (complete_task_run tn w d h l Hp Hs Hh Hl). cbn [snd].
    by rewrite (progress_field_holds _ _ _ (completed_progress tn d h l w Hp)).
Qed.

Lemma C2_error_written_wholesale_witness :
  store_ok started_world = true
  /\ progress_field "error"
       (snd (State.update_progress "T" "step" (3 # 5) None None None started_world))
     = Some VNone.
Proof.
  split; [reflexivity|].
  apply (C2_error_written_wholesale started_world "T" "step" (3 # 5) None None None).
  reflexivity.
Defined.

(** ** started_at and last_update *)

(** C5, as stated, fails: while the record of task "A" is the current one, no
    record is active for "B", and yet the first [update_progress] for "B"
    keeps the [started_at] of "A" instead of the time of the call. *)
Lemma C5_started_at_of_other_task :
  let w1 := snd (State.update_progress "A" "step" (1 # 2) None None None
                   started_world) in
  let w2 := snd (State.update_progress "B" "step" (1 # 2) None None None w1) in
  progress_field "task_name" w1 = Some (VStr "A")
  /\ progress_field "started_at" w1 = Some (VTime 1700000000000000)
  /\ now_of w1 = 1700000010000000
  /\ progress_field "task_name" w2 = Some (VStr "B")
  /\ progress_field "started_at" w2 = Some (VTime 1700000000000000)
  /\ progress_field "last_update" w2 = Some (VTime 1700000010000000).
Proof. vm_compute. done. Qed.

(** C5, amended: [update_progress] stamps [last_update] with the current
    time; it keeps the [started_at] of the stored document when that is set,
    whatever the task the document is about, and stamps the current time
    otherwise.  Hence two consecutive calls, for the same task or not, write
    the same [started_at]. *)
Theorem C5_started_at_rule w d tn cs p eta err pid :
  holds (progress_json (files w)) (VDict d) ->
  let w1 := snd (State.update_progress tn cs p eta err pid w) in
  progress_field "last_update" w1 = Some (VTime (now_of w))
  /\ progress_field "started_at" w1
     = Some (if truthy (default VNone (d !! "started_at"))
             then default VNone (d !! "started_at")
             else VTime (now_of w))
  /\ forall tn' cs' p' eta' err' pid',
       progress_field "started_at"
         (snd (State.update_progress tn' cs' p' eta' err' pid' w1))
       = progress_field "started_at" w1.
Proof.
  intros Hp w1.
  pose proof (update_progress_holds tn cs p eta err pid w d Hp) as H1.
  fold w1 in H1.
  rewrite !(progress_field_holds _ _ _ H1).
  destruct (record_fields tn cs p eta (default VNone (d !! "started_at"))
              (now_of w) err (pid_of pid w)) as (_ & _ & _ & _ & _ & Hst & Hlu & _).
  cbn zeta in Hst, Hlu. fold (updated_record tn cs p eta err pid d w) in Hst, Hlu.
  split; [exact Hlu|]. split; [exact Hst|].
  intros tn' cs' p' eta' err' pid'.
  rewrite (progress_field_holds _ _ _
             (update_progress_holds tn' cs' p' eta' err' pid' w1 _ H1)).
  destruct (record_fields tn' cs' p' eta'
              (default VNone (updated_record tn cs p eta err pid d w !! "started_at"))
              (now_of w1) err' (pid_of pid' w1)) as (_ & _ & _ & _ & _ & Hst' & _).
  cbn zeta in Hst'. unfold updated_record at 1. rewrite Hst'.
  rewrite Hst. cbn [from_option id]. by rewrite py_or_idem.
Qed.

Lemma C5_started_at_rule_witness :
  holds (progress_json (files started_world)) (VDict State.inactive_template)
  /\ progress_field "started_at"
       (snd (State.update_progress "T" "step two" (3 # 5) None None None
          (snd (State.update_progress "T" "step one" (1 # 2) None None None
                  started_world))))
     = progress_field "started_at"
         (snd (State.update_progress "T" "step one" (1 # 2) None None None
                 started_world)).
Proof.
  assert (H : holds (progress_json (files started_world)) (VDict State.inactive_template))
    by reflexivity.
  split; [exact H|].
  apply (C5_started_at_rule started_world State.inactive_template
           "T" "step one" (1 # 2) None None None H).
Defined.

(** ** Completion and the history *)

Lemma history_names_holds w h l :
  holds (history_json (files w)) (VDict h) ->
  h !! "completed_tasks" = Some (VList l) ->
  history_names w = map entry_name l.
Proof.
  intros Hh Hl. unfold history_names. by rewrite (holds_good_file _ _ Hh), Hl.
Qed.

Lemma history_names_update tn cs p eta err pid w :
  store_ok w = true ->
  history_names (snd (State.update_progress tn cs p eta err pid w)) = history_names w.
Proof.
  intros H. destruct (store_ok_inv _ H) as (d & h & l & Hp & Hs & Hh & Hl).
  rewrite (update_progress_run _ _ _ _ _ _ _ d Hp). cbn [snd].
  unfold history_names.
  change (history_json ?x) with (fget HISTORY_FILE x).
  by rewrite written_other.
Qed.

Lemma history_names_complete tn w :
  store_ok w = true ->
  history_names (snd (State.complete_task tn w))
  = take 10 (Some (VStr tn) :: history_names w).
Proof.
  intros H. destruct (store_ok_inv _ H) as (d & h & l & Hp & Hs & Hh & Hl).
  rewrite (complete_task_run tn w d h l Hp Hs Hh Hl). cbn [snd].
  rewrite (history_names_holds _ _ _ (completed_history tn d h l w Hh)
             (lookup_insert_eq _ _ _)).
  rewrite (history_names_holds _ _ _ Hh Hl).
  change (Some (VStr tn) :: map entry_name l)
    with (map entry_name (completed_entry tn d w :: l)).
  by rewrite <- fmap_take.
Qed.

Lemma take_app_take {A} (k : nat) (a b : list A) :
  take k (a ++ take k b) = take k (a ++ b).
Proof. rewrite !take_app, take_take. f_equal. f_equal. lia. Qed.

Lemma run_tasks_ok names : forall w,
  store_ok w = true ->
  fst (run_tasks names w) = Ret tt
  /\ store_ok (snd (run_tasks names w)) = true
  /\ history_names (snd (run_tasks names w))
     = match names with
       | [] => history_names w
       | _ => take 10 (rev (map (fun n => Some (VStr n)) names) ++ history_names w)
       end.
Proof.
  induction names as [|name rest IH]; intros w H; [done|].
  destruct (update_progress_ok name "working" 1 None None None w H) as [Hr1 H1].
  destruct (State.update_progress name "working" 1 None None None w)
    as [r1 w1] eqn:E1.
  cbn [fst snd] in Hr1, H1. subst r1.
  destruct (complete_task_ok name w1 H1) as [Hr2 H2].
  pose proof (history_names_complete name w1 H1) as Hn2.
  destruct (State.complete_task name w1) as [r2 w2] eqn:E2.
  cbn [fst snd] in Hr2, H2, Hn2. subst r2.
  assert (Hrun : run_tasks (name :: rest) w = run_tasks rest w2).
  { cbn [run_tasks]. rewrite (bind_run _ _ _ _ _ E1). by rewrite (bind_run _ _ _ _ _ E2). }
  rewrite Hrun. destruct (IH w2 H2) as (Hr & Hok & Hn).
  split; [done|]. split; [done|]. rewrite Hn, Hn2.
  pose proof (history_names_update name "working" 1 None None None w H) as Hu.
  rewrite E1 in Hu. cbn [snd] in Hu. rewrite Hu.
  destruct rest as [|name' rest']; [done|].
  rewrite take_app_take. cbn [map rev]. by rewrite <- !app_assoc.
Qed.

(** C8: [update_progress] for a task followed by [complete_task] for it
    leaves the inactive template as progress document ([active] false,
    [task_name] null) and the task at the head of the history; every
    [complete_task] puts exactly one entry in front of the history and keeps
    the ten newest, so that the history never has more than ten entries, and
    twelve tasks completed in sequence leave the ten completed last, newest
    first. *)
Theorem C8_complete_task_archives w tn cs p eta err pid :
  store_ok w = true ->
  let w2 := snd (State.complete_task tn
                   (snd (State.update_progress tn cs p eta err pid w))) in
  good_file (progress_json (files w2)) = Some State.inactive_template
  /\ progress_field "active" w2 = Some (VBool false)
  /\ progress_field "task_name" w2 = Some VNone
  /\ head (history_names w2) = Some (Some (VStr tn))
  /\ history_names (snd (State.complete_task tn w))
     = take 10 (Some (VStr tn) :: history_names w)
  /\ (length (history_names (snd (State.complete_task tn w))) <= 10)%nat
  /\ forall names : list string,
       length names = 12%nat ->
       history_names (snd (run_tasks names w))
       = rev (map (fun n => Some (VStr n)) (drop 2 names)).
Proof.
  intros H w2.
  destruct (update_progress_ok tn cs p eta err pid w H) as [_ H1].
  destruct (store_ok_inv _ H1) as (d & h & l & Hp & Hs & Hh & Hl).
  assert (Hw2 : holds (progress_json (files w2)) (VDict State.inactive_template)).
  { subst w2. rewrite (complete_task_run tn _ d h l Hp Hs Hh Hl). cbn [snd].
    by apply completed_progress. }
  split; [by apply holds_good_file|].
  rewrite !(progress_field_holds _ _ _ Hw2).
  split; [done|]. split; [done|].
  split; [subst w2; by rewrite history_names_complete|].
  split; [by apply history_names_complete|].
  split; [rewrite history_names_complete by done; rewrite length_take; lia|].
  intros names Hlen.
  destruct (run_tasks_ok names w H) as (_ & _ & ->).
  destruct names as [|n0 names']; [done|].
  set (ns := n0 :: names') in *.
  rewrite <- (take_drop 2 ns) at 1.
  rewrite fmap_app, rev_app_distr, <- app_assoc.
  rewrite take_app_length'; [done|].
  rewrite length_rev, length_fmap, length_drop. lia.
Qed.

Lemma C8_complete_task_archives_witness :
  store_ok started_world = true
  /\ history_names
       (snd (run_tasks ["t1"; "t2"; "t3"; "t4"; "t5"; "t6"; "t7"; "t8"; "t9";
                        "t10"; "t11"; "t12"] started_world))
     = map (fun n => Some (VStr n))
         ["t12"; "t11"; "t10"; "t9"; "t8"; "t7"; "t6"; "t5"; "t4"; "t3"].
Proof.
  split; [reflexivity|].
  apply (C8_complete_task_archives started_world "t1" "working" 1 None None None);
    reflexivity.
Defined.

(** ** The reaper *)

Lemma idle_exceeds max now last :
  Qltb (inject_Z max) (total_seconds now last) = true <-> max * 1000000 < now - last.
Proof.
  unfold Qltb, total_seconds. rewrite negb_true_iff.
  rewrite <- not_true_iff_false, Qle_bool_iff, Qred_correct.
  unfold Qle. cbn [Qnum Qden inject_Z]. lia.
Qed.

(** The record one tick writes over an active, idle document [d]. *)
Lemma stale_record_run d w :
  State.stale_record (VDict d) w =
  (Ret (VDict (list_to_map [
     ("active", VBool false);
     ("task_name", default VNone (d !! "task_name"));
     ("current_step", default VNone (d !! "current_step"));
     ("progress", default (VFloat 0) (d !! "progress"));
     ("eta_seconds", VNone);
     ("started_at", VNone);
     ("last_update", VNone);
     ("error", default VNone (d !! "error"));
     ("pid", VNone)])), w).
Proof. reflexivity. Qed.

Lemma clear_stale_idle max w d t :
  holds (progress_json (files w)) (VDict d) ->
  truthy (default VNone (d !! "active")) = true ->
  d !! "last_update" = Some (VTime t) ->
  max * 1000000 < now_of w - t ->
  exists r,
    State.stale_record (VDict d) w = (Ret (VDict r), w)
    /\ State.clear_stale_progress max w = (Ret tt, written PROGRESS_FILE (VDict r) (tick w)).
Proof.
  intros Hp Ha Hl Hidle. eexists. split; [apply stale_record_run|].
  unfold State.clear_stale_progress, try_except.
  unfold State.get_progress.
  run_with ltac:(by apply read_safe_holds).
  run_with ltac:(apply py_get_dict). rewrite Ha.
  run_with ltac:(apply py_get_dict). rewrite Hl. cbn [from_option id truthy].
  cbn [py_getitem]. rewrite Hl.
  run. run.
  apply idle_exceeds in Hidle. fold (now_of w). rewrite Hidle.
  run_with ltac:(apply stale_record_run).
  by rewrite (write_safe_holds _ _ (VDict d)).
Qed.

Lemma clear_stale_inactive max w d :
  holds (progress_json (files w)) (VDict d) ->
  truthy (default VNone (d !! "active")) = false ->
  State.clear_stale_progress max w = (Ret tt, w).
Proof.
  intros Hp Ha.
  unfold State.clear_stale_progress, try_except.
  unfold State.get_progress.
  run_with ltac:(by apply read_safe_holds).
  run_with ltac:(apply py_get_dict). rewrite Ha. run. by rewrite Ha.
Qed.

Lemma clear_stale_recent max w d t :
  holds (progress_json (files w)) (VDict d) ->
  truthy (default VNone (d !! "active")) = true ->
  d !! "last_update" = Some (VTime t) ->
  now_of w - t <= max * 1000000 ->
  State.clear_stale_progress max w = (Ret tt, tick w).
Proof.
  intros Hp Ha Hl Hidle.
  unfold State.clear_stale_progress, try_except.
  unfold State.get_progress.
  run_with ltac:(by apply read_safe_holds).
  run_with ltac:(apply py_get_dict). rewrite Ha.
  run_with ltac:(apply py_get_dict). rewrite Hl. cbn [from_option id truthy].
  cbn [py_getitem]. rewrite Hl.
  run. run.
  fold (now_of w).
  destruct (Qltb (inject_Z max) (total_seconds (now_of w) t)) eqn:E; [|done].
  apply idle_exceeds in E. lia.
Qed.

(** C10: on an active record whose [last_update] is older than the idle
    threshold, one tick of the reaper rewrites the record with [active] false
    and [eta_seconds], [started_at], [last_update] null, and with the
    [task_name], [current_step], [progress] and [error] it had; a second tick,
    whatever the threshold, changes nothing more; and a record that is
    inactive, or was updated within the threshold, is left as it is. *)
Theorem C10_reaper_tick w d max :
  holds (progress_json (files w)) (VDict d) ->
  (forall t,
     truthy (default VNone (d !! "active")) = true ->
     d !! "last_update" = Some (VTime t) ->
     max * 1000000 < now_of w - t ->
     let w1 := snd (State.clear_stale_progress max w) in
     progress_field "active" w1 = Some (VBool false)
     /\ progress_field "eta_seconds" w1 = Some VNone
     /\ progress_field "started_at" w1 = Some VNone
     /\ progress_field "last_update" w1 = Some VNone
     /\ (forall key v,
           key ∈ ["task_name"; "current_step"; "progress"; "error"] ->
           d !! key = Some v -> progress_field key w1 = Some v)
     /\ forall max', snd (State.clear_stale_progress max' w1) = w1)
  /\ (truthy (default VNone (d !! "active")) = false ->
      snd (State.clear_stale_progress max w) = w)
  /\ (forall t,
        truthy (default VNone (d !! "active")) = true ->
        d !! "last_update" = Some (VTime t) ->
        now_of w - t <= max * 1000000 ->
        files (snd (State.clear_stale_progress max w)) = files w).
Proof.
  intros Hp. split; [|split].
  - intros t Ha Hl Hidle w1.
    destruct (clear_stale_idle max w d t Hp Ha Hl Hidle) as (r & Hr & Hrun).
    rewrite stale_record_run in Hr. injection Hr as <-.
    assert (H1 : holds (progress_json (files w1)) (VDict
       (list_to_map [
         ("active", VBool false);
         ("task_name", default VNone (d !! "task_name"));
         ("current_step", default VNone (d !! "current_step"));
         ("progress", default (VFloat 0) (d !! "progress"));
         ("eta_seconds", VNone);
         ("started_at", VNone);
         ("last_update", VNone);
         ("error", default VNone (d !! "error"));
         ("pid", VNone)]))).
    { subst w1. rewrite Hrun. cbn [snd].
      by apply (written_holds PROGRESS_FILE _ (VDict d)). }
    rewrite !(progress_field_holds _ _ _ H1).
    split; [done|]. split; [done|]. split; [done|]. split; [done|]. split.
    + intros key v Hkey Hv. rewrite (progress_field_holds _ _ _ H1).
      set_unfold in Hkey. destruct Hkey as [->|[->|[->|[->|[]]]]];
        by (etransitivity; [reflexivity|]; rewrite Hv).
    + intros max'. by rewrite (clear_stale_inactive max' w1 _ H1).
  - intros Ha. by rewrite (clear_stale_inactive max w d Hp Ha).
  - intros t Ha Hl Hidle. by rewrite (clear_stale_recent max w d t Hp Ha Hl Hidle).
Qed.

Lemma C10_reaper_tick_witness :
  let w := snd (State.update_progress "T" "step" (1 # 2) None (Some "boom") None
                  started_world) in
  let w1 := snd (State.clear_stale_progress 5 w) in
  5 * 1000000 < now_of w - 1700000000000000
  /\ progress_field "active" w1 = Some (VBool false)
  /\ progress_field "error" w1 = Some (VStr "boom").
Proof.
  intros w w1.
  assert (Hp : holds (progress_json (files w))
                 (VDict (updated_record "T" "step" (1 # 2) None (Some "boom") None
                           State.inactive_template started_world)))
    by reflexivity.
  assert (Hidle : 5 * 1000000 < now_of w - 1700000000000000) by (vm_compute; reflexivity).
  destruct (C10_reaper_tick w _ 5 Hp) as [Hstale _].
  destruct (Hstale 1700000000000000 eq_refl eq_refl Hidle) as (Ha & _ & _ & _ & Hkeep & _).
  split; [exact Hidle|]. split; [exact Ha|].
  apply Hkeep; [|reflexivity].
  apply list_elem_of_In. right. right. right. left. reflexivity.
Defined.

(** ** Writing a state file *)

(** C3, as stated, fails: [_write_safe] opens the state file itself for
    writing, and between that open and the dump the file holds neither the old
    document nor the new one; a reader at that point finds no document. *)
Lemma C3_write_in_place :
  let new := VDict (list_to_map [("x", VInt 7); ("y", VInt 9)]) in
  let states := write_safe_states WIDGET_POSITION_FILE new started_world in
  seen WIDGET_POSITION_FILE states
  = [Some (Json (VDict (list_to_map [("x", VInt 100); ("y", VInt 100)])));
     Some Malformed;
     Some (Json new)]
  /\ (fun w1 => State.load (widget_position_json (files w1))) <$> states !! 1%nat
     = Some (Raise (Exn JSONDecodeError "Expecting value"))
  /\ trace (snd (State._write_safe WIDGET_POSITION_FILE new started_world))
     = EvDump WIDGET_POSITION_FILE new :: EvOpenW WIDGET_POSITION_FILE
         :: trace started_world.
Proof.
  intros new states. split; [|split]; vm_compute; reflexivity.
Qed.

(** C3, amended: every write of a state file by the store is done in place.
    [_write_safe] opens the state file itself for writing, which creates it or
    truncates it to nothing, and then dumps the document into it; there is no
    temporary file and no rename.  While the write runs the file is first as
    it was, then without a document, then holds the new document; the worlds
    listed are those the write goes through, and the last one is its result.
    A file that cannot be opened for writing stays as it was. *)
Theorem C3_write_safe_steps p v w :
  last (write_safe_states p v w) = Some (snd (State._write_safe p v w))
  /\ seen p (write_safe_states p v w)
     = if writable (fget p (files w))
       then [data (fget p (files w)); Some Malformed; Some (Json v)]
       else [data (fget p (files w)); data (fget p (files w))].
Proof.
  unfold write_safe_states, seen, State._write_safe, try_except, bind, State.open_w.
  destruct (writable (fget p (files w))) eqn:E.
  - cbn. rewrite !fget_fset. done.
  - cbn. done.
Qed.

(** ** Reading a state file that cannot be loaded *)

(** C4, as stated, fails: with the state files missing, [get_progress] and
    [get_history] return the empty object, which has none of the fields of a
    progress document or of a history document; the store itself cannot use
    it as a history, [complete_task] raising [KeyError] on it. *)
Lemma C4_empty_object_returned :
  fst (State.get_progress fresh_world) = Ret (VDict ∅)
  /\ spec_progress_document (VDict ∅) = false
  /\ fst (State.get_history fresh_world) = Ret (VDict ∅)
  /\ spec_history_document (VDict ∅) = false
  /\ fst (State.complete_task "T" fresh_world) = Raise (Exn KeyError "completed_tasks").
Proof. repeat split; reflexivity. Qed.

Lemma read_safe_degraded p w :
  degraded (fget p (files w)) = true ->
  fst (State._read_safe p w) = Ret (VDict ∅).
Proof.
  unfold degraded, State._read_safe, try_except, State.open_r_load, State.load.
  destruct (fget p (files w)) as [[[| |v]|] [] ?]; cbn; intros H; done.
Qed.

(** Bytes that are not UTF-8 are not among the failures [_read_safe]
    recovers from: the [UnicodeDecodeError] goes to the caller. *)
Lemma read_safe_undecodable p w :
  fget p (files w) = File (Some Undecodable) true true ->
  fst (State._read_safe p w) = Raise (Exn UnicodeDecodeError "invalid start byte").
Proof.
  intros H. unfold State._read_safe, try_except, State.open_r_load, State.load.
  by rewrite H.
Qed.

(** C4, amended: when a state file is missing, unreadable, or holds text that
    is not a JSON document, [get_progress] and [get_history] return the empty
    object, in which every field is absent, and [get_widget_position] returns
    the default position [{x: 100, y: 100}]; none of the three raises. *)
Theorem C4_getters_degrade w :
  (degraded (progress_json (files w)) = true ->
   fst (State.get_progress w) = Ret (VDict ∅))
  /\ (degraded (history_json (files w)) = true ->
      fst (State.get_history w) = Ret (VDict ∅))
  /\ (degraded (widget_position_json (files w)) = true ->
      fst (State.get_widget_position w)
      = Ret (VDict (list_to_map [("x", VInt 100); ("y", VInt 100)]))
      /\ spec_position_document
           (VDict (list_to_map [("x", VInt 100); ("y", VInt 100)])) = true).
Proof.
  split; [|split].
  - apply (read_safe_degraded PROGRESS_FILE).
  - apply (read_safe_degraded HISTORY_FILE).
  - intros H. split; [|reflexivity].
    pose proof (read_safe_degraded WIDGET_POSITION_FILE w H) as Hr.
    unfold State.get_widget_position.
    destruct (State._read_safe WIDGET_POSITION_FILE w) as [r w'] eqn:E.
    cbn [fst] in Hr. subst r.
    rewrite (bind_run _ _ _ _ _ E). reflexivity.
Qed.

Lemma C4_getters_degrade_witness :
  degraded (progress_json (files fresh_world)) = true
  /\ degraded (history_json (files fresh_world)) = true
  /\ degraded (widget_position_json (files fresh_world)) = true
  /\ fst (State.get_progress fresh_world) = Ret (VDict ∅)
  /\ fst (State.get_history fresh_world) = Ret (VDict ∅)
  /\ fst (State.get_widget_position fresh_world)
     = Ret (VDict (list_to_map [("x", VInt 100); ("y", VInt 100)])).
Proof.
  destruct (C4_getters_degrade fresh_world) as (Hp & Hh & Hw).
  split; [reflexivity|]. split; [reflexivity|]. split; [reflexivity|].
  split; [exact (Hp eq_refl)|]. split; [exact (Hh eq_refl)|].
  exact (proj1 (Hw eq_refl)).
Defined.

(** * Counting the invocations of [complete_task] *)

Lemma quiet_ret {A} (a : A) : quiet (ret a).
Proof. done. Qed.

Lemma quiet_raise {A} e : quiet (@raise world A e).
Proof. done. Qed.

Lemma quiet_bind {A B} (m : SE world A) (k : A -> SE world B) :
  quiet m -> (forall a, quiet (k a)) -> quiet (bind m k).
Proof.
  intros Hm Hk w. unfold bind. specialize (Hm w).
  destruct (m w) as [[a|e] w']; cbn [snd] in *; [|done].
  by rewrite Hk.
Qed.

Lemma quiet_try_except {A} (m : SE world A) c h :
  quiet m -> (forall e, quiet (h e)) -> quiet (try_except m c h).
Proof.
  intros Hm Hh w. unfold try_except. specialize (Hm w).
  destruct (m w) as [[a|e] w']; cbn [snd] in *; [done|].
  destruct (c e); [|done]. by rewrite Hh.
Qed.


Lemma quiet_emit e : is_complete_task e = false -> quiet (emit e).
Proof.
  intros H w. unfold completions, emit. cbn [snd trace].
  by rewrite filter_cons_False by (rewrite H; done).
Qed.

Lemma quiet_datetime_now : quiet datetime_now.
Proof. done. Qed.

Lemma quiet_time_time : quiet time_time.
Proof. done. Qed.

Lemma quiet_os_getpid : quiet os_getpid.
Proof. done. Qed.

Lemma quiet_py_get v key dflt : quiet (py_get v key dflt).
Proof. by destruct v. Qed.

Lemma quiet_py_getitem v key : quiet (py_getitem v key).
Proof. destruct v; try done. cbn. by destruct (d !! key). Qed.

Lemma quiet_py_setitem v key x : quiet (py_setitem v key x).
Proof. by destruct v. Qed.

Lemma quiet_py_insert0 v x : quiet (py_insert0 v x).
Proof. by destruct v. Qed.

Lemma quiet_py_slice_to k v : quiet (py_slice_to k v).
Proof. by destruct v. Qed.

Lemma quiet_fromisoformat v : quiet (fromisoformat v).
Proof. by destruct v. Qed.

Lemma quiet_read_safe p : quiet (State._read_safe p).
Proof.
  apply quiet_try_except; [done|].
  intros e. apply quiet_bind; [by apply quiet_emit|]. intros _. apply quiet_ret.
Qed.

Lemma quiet_write_safe p v : quiet (State._write_safe p v).
Proof.
  apply quiet_try_except.
  - apply quiet_bind.
    + intros w. unfold State.open_w. destruct (writable _); [|done].
      by rewrite quiet_emit.
    + intros _ w. unfold State.json_dump. by rewrite quiet_emit.
  - intros e. by apply quiet_emit.
Qed.

Lemma quiet_update_progress tn cs p eta err pid :
  quiet (State.update_progress tn cs p eta err pid).
Proof.
  unfold State.update_progress.
  apply quiet_bind; [by apply quiet_emit|]. intros _.
  apply quiet_bind; [apply quiet_datetime_now|]. intros now.
  apply quiet_bind.
  { apply quiet_bind; [apply quiet_read_safe|]. intros v. apply quiet_py_get. }
  intros st. apply quiet_bind; [|intros; apply quiet_write_safe].
  destruct pid as [q|]; [destruct (truthy (VInt q))|]; done.
Qed.

Lemma quiet_calculate_duration : quiet State._calculate_duration.
Proof.
  unfold State._calculate_duration.
  apply quiet_bind; [apply quiet_read_safe|]. intros v.
  apply quiet_bind; [apply quiet_py_get|]. intros st.
  destruct (truthy st); [|done].
  apply quiet_bind; [apply quiet_fromisoformat|]. intros t.
  apply quiet_bind; [apply quiet_datetime_now|]. done.
Qed.

(** [complete_task] counts for one, in every world. *)
Lemma complete_task_counts tn w :
  completions (snd (State.complete_task tn w)) = S (completions w).
Proof.
  unfold State.complete_task.
  rewrite (bind_run _ _ _ tt (logged (EvCompleteTask tn) w)) by reflexivity.
  change (S (completions w)) with (completions (logged (EvCompleteTask tn) w)).
  generalize (logged (EvCompleteTask tn) w). clear w.
  apply quiet_bind; [apply quiet_read_safe|]. intros cur.
  apply quiet_bind; [apply quiet_read_safe|]. intros h.
  apply quiet_bind; [apply quiet_datetime_now|]. intros now.
  apply quiet_bind; [apply quiet_calculate_duration|]. intros dur.
  apply quiet_bind; [apply quiet_py_getitem|]. intros t1.
  apply quiet_bind; [apply quiet_py_insert0|]. intros t2.
  apply quiet_bind; [apply quiet_py_setitem|]. intros h2.
  apply quiet_bind; [apply quiet_py_getitem|]. intros t3.
  apply quiet_bind; [apply quiet_py_slice_to|]. intros t4.
  apply quiet_bind; [apply quiet_py_setitem|]. intros h3.
  apply quiet_bind; [apply quiet_write_safe|]. intros _.
  apply quiet_write_safe.
Qed.

Lemma keeps_bind {St A B} (P : St -> Prop) (m : SE St A) (k : A -> SE St B) :
  keeps P m -> (forall a, keeps P (k a)) -> keeps P (bind m k).
Proof.
  intros Hm Hk s Hs. unfold bind. specialize (Hm s Hs).
  destruct (m s) as [[a|e] s']; cbn [snd] in *; [|done].
  by apply Hk.
Qed.

Lemma keeps_ret {St A} (P : St -> Prop) (a : A) : keeps P (ret a).
Proof. by intros s Hs. Qed.

Lemma keeps_raise {St A} (P : St -> Prop) e : keeps P (@raise St A e).
Proof. by intros s Hs. Qed.


Lemma in_world_run {S A} (m : SE world A) (s : S) w r w' :
  m w = (r, w') -> in_world m (s, w) = (r, (s, w')).
Proof. intros H. unfold in_world. cbn [fst snd]. by rewrite H. Qed.

(** ** The session *)

Lemma task_close_spec s w :
  let sw := snd (PulseTask.close (s, w)) in
  PulseTask.start_time (fst sw) = PulseTask.start_time s
  /\ PulseTask.closed (fst sw)
     = PulseTask.closed s || truthy (of_option VFloat (PulseTask.start_time s))
  /\ completions (snd sw)
     = (completions w
        + (if negb (PulseTask.closed s)
              && truthy (of_option VFloat (PulseTask.start_time s))
           then 1 else 0))%nat.
Proof.
  unfold PulseTask.close, bind, get_self, set_self, in_world. cbn [fst snd].
  destruct (PulseTask.closed s) eqn:Ec;
    destruct (truthy (of_option VFloat (PulseTask.start_time s))) eqn:Et;
    cbn [negb andb orb ret fst snd]; rewrite ?Ec; try (repeat split; lia).
  pose proof (complete_task_counts (PulseTask.task_name s) w) as Hc.
  destruct (State.complete_task (PulseTask.task_name s) w) as [[[]|e] w'];
    cbn [fst snd] in *; repeat split; lia.
Qed.

Lemma keeps_task_close c0 : keeps (session_inv c0) PulseTask.close.
Proof.
  intros [s w] [Ht Hc]. cbn [fst snd] in *.
  destruct (task_close_spec s w) as (Hst & Hcl & Hn).
  split; [by rewrite Hst|]. rewrite Hn, Hcl, Hc, Ht.
  destruct (PulseTask.closed s); cbn; lia.
Qed.

Lemma task_close_closes c0 sw :
  session_inv c0 sw -> PulseTask.closed (fst (snd (PulseTask.close sw))) = true.
Proof.
  destruct sw as [s w]. intros [Ht _]. cbn [fst] in Ht.
  destruct (task_close_spec s w) as (_ & -> & _). rewrite Ht. apply orb_true_r.
Qed.

(** A call of [update_progress] of the store from a method keeps the
    invariant of the session. *)
Lemma keeps_store_update c0 tn cs p eta err pid :
  keeps (session_inv c0) (in_world (State.update_progress tn cs p eta err pid)).
Proof.
  intros [s w] [Ht Hc]. cbn [fst snd] in *.
  pose proof (quiet_update_progress tn cs p eta err pid w) as Hq.
  unfold in_world. cbn [fst snd].
  destruct (State.update_progress tn cs p eta err pid w) as [r w'].
  unfold session_inv. cbn [fst snd] in *. split; [done|]. by rewrite Hq.
Qed.

Lemma keeps_task_step c0 d p : keeps (session_inv c0) (PulseTask.step d p).
Proof.
  intros [s w] H. unfold PulseTask.step.
  rewrite (bind_run _ _ _ s (s, w)) by reflexivity.
  destruct (PulseTask.closed s) eqn:Ec; [done|].
  rewrite (bind_run _ _ _ tt
             (PulseTask.set_current_step (PulseTask.current_step s + 1) s, w))
    by reflexivity.
  rewrite (bind_run _ _ _ (PulseTask.set_current_step (PulseTask.current_step s + 1) s)
             (PulseTask.set_current_step (PulseTask.current_step s + 1) s, w))
    by reflexivity.
  apply keeps_store_update. destruct H as [Ht Hc]. split; [done|].
  cbn [fst snd PulseTask.set_current_step PulseTask.closed] in *. done.
Qed.

Lemma keeps_task_update_progress c0 p d :
  keeps (session_inv c0) (PulseTask.update_progress p d).
Proof.
  intros [s w] H. unfold PulseTask.update_progress.
  rewrite (bind_run _ _ _ s (s, w)) by reflexivity.
  destruct (PulseTask.closed s) eqn:Ec; [done|].
  by apply keeps_store_update.
Qed.

Lemma keeps_task_script c0 cs : keeps (session_inv c0) (PulseTask.script cs).
Proof.
  induction cs as [|c rest IH]; [apply keeps_ret|].
  cbn [PulseTask.script]. apply keeps_bind; [|done].
  destruct c; cbn [PulseTask.perform].
  - apply keeps_task_step.
  - apply keeps_task_update_progress.
  - apply keeps_task_close.
  - apply keeps_raise.
Qed.

Lemma keeps_task_exit c0 exc : keeps (session_inv c0) (PulseTask.__exit__ exc).
Proof.
  unfold PulseTask.__exit__. apply keeps_bind; [apply keeps_task_close|].
  intros _. destruct exc as [e|]; [|apply keeps_ret].
  intros [s w] H. rewrite (bind_run _ _ _ s (s, w)) by reflexivity.
  by apply keeps_store_update.
Qed.


Lemma time_truthy (c : Z) : c <> 0 -> truthy (VFloat (Qred (c # 1000000))) = true.
Proof.
  intros Hc. cbn [truthy]. rewrite negb_true_iff, Z.eqb_neq. intros H0.
  pose proof (Qred_correct (c # 1000000)) as Hq. unfold Qeq in Hq.
  rewrite H0 in Hq. cbn [Qnum Qden] in Hq. lia.
Qed.

Lemma task_enter_inv tn ts fmt w :
  now_of w <> 0 ->
  let sw := snd (PulseTask.__enter__ (PulseTask.__init__ tn ts fmt, w)) in
  session_inv (completions w) sw /\ PulseTask.closed (fst sw) = false.
Proof.
  intros Hnow sw. subst sw. unfold PulseTask.__enter__.
  rewrite (bind_run _ _ _ (Qred (now_of w # 1000000))
             (PulseTask.__init__ tn ts fmt, tick w)) by reflexivity.
  rewrite (bind_run _ _ _ (PulseTask.__init__ tn ts fmt)
             (PulseTask.__init__ tn ts fmt, tick w)) by reflexivity.
  rewrite (bind_run _ _ _ tt
             (PulseTask.set_start_time (Some (Qred (now_of w # 1000000)))
                (PulseTask.__init__ tn ts fmt), tick w)) by reflexivity.
  pose proof (quiet_update_progress tn "Starting..." 0 None None None (tick w)) as Hq.
  unfold in_world. cbn [fst snd PulseTask.task_name PulseTask.__init__].
  destruct (State.update_progress tn "Starting..." 0 None None None (tick w)) as [r w'].
  unfold session_inv.
  cbn [fst snd PulseTask.start_time PulseTask.closed PulseTask.set_start_time
       PulseTask.__init__ of_option] in *.
  split; [|done]. split; [by apply time_truthy|].
  rewrite Hq. unfold completions, tick. cbn [trace]. lia.
Qed.

Lemma task_with_inv tn ts fmt cs w :
  now_of w <> 0 ->
  session_inv (completions w)
    (after (PulseTask.with_ (PulseTask.script cs)) (PulseTask.__init__ tn ts fmt, w)).
Proof.
  intros Hnow. destruct (task_enter_inv tn ts fmt w Hnow) as [Hinv _].
  unfold after, PulseTask.with_, bind.
  destruct (PulseTask.__enter__ _) as [[[]|e] sw1]; cbn [snd] in *; [|done].
  pose proof (keeps_task_script _ cs sw1 Hinv) as Hbody.
  destruct (PulseTask.script cs sw1) as [[[]|e] sw2]; cbn [snd] in Hbody.
  - apply (keeps_bind _ (PulseTask.__exit__ None) (fun _ => ret tt));
      [apply keeps_task_exit|intros; apply keeps_ret|done].
  - apply (keeps_bind _ (PulseTask.__exit__ (Some e)) (fun _ => raise e));
      [apply keeps_task_exit|intros; apply keeps_raise|done].
Qed.

Lemma task_closes_inv c0 k sw :
  session_inv c0 sw -> session_inv c0 (Nat.iter k (after PulseTask.close) sw).
Proof.
  intros H. induction k as [|k IH]; [done|]. cbn [Nat.iter].
  by apply keeps_task_close.
Qed.

Lemma task_at_exit_once c0 sw :
  session_inv c0 sw ->
  completions (snd (after PulseTask.at_exit sw)) = (c0 + 1)%nat.
Proof.
  intros H. pose proof (task_close_closes c0 sw H) as Hc.
  destruct (keeps_task_close c0 sw H) as [_ Hn].
  unfold after, PulseTask.at_exit, try_except.
  destruct (PulseTask.close sw) as [[[]|e] [s1 w1]]; cbn [fst snd] in *;
    rewrite Hc in Hn; done.
Qed.

(** ** The wrapper *)

Lemma tracker_close_counts {A} (self : PulseProgress.t A) w :
  completions (snd (after PulseProgress.close (self, w)))
  = (completions w
     + (if negb (PulseProgress.disable self) && (0 <? PulseProgress.n self)%Z
        then 1 else 0))%nat.
Proof.
  unfold after, PulseProgress.close.
  rewrite (bind_run _ _ _ self (self, w)) by reflexivity.
  destruct (negb (PulseProgress.disable self) && (0 <? PulseProgress.n self));
    [|cbn; lia].
  pose proof (complete_task_counts (PulseProgress.desc self) w) as Hc.
  unfold bind at 1. unfold in_world at 1. cbn [fst snd].
  destruct (State.complete_task (PulseProgress.desc self) w) as [[[]|e] w'];
    cbn [fst snd] in *; [|lia].
  destruct (PulseProgress.leave self); [|cbn; lia].
  unfold PulseProgress._print_final, bind, get_self, in_world, time_time.
  unfold emit. cbn [fst snd]. unfold completions in *. cbn [trace].
  rewrite filter_cons_False by (cbn; done). lia.
Qed.

(** C6, as stated, fails on the wrapper: around the empty list
    [complete_task] is never invoked, and around a list of one element it is
    invoked twice, by the [close] at the end of the iteration and by the
    [close] registered for the exit of the interpreter. *)
Lemma C6_tracker_zero_or_twice :
  completions started_world = 0%nat
  /\ completions (snd (tracker_life (@nil nat) false started_world)) = 0%nat
  /\ completions (snd (tracker_life [7] false started_world)) = 2%nat.
Proof. split; [|split]; vm_compute; reflexivity. Qed.

Lemma tracker_closes_idle {A} (self : PulseProgress.t A) k : forall w,
  negb (PulseProgress.disable self) && (0 <? PulseProgress.n self) = false ->
  Nat.iter k (after PulseProgress.close) (self, w) = (self, w).
Proof.
  intros w H. induction k as [|k IH]; [done|].
  rewrite Nat.iter_succ, IH. unfold after, PulseProgress.close.
  rewrite (bind_run _ _ _ self (self, w)) by reflexivity. by rewrite H.
Qed.

(** C6, amended: [close] of a task session is idempotent.  Over the life of
    a session that has been entered (its scope run to its normal or
    exceptional end, [close] run any number of times more, and the registered
    [close] run at exit), [complete_task] is invoked exactly once; a session
    that is never entered never invokes it.  On a wrapper, [close] never
    invokes [complete_task] while the wrapper is disabled or has counted no
    item, however many times it runs; on an enabled wrapper that has counted
    at least one item, the first [close] invokes it once. *)
Theorem C6_close_invocations :
  (forall tn ts fmt cs k w,
     now_of w <> 0 ->
     completions
       (snd (after PulseTask.at_exit
               (Nat.iter k (after PulseTask.close)
                  (after (PulseTask.with_ (PulseTask.script cs))
                     (PulseTask.__init__ tn ts fmt, w)))))
     = (completions w + 1)%nat)
  /\ (forall tn ts fmt k w,
        completions
          (snd (after PulseTask.at_exit
                  (Nat.iter k (after PulseTask.close)
                     (PulseTask.__init__ tn ts fmt, w))))
        = completions w)
  /\ (forall A (self : PulseProgress.t A) k w,
        negb (PulseProgress.disable self) && (0 <? PulseProgress.n self)%Z = false ->
        completions (snd (Nat.iter k (after PulseProgress.close) (self, w)))
        = completions w)
  /\ (forall A (self : PulseProgress.t A) w,
        PulseProgress.disable self = false ->
        0 < PulseProgress.n self ->
        completions (snd (after PulseProgress.close (self, w)))
        = (completions w + 1)%nat).
Proof.
  split; [|split; [|split]].
  - intros tn ts fmt cs k w Hnow.
    apply task_at_exit_once, task_closes_inv. by apply task_with_inv.
  - intros tn ts fmt k w.
    assert (Hk : Nat.iter k (after PulseTask.close) (PulseTask.__init__ tn ts fmt, w)
                 = (PulseTask.__init__ tn ts fmt, w)).
    { induction k as [|k IH]; [done|]. by rewrite Nat.iter_succ, IH. }
    by rewrite Hk.
  - intros A self k w H. by rewrite tracker_closes_idle.
  - intros A self w Hd Hn. rewrite tracker_close_counts, Hd.
    by rewrite (proj2 (Z.ltb_lt _ _) Hn).
Qed.

Lemma C6_close_invocations_witness :
  now_of started_world <> 0
  /\ completions
       (snd (after PulseTask.at_exit
               (Nat.iter 3 (after PulseTask.close)
                  (after (PulseTask.with_
                            (PulseTask.script
                               [PulseTask.CallStep "Step 1" None;
                                PulseTask.CallClose;
                                PulseTask.CallRaise (Exn ValueError "Test error")]))
                     (PulseTask.__init__ "Error Test" 2
                        PulseTask.default_step_format, started_world)))))
     = (completions started_world + 1)%nat.
Proof.
  assert (H : now_of started_world <> 0) by (vm_compute; discriminate).
  split; [exact H|].
  apply (proj1 C6_close_invocations "Error Test" 2 PulseTask.default_step_format
           _ 3%nat started_world H).
Defined.

(** ** Calls of the store from a method, on a store in working order *)

Lemma store_update_run {S} (s : S) tn cs p eta err pid w :
  store_ok w = true ->
  exists w',
    in_world (State.update_progress tn cs p eta err pid) (s, w) = (Ret tt, (s, w'))
    /\ store_ok w' = true
    /\ completions w' = completions w
    /\ history_names w' = history_names w
    /\ progress_field "active" w' = Some (VBool true)
    /\ progress_field "progress" w' = Some (VFloat (State.clamp p))
    /\ progress_field "eta_seconds" w' = Some (of_option VInt eta)
    /\ progress_field "error" w' = Some (of_option VStr err).
Proof.
  intros H.
  destruct (update_progress_ok tn cs p eta err pid w H) as [Hr Hok].
  pose proof (quiet_update_progress tn cs p eta err pid w) as Hq.
  pose proof (history_names_update tn cs p eta err pid w H) as Hh.
  destruct (store_ok_inv _ H) as (d & _ & _ & Hp & _).
  pose proof (update_progress_holds tn cs p eta err pid w d Hp) as Hd.
  destruct (State.update_progress tn cs p eta err pid w) as [r w'] eqn:E.
  cbn [fst snd] in *. subst r. exists w'.
  split; [by apply in_world_run|].
  rewrite !(progress_field_holds _ _ _ Hd).
  repeat (split; [done|]). apply record_fields.
Qed.

Lemma store_complete_run {S} (s : S) tn w :
  store_ok w = true ->
  exists w',
    in_world (State.complete_task tn) (s, w) = (Ret tt, (s, w'))
    /\ store_ok w' = true
    /\ completions w' = Datatypes.S (completions w)
    /\ history_names w' = take 10 (Some (VStr tn) :: history_names w).
Proof.
  intros H.
  destruct (complete_task_ok tn w H) as [Hr Hok].
  pose proof (complete_task_counts tn w) as Hc.
  pose proof (history_names_complete tn w H) as Hh.
  destruct (State.complete_task tn w) as [r w'] eqn:E.
  cbn [fst snd] in *. subst r. exists w'.
  split; [by apply in_world_run|]. done.
Qed.

(** C1, as stated, fails: after the scope of a session for two steps has
    made one step and been left by an exception, the progress document is
    active, whereas the document [complete_task] writes, and the one the same
    scope leaves when it ends normally, is inactive. *)
Lemma C1_error_record_is_active :
  let failed :=
    session_scope "Error Test" 2
      [PulseTask.CallStep "Step 1" (Some (1 # 2));
       PulseTask.CallRaise (Exn ValueError "Test error")] started_world in
  let normal :=
    session_scope "Error Test" 2
      [PulseTask.CallStep "Step 1" (Some (1 # 2))] started_world in
  progress_field "error" (snd (snd failed)) = Some (VStr "ValueError: Test error")
  /\ progress_field "progress" (snd (snd failed)) = Some (VFloat (1 # 2))
  /\ progress_field "active" (snd (snd failed)) = Some (VBool true)
  /\ State.inactive_template !! "active" = Some (VBool false)
  /\ progress_field "active" (snd (snd normal)) = Some (VBool false).
Proof. intros failed normal. repeat (split; [vm_compute; reflexivity|]). vm_compute; reflexivity. Qed.

(** C1, amended: when the scope of a session with two steps has made exactly
    one step and is left by an exception, the session is closed and
    [complete_task] invoked once, the task being put at the head of the
    history; the error record is published after that, so that the progress
    document ends with the error string "Kind: message", progress 1/2, and
    active true, the value every [update_progress] writes. *)
Theorem C1_exception_exit w tn description progress e :
  store_ok w = true ->
  now_of w <> 0 ->
  let result :=
    session_scope tn 2
      [PulseTask.CallStep description progress; PulseTask.CallRaise e] w in
  fst result = Raise e
  /\ progress_field "error" (snd (snd result))
     = Some (VStr (__name__ (exc_class e) ++ ": " ++ exc_val e))
  /\ progress_field "progress" (snd (snd result)) = Some (VFloat (1 # 2))
  /\ progress_field "active" (snd (snd result)) = Some (VBool true)
  /\ PulseTask.closed (fst (snd result)) = true
  /\ completions (snd (snd result)) = Datatypes.S (completions w)
  /\ head (history_names (snd (snd result))) = Some (Some (VStr tn)).
Proof.
  intros Hok Hnow result. subst result.
  unfold session_scope, PulseTask.with_, pulse_task.
  set (s0 := PulseTask.__init__ tn 2 PulseTask.default_step_format).
  set (s1 := PulseTask.set_start_time (Some (Qred (now_of w # 1000000))) s0).
  set (s2 := PulseTask.set_current_step 1 s1).
  set (s3 := PulseTask.set_closed true s2).
  (* __enter__ *)
  destruct (store_update_run s1 tn "Starting..." 0 None None None (tick w) Hok)
    as (w1 & E1 & Hok1 & Hc1 & Hh1 & _).
  assert (Henter : PulseTask.__enter__ (s0, w) = (Ret tt, (s1, w1))).
  { unfold PulseTask.__enter__.
    rewrite (bind_run _ _ _ (Qred (now_of w # 1000000)) (s0, tick w)) by reflexivity.
    rewrite (bind_run _ _ _ s0 (s0, tick w)) by reflexivity.
    rewrite (bind_run _ _ _ tt (s1, tick w)) by reflexivity.
    exact E1. }
  rewrite (bind_run _ _ _ _ _ Henter).
  (* the body: one step, then the exception *)
  destruct (store_update_run s2 tn
              (PulseTask.format PulseTask.default_step_format 1 2 description)
              (match progress with Some p => p | None => PulseTask.ratio s2 end)
              None None None w1 Hok1)
    as (w2 & E2 & Hok2 & Hc2 & Hh2 & _).
  assert (Hbody : PulseTask.script
                    [PulseTask.CallStep description progress; PulseTask.CallRaise e]
                    (s1, w1) = (Raise e, (s2, w2))).
  { cbn [PulseTask.script PulseTask.perform].
    assert (Hstep : PulseTask.step description progress (s1, w1) = (Ret tt, (s2, w2))).
    { unfold PulseTask.step.
      rewrite (bind_run _ _ _ s1 (s1, w1)) by reflexivity.
      cbn [PulseTask.closed s1 s0 PulseTask.set_start_time PulseTask.__init__].
      rewrite (bind_run _ _ _ tt (s2, w1)) by reflexivity.
      rewrite (bind_run _ _ _ s2 (s2, w1)) by reflexivity.
      exact E2. }
    rewrite (bind_run _ _ _ _ _ Hstep). reflexivity. }
  rewrite Hbody.
  (* __exit__: close, then the error record *)
  destruct (store_complete_run s3 tn w2 Hok2) as (w3 & E3 & Hok3 & Hc3 & Hh3).
  assert (Hclose : PulseTask.close (s2, w2) = (Ret tt, (s3, w3))).
  { unfold PulseTask.close.
    rewrite (bind_run _ _ _ s2 (s2, w2)) by reflexivity.
    cbn [PulseTask.closed PulseTask.start_time s2 s1 s0 PulseTask.set_current_step
         PulseTask.set_start_time PulseTask.__init__ negb andb of_option].
    rewrite (time_truthy _ Hnow).
    rewrite (bind_run _ _ _ tt (s3, w2)) by reflexivity.
    exact E3. }
  destruct (store_update_run s3 tn "Error occurred" (PulseTask.ratio s3) None
              (Some (__name__ (exc_class e) ++ ": " ++ exc_val e)%string) None w3 Hok3)
    as (w4 & E4 & Hok4 & Hc4 & Hh4 & Hact & Hprog & _ & Herr).
  assert (Hexit : PulseTask.__exit__ (Some e) (s2, w2) = (Ret tt, (s3, w4))).
  { unfold PulseTask.__exit__.
    rewrite (bind_run _ _ _ _ _ Hclose).
    rewrite (bind_run _ _ _ s3 (s3, w3)) by reflexivity. exact E4. }
  rewrite (bind_run _ _ _ _ _ Hexit). cbn [raise fst snd].
  split; [done|]. split; [exact Herr|]. split; [exact Hprog|].
  split; [exact Hact|]. split; [done|].
  split; [by rewrite Hc4, Hc3, Hc2, Hc1|].
  by rewrite Hh4, Hh3.
Qed.

Lemma C1_exception_exit_witness :
  store_ok started_world = true
  /\ now_of started_world <> 0
  /\ progress_field "active"
       (snd (snd (session_scope "Error Test" 2
                    [PulseTask.CallStep "Step 1" (Some (1 # 2));
                     PulseTask.CallRaise (Exn ValueError "Test error")]
                    started_world)))
     = Some (VBool true).
Proof.
  assert (H : now_of started_world <> 0) by (vm_compute; discriminate).
  split; [reflexivity|]. split; [exact H|].
  apply (C1_exception_exit started_world "Error Test" "Step 1" (Some (1 # 2))
           (Exn ValueError "Test error") eq_refl H).
Defined.

(** ** The wrapper on a store in working order *)

Lemma store_ok_same_files w w' : files w' = files w -> store_ok w' = store_ok w.
Proof. unfold store_ok. by intros ->. Qed.

Lemma completions_same_trace w w' : trace w' = trace w -> completions w' = completions w.
Proof. unfold completions. by intros ->. Qed.

Lemma calculate_eta_run {A} (self : PulseProgress.t A) w :
  exists eta w',
    PulseProgress._calculate_eta (self, w) = (Ret eta, (self, w'))
    /\ files w' = files w /\ trace w' = trace w.
Proof.
  unfold PulseProgress._calculate_eta.
  rewrite (bind_run _ _ _ self (self, w)) by reflexivity.
  destruct (negb (PulseProgress.has_total self) || (PulseProgress.n self <=? 0));
    [by exists None, w|].
  rewrite (bind_run _ _ _ (Qred (now_of w # 1000000)) (self, tick w)) by reflexivity.
  cbv zeta.
  match goal with
  | |- context [if ?b then _ else _] => destruct b
  end; by eexists _, (tick w).
Qed.

Lemma report_progress_ok {A} (self : PulseProgress.t A) w :
  store_ok w = true ->
  PulseProgress.disable self = false ->
  exists eta w',
    PulseProgress._report_progress (self, w) = (Ret tt, (self, w'))
    /\ store_ok w' = true
    /\ completions w' = completions w
    /\ progress_field "eta_seconds" w' = Some (of_option VInt eta)
    /\ (PulseProgress.has_total self = true ->
        fst (PulseProgress._calculate_eta (self, w)) = Ret eta).
Proof.
  intros Hok Hd. unfold PulseProgress._report_progress.
  rewrite (bind_run _ _ _ self (self, w)) by reflexivity. rewrite Hd.
  destruct (PulseProgress.has_total self) eqn:Ht.
  - destruct (calculate_eta_run self w) as (eta & w1 & E1 & Hf & Htr).
    assert (Hok1 : store_ok w1 = true) by by rewrite (store_ok_same_files w w1).
    match goal with
    | |- context [State.update_progress ?tn ?cs _ _ _ _] =>
        destruct (store_update_run self tn cs
                    (true_div (inject_Z (PulseProgress.n self))
                       (inject_Z (default 0 (PulseProgress.total self))))
                    eta None None w1 Hok1)
          as (w2 & E2 & Hok2 & Hc2 & _ & _ & _ & Heta & _)
    end.
    exists eta, w2.
    split.
    + match goal with
      | |- bind ?m ?k (self, w) = _ =>
          rewrite (bind_run m k (self, w)
                     (true_div (inject_Z (PulseProgress.n self))
                        (inject_Z (default 0 (PulseProgress.total self))), eta)
                     (self, w1))
      end; [exact E2|].
      by rewrite (bind_run _ _ _ _ _ E1).
    + split; [done|]. split; [by rewrite Hc2, (completions_same_trace w w1)|].
      split; [done|]. intros _. by rewrite E1.
  - match goal with
    | |- context [State.update_progress ?tn ?cs _ _ _ _] =>
        destruct (store_update_run self tn cs 0%Q None None None w Hok)
          as (w2 & E2 & Hok2 & Hc2 & _ & _ & _ & Heta & _)
    end.
    exists None, w2.
    split; [by rewrite (bind_run _ _ _ (0%Q, None) (self, w)) by reflexivity|].
    done.
Qed.

Lemma tracker_update_ok {A} (self : PulseProgress.t A) k w :
  store_ok w = true ->
  PulseProgress.disable self = false ->
  exists self' w',
    PulseProgress.update k (self, w) = (Ret tt, (self', w'))
    /\ store_ok w' = true
    /\ completions w' = completions w
    /\ PulseProgress.disable self' = false
    /\ PulseProgress.n self' = PulseProgress.n self + k.
Proof.
  intros Hok Hd. unfold PulseProgress.update.
  rewrite (bind_run _ _ _ self (self, w)) by reflexivity. rewrite Hd.
  set (self1 := PulseProgress.set_n (PulseProgress.n self + k) self).
  rewrite (bind_run _ _ _ tt (self1, w)) by reflexivity.
  rewrite (bind_run _ _ _ (Qred (now_of w # 1000000)) (self1, tick w)) by reflexivity.
  rewrite (bind_run _ _ _ self1 (self1, tick w)) by reflexivity.
  destruct (Qle_bool _ _).
  - destruct (report_progress_ok self1 (tick w) Hok Hd)
      as (eta & w1 & E1 & Hok1 & Hc1 & _).
    rewrite (bind_run _ _ _ _ _ E1).
    rewrite (bind_run _ _ _ self1 (self1, w1)) by reflexivity.
    eexists _, w1. split; [reflexivity|]. done.
  - exists self1, (tick w). done.
Qed.

Lemma iter_loop_ok {A} (objs : list A) : forall (self : PulseProgress.t A) w,
  store_ok w = true ->
  PulseProgress.disable self = false ->
  exists self' w',
    PulseProgress.iter_loop objs (self, w) = (Ret objs, (self', w'))
    /\ store_ok w' = true
    /\ completions w' = completions w
    /\ PulseProgress.disable self' = false
    /\ PulseProgress.n self' = PulseProgress.n self + Z.of_nat (length objs).
Proof.
  induction objs as [|obj rest IH]; intros self w Hok Hd.
  - exists self, w. cbn [length]. repeat split; try done. lia.
  - destruct (tracker_update_ok self 1 w Hok Hd) as (s1 & w1 & E1 & Hok1 & Hc1 & Hd1 & Hn1).
    destruct (IH s1 w1 Hok1 Hd1) as (s2 & w2 & E2 & Hok2 & Hc2 & Hd2 & Hn2).
    exists s2, w2. cbn [PulseProgress.iter_loop].
    rewrite (bind_run _ _ _ _ _ E1), (bind_run _ _ _ _ _ E2).
    repeat split; try done; [congruence|].
    rewrite Hn2, Hn1. cbn [length]. lia.
Qed.

Lemma tracker_close_ok {A} (self : PulseProgress.t A) w :
  store_ok w = true ->
  exists w', PulseProgress.close (self, w) = (Ret tt, (self, w')) /\ store_ok w' = true.
Proof.
  intros Hok. unfold PulseProgress.close.
  rewrite (bind_run _ _ _ self (self, w)) by reflexivity.
  destruct (negb (PulseProgress.disable self) && (0 <? PulseProgress.n self));
    [|by exists w].
  destruct (store_complete_run self (PulseProgress.desc self) w Hok)
    as (w1 & E1 & Hok1 & _).
  rewrite (bind_run _ _ _ _ _ E1).
  destruct (PulseProgress.leave self); [|by exists w1].
  exists (logged
            (EvPrintFinal (PulseProgress.desc self) (PulseProgress.n self)
               (PulseProgress._format_time
                  (py_int (Qred (Qred (now_of w1 # 1000000)
                                 - PulseProgress.start_t self)))))
            (tick w1)).
  split; [reflexivity|done].
Qed.

(** C7, as stated, fails: around the empty list the iteration ends without
    an invocation of [complete_task]; and a wrapper made with [disable=True]
    around the list 1, 2, 3 yields no item at all. *)
Lemma C7_empty_and_disabled :
  completions started_world = 0%nat
  /\ fst (tracker_life (@nil nat) false started_world) = Ret []
  /\ completions (snd (tracker_life (@nil nat) false started_world)) = 0%nat
  /\ fst (tracker_life [1; 2; 3] true started_world) = Ret []
  /\ fst (tracker_life [1; 2; 3] false started_world) = Ret [1; 2; 3].
Proof. repeat (split; [vm_compute; reflexivity|]). vm_compute; reflexivity. Qed.

(** C7, amended: iterating an enabled wrapper around a finite sequence of
    length N yields exactly the N items of the sequence, in their order, and,
    for a wrapper that starts counting at 0, triggers exactly one
    [complete_task] when N >= 1 and none when N = 0 (one exactly when the
    count at the end is positive).  A wrapper made with [disable=True] writes
    nothing to the store and calls neither [update_progress] nor
    [complete_task]: its construction leaves the files and the trace as they
    were, and its methods leave the object and the world as they were. *)
Theorem C7_iteration :
  (forall A (self : PulseProgress.t A) it w,
     store_ok w = true ->
     PulseProgress.disable self = false ->
     PulseProgress.iterable_ self = Some it ->
     fst (PulseProgress.__iter__ (self, w)) = Ret (elements_of it)
     /\ completions (snd (snd (PulseProgress.__iter__ (self, w))))
        = (completions w
           + (if (0 <? PulseProgress.n self + Z.of_nat (length (elements_of it)))%Z
              then 1 else 0))%nat)
  /\ (forall A (self : PulseProgress.t A) k w,
        PulseProgress.disable self = true ->
        snd (PulseProgress.__iter__ (self, w)) = (self, w)
        /\ snd (PulseProgress.update k (self, w)) = (self, w)
        /\ snd (PulseProgress._report_progress (self, w)) = (self, w)
        /\ snd (PulseProgress.close (self, w)) = (self, w))
  /\ (forall A (it : option (iterable A)) desc total task step unit_ leave
             mininterval initial w,
        exists self,
          fst (PulseProgress.__init__ it desc total task step unit_ leave
                 mininterval true initial w) = Ret self
          /\ PulseProgress.disable self = true
          /\ files (snd (PulseProgress.__init__ it desc total task step unit_ leave
                           mininterval true initial w)) = files w
          /\ trace (snd (PulseProgress.__init__ it desc total task step unit_ leave
                           mininterval true initial w)) = trace w).
Proof.
  split; [|split].
  - intros A self it w Hok Hd Hit.
    destruct (iter_loop_ok (elements_of it) self w Hok Hd)
      as (s1 & w1 & E1 & Hok1 & Hc1 & Hd1 & Hn1).
    destruct (tracker_close_ok s1 w1 Hok1) as (w2 & E2 & Hok2).
    pose proof (tracker_close_counts s1 w1) as Hc2.
    unfold after in Hc2. rewrite E2 in Hc2. cbn [snd] in Hc2.
    unfold PulseProgress.__iter__.
    rewrite (bind_run _ _ _ self (self, w)) by reflexivity.
    rewrite Hit, Hd. unfold try_finally. rewrite E1, E2. cbn [fst snd].
    split; [done|]. by rewrite Hc2, Hd1, Hn1, Hc1.
  - intros A self k w Hd.
    unfold PulseProgress.__iter__, PulseProgress.update,
      PulseProgress._report_progress, PulseProgress.close, bind, get_self.
    cbn [fst snd]. rewrite Hd. cbn [negb andb].
    by destruct (PulseProgress.iterable_ self).
  - intros A it desc total task step unit_ leave mininterval initial w.
    eexists. split; [reflexivity|]. done.
Qed.

Lemma C7_iteration_witness :
  store_ok started_world = true
  /\ PulseProgress.disable (sample_tracker [1; 2; 3]) = false
  /\ fst (PulseProgress.__iter__ (sample_tracker [1; 2; 3], started_world))
     = Ret [1; 2; 3].
Proof.
  split; [reflexivity|]. split; [reflexivity|].
  apply (proj1 C7_iteration Z (sample_tracker [1; 2; 3]) (Sized [1; 2; 3])
           started_world eq_refl eq_refl eq_refl).
Defined.

(** ** The estimated time to completion *)

Lemma Qltb_true x y : Qltb x y = true <-> (x < y)%Q.
Proof.
  unfold Qltb. rewrite negb_true_iff, <- not_true_iff_false, Qle_bool_iff.
  split; [apply Qnot_le_lt | apply Qlt_not_le].
Qed.

Lemma Qltb_false x y : Qltb x y = false <-> (y <= x)%Q.
Proof.
  unfold Qltb. rewrite negb_false_iff. apply Qle_bool_iff.
Qed.

(** ** Rounding keeps the sign and does not go below 1 *)

Lemma scaled_pos a d e :
  0 < a -> 0 < d -> 0 < fst (scaled a d e) /\ 0 < snd (scaled a d e).
Proof.
  intros Ha Hd. unfold scaled. destruct (Z.leb_spec 0 e); cbn [fst snd].
  - split; [exact Ha|]. apply Z.mul_pos_pos; [exact Hd|]. apply Z.pow_pos_nonneg; lia.
  - split; [|exact Hd]. apply Z.mul_pos_pos; [exact Ha|]. apply Z.pow_pos_nonneg; lia.
Qed.

Lemma scaled_ge a d e :
  0 < a -> 0 < d -> e <= Z.log2 a - Z.log2 d - 1 ->
  snd (scaled a d e) <= fst (scaled a d e).
Proof.
  intros Ha Hd He.
  destruct (Z.log2_spec a Ha) as [La _]. destruct (Z.log2_spec d Hd) as [_ Ld].
  pose proof (Z.log2_nonneg a) as Na. pose proof (Z.log2_nonneg d) as Nd.
  unfold scaled. destruct (Z.leb_spec 0 e); cbn [fst snd].
  - apply Z.le_trans with (2 ^ Z.log2 a); [|exact La].
    apply Z.le_trans with (2 ^ Z.succ (Z.log2 d) * 2 ^ e).
    + apply Z.mul_le_mono_nonneg_r; [apply Z.pow_nonneg; lia|lia].
    + rewrite <- Z.pow_add_r by lia. apply Z.pow_le_mono_r; lia.
  - apply Z.le_trans with (2 ^ Z.succ (Z.log2 d)); [lia|].
    apply Z.le_trans with (2 ^ Z.log2 a * 2 ^ (- e)).
    + rewrite <- Z.pow_add_r by lia. apply Z.pow_le_mono_r; lia.
    + apply Z.mul_le_mono_nonneg_r; [apply Z.pow_nonneg; lia|lia].
Qed.

Lemma round_half_even_ge a d e :
  fst (scaled a d e) / snd (scaled a d e) <= round_half_even a d e.
Proof. unfold round_half_even. cbv zeta. destruct (_ || _); lia. Qed.

Lemma pow2_pos e : (0 < pow2 e)%Q.
Proof.
  unfold pow2. destruct (Z.leb_spec 0 e).
  - unfold Qlt. cbn. pose proof (Z.pow_pos_nonneg 2 e). lia.
  - reflexivity.
Qed.

Lemma round53_lower a d :
  0 < a -> 0 < d ->
  exists m e, round53 a d = (inject_Z m * pow2 e)%Q
              /\ 1 <= m
              /\ (e < 0 -> (a * 2 ^ (- e)) / d <= m).
Proof.
  intros Ha Hd. unfold round53. cbv zeta.
  set (e := Z.log2 a - Z.log2 d - 53).
  set (e' := if _ <? _ then e else e + 1).
  assert (He' : e' <= Z.log2 a - Z.log2 d - 1)
    by (subst e'; destruct (_ <? _); lia).
  exists (round_half_even a d e'), e'. split; [reflexivity|].
  pose proof (round_half_even_ge a d e') as Hge.
  pose proof (scaled_ge a d e' Ha Hd He') as Hs.
  destruct (scaled_pos a d e' Ha Hd) as [HN HD].
  split.
  - apply Z.le_trans with (fst (scaled a d e') / snd (scaled a d e')); [|exact Hge].
    apply Z.div_le_lower_bound; lia.
  - intros Hneg. unfold scaled in Hge.
    destruct (Z.leb_spec 0 e'); [lia|]. exact Hge.
Qed.

Lemma round_float_pos q : (0 < q)%Q -> (0 < round_float q)%Q.
Proof.
  destruct q as [[|a|a] d]; unfold Qlt; cbn [Qnum Qden]; intros H; try lia.
  unfold round_float. cbn [Qnum Qden].
  destruct (round53_lower (Z.pos a) (Z.pos d)) as (m & e & -> & Hm & _); [lia|lia|].
  apply Qmult_lt_0_compat; [|apply pow2_pos].
  unfold Qlt. cbn. lia.
Qed.

Lemma round_float_nonneg q : (0 <= q)%Q -> (0 <= round_float q)%Q.
Proof.
  intros H. destruct (Qle_lt_or_eq _ _ H) as [Hlt|Heq].
  - apply Qlt_le_weak, round_float_pos, Hlt.
  - destruct q as [[|a|a] d]; unfold Qeq in Heq; cbn in Heq; try lia.
    unfold round_float. cbn. discriminate.
Qed.

Lemma round_float_ge_1 q : (1 <= q)%Q -> (1 <= round_float q)%Q.
Proof.
  destruct q as [[|a|a] d]; unfold Qle at 1; cbn [Qnum Qden]; intros H; try lia.
  unfold round_float. cbn [Qnum Qden].
  destruct (round53_lower (Z.pos a) (Z.pos d)) as (m & e & -> & Hm & Hlow); [lia|lia|].
  unfold pow2. destruct (Z.leb_spec 0 e) as [He|He].
  - rewrite <- inject_Z_mult. change 1%Q with (inject_Z 1). rewrite <- Zle_Qle.
    pose proof (Z.pow_pos_nonneg 2 e). nia.
  - specialize (Hlow He).
    assert (Hp : 0 < 2 ^ (- e)) by (apply Z.pow_pos_nonneg; lia).
    assert (Hq : 2 ^ (- e) <= Z.pos a * 2 ^ (- e) / Z.pos d).
    { apply Z.div_le_lower_bound; [lia|]. nia. }
    unfold Qle, Qmult, inject_Z. cbn [Qnum Qden].
    rewrite Pos.mul_1_l, Z2Pos.id by exact Hp. lia.
Qed.

Lemma py_float_pos z : 0 < z -> (0 < py_float z)%Q.
Proof.
  intros H. unfold py_float. rewrite Qred_correct. apply round_float_pos.
  unfold Qlt. cbn. lia.
Qed.

Lemma py_float_nonneg z : 0 <= z -> (0 <= py_float z)%Q.
Proof.
  intros H. unfold py_float. rewrite Qred_correct. apply round_float_nonneg.
  unfold Qle. cbn. lia.
Qed.

Lemma py_int_nonneg q : (0 <= q)%Q -> 0 <= py_int q.
Proof.
  unfold Qle, py_int. cbn [Qnum Qden]. intros H. apply Z.quot_pos; lia.
Qed.

Lemma true_div_pos a b : (0 < a)%Q -> (0 < b)%Q -> (0 < true_div a b)%Q.
Proof.
  intros Ha Hb. unfold true_div. rewrite Qred_correct. apply round_float_pos.
  apply Qlt_shift_div_l; [done|]. by rewrite Qmult_0_l.
Qed.

Lemma true_div_nonneg a b : (0 <= a)%Q -> (0 < b)%Q -> (0 <= true_div a b)%Q.
Proof.
  intros Ha Hb. unfold true_div. rewrite Qred_correct. apply round_float_nonneg.
  apply Qle_shift_div_l; [done|]. by rewrite Qmult_0_l.
Qed.

Lemma inject_Z_pos z : 0 < z -> (0 < inject_Z z)%Q.
Proof. intros H. unfold Qlt. cbn. lia. Qed.

Lemma inject_Z_nonneg z : 0 <= z -> (0 <= inject_Z z)%Q.
Proof. intros H. unfold Qle. cbn. lia. Qed.

Lemma calculate_eta_cases {A} (self : PulseProgress.t A) w T :
  PulseProgress.total self = Some T ->
  T <> 0 ->
  let elapsed := Qred (Qred (now_of w # 1000000) - PulseProgress.start_t self) in
  fst (PulseProgress._calculate_eta (self, w))
  = Ret (if PulseProgress.n self <=? 0 then None
         else if Qltb 0 elapsed then
           Some (py_int (true_div (py_float (T - PulseProgress.n self))
                           (true_div (py_float (PulseProgress.n self)) elapsed)))
         else None).
Proof.
  intros HT HT0 elapsed. unfold PulseProgress._calculate_eta.
  rewrite (bind_run _ _ _ self (self, w)) by reflexivity.
  assert (Hhas : PulseProgress.has_total self = true).
  { unfold PulseProgress.has_total. rewrite HT. cbn. by apply negb_true_iff, Z.eqb_neq. }
  rewrite Hhas. cbn [negb orb].
  destruct (PulseProgress.n self <=? 0) eqn:En; [reflexivity|].
  rewrite (bind_run _ _ _ (Qred (now_of w # 1000000)) (self, tick w)) by reflexivity.
  cbv zeta. fold elapsed. rewrite HT. cbn [from_option id].
  destruct (Qltb 0 elapsed) eqn:Ee; [|reflexivity].
  assert (Hs : Qltb 0 (true_div (py_float (PulseProgress.n self)) elapsed) = true).
  { apply Qltb_true, true_div_pos; [|apply Qltb_true; exact Ee].
    apply py_float_pos. apply Z.leb_gt in En. lia. }
  rewrite Hs. reflexivity.
Qed.

(** C9, as stated, fails: a wrapper made for a total of 2 and advanced by 4
    persists a negative [eta_seconds]. *)
Lemma C9_negative_eta :
  progress_field "eta_seconds" (tracker_advance 2 4 started_world) = Some (VInt (-15))
  /\ progress_field "progress" (tracker_advance 2 4 started_world) = Some (VFloat 1).
Proof. split; vm_compute; reflexivity. Qed.

(** C9, amended: for a wrapper with a known total, the estimate is absent
    while the counter is not positive (no throughput) or the elapsed time is
    not positive, and no division fails; otherwise it is
    [(total - counter) / throughput], with
    [throughput = counter / elapsed], each quotient rounded as binary64
    rounds it, truncated to an integer.  The value the wrapper persists is
    that estimate; it is absent or an integer, and non-negative whenever the
    counter does not exceed the total.  The formula and the persisted value
    are stated for counters, totals and elapsed times of a size at which the
    divisions stay within the exponents of binary64. *)
Theorem C9_eta_estimate {A} (self : PulseProgress.t A) w T :
  PulseProgress.total self = Some T ->
  T <> 0 ->
  let elapsed := Qred (Qred (now_of w # 1000000) - PulseProgress.start_t self) in
  let eta := fst (PulseProgress._calculate_eta (self, w)) in
  (PulseProgress.n self <= 0 -> eta = Ret None)
  /\ (0 < PulseProgress.n self -> (elapsed <= 0)%Q -> eta = Ret None)
  /\ (0 < PulseProgress.n self -> (0 < elapsed)%Q ->
      eta_in_range (PulseProgress.n self) T elapsed = true ->
      eta = Ret (Some (py_int (true_div (py_float (T - PulseProgress.n self))
                                 (true_div (py_float (PulseProgress.n self)) elapsed)))))
  /\ (PulseProgress.n self <= T -> forall k, eta = Ret (Some k) -> 0 <= k)
  /\ (store_ok w = true -> PulseProgress.disable self = false ->
      eta_in_range (PulseProgress.n self) T elapsed = true ->
      exists k,
        eta = Ret k
        /\ progress_field "eta_seconds"
             (snd (snd (PulseProgress._report_progress (self, w))))
           = Some (of_option VInt k)).
Proof.
  intros HT HT0 elapsed eta.
  pose proof (calculate_eta_cases self w T HT HT0) as Heta.
  cbv zeta in Heta. fold elapsed eta in Heta.
  split; [|split; [|split; [|split]]].
  - intros Hn. rewrite Heta. rewrite (proj2 (Z.leb_le _ _) Hn). reflexivity.
  - intros Hn He. rewrite Heta. rewrite (proj2 (Z.leb_gt _ _) Hn).
    rewrite (proj2 (Qltb_false _ _) He). reflexivity.
  - intros Hn He _. rewrite Heta. rewrite (proj2 (Z.leb_gt _ _) Hn).
    rewrite (proj2 (Qltb_true _ _) He). reflexivity.
  - intros Hn k Hk. rewrite Heta in Hk.
    destruct (PulseProgress.n self <=? 0) eqn:En; [discriminate Hk|].
    destruct (Qltb 0 elapsed) eqn:Ee; [|discriminate Hk].
    injection Hk as <-. apply py_int_nonneg, true_div_nonneg.
    + apply py_float_nonneg. lia.
    + apply true_div_pos; [|apply Qltb_true; exact Ee].
      apply py_float_pos. apply Z.leb_gt in En. lia.
  - intros Hok Hd _.
    destruct (report_progress_ok self w Hok Hd) as (k & w' & E & _ & _ & Hf & Hk).
    exists k. rewrite E. cbn [snd]. split; [|exact Hf].
    apply Hk. unfold PulseProgress.has_total. rewrite HT. cbn.
    by apply negb_true_iff, Z.eqb_neq.
Qed.

Lemma C9_eta_estimate_witness :
  let self := PulseProgress.Self (@None (iterable unit)) "Job" "1/1" (Some 46) "it"
                true (1 # 10) false 0 23 0 0 1699999970 1699999970 in
  let elapsed :=
    Qred (Qred (now_of started_world # 1000000) - PulseProgress.start_t self) in
  PulseProgress.total self = Some 46
  /\ 46 <> 0
  /\ 0 < PulseProgress.n self
  /\ elapsed = 30%Q
  /\ eta_in_range (PulseProgress.n self) 46 elapsed = true
  /\ fst (PulseProgress._calculate_eta (self, started_world)) = Ret (Some 29).
Proof.
  intros self elapsed.
  assert (Hn : 0 < PulseProgress.n self) by reflexivity.
  assert (He : elapsed = 30%Q) by (vm_compute; reflexivity).
  assert (Hp : (0 < elapsed)%Q) by (rewrite He; reflexivity).
  assert (Hr : eta_in_range (PulseProgress.n self) 46 elapsed = true)
    by (vm_compute; reflexivity).
  destruct (C9_eta_estimate self started_world 46 eq_refl ltac:(discriminate))
    as (_ & _ & Hformula & _).
  split; [reflexivity|]. split; [discriminate|]. split; [exact Hn|].
  split; [exact He|]. split; [exact Hr|].
  etransitivity; [exact (Hformula Hn Hp Hr)|]. vm_compute. reflexivity.
Defined.

(** * Further properties of the store *)

(** ** Reading and writing a state file *)

Lemma write_safe_run p v w : State._write_safe p v w = (Ret tt, wrote p v w).
Proof.
  unfold wrote. destruct (writable (fget p (files w))) eqn:E.
  - by apply write_safe_writable.
  - unfold State._write_safe, try_except, bind, State.open_w. by rewrite E.
Qed.

Lemma wrote_other p q v w : p <> q -> fget q (files (wrote p v w)) = fget q (files w).
Proof.
  intros H. unfold wrote. destruct (writable _); [by apply written_other|done].
Qed.

Lemma read_safe_files p w : files (snd (State._read_safe p w)) = files w.
Proof.
  unfold State._read_safe, try_except, State.open_r_load.
  destruct (State.load (fget p (files w))) as [v|e]; [done|].
  by destruct (is_JSONDecodeError e || is_IOError e).
Qed.

(** X1: A write that is refused is absorbed: when the file cannot be opened for
    writing, [_write_safe] returns normally, the [PermissionError] goes to the
    log, and every state file, the one that was to be written included, is
    as it was. *)
Theorem write_safe_refused p v w :
  writable (fget p (files w)) = false ->
  exists e,
    exc_class e = PermissionError
    /\ fst (State._write_safe p v w) = Ret tt
    /\ files (snd (State._write_safe p v w)) = files w
    /\ trace (snd (State._write_safe p v w)) = EvLogError e :: trace w.
Proof.
  intros H. exists (Exn PermissionError "Permission denied").
  rewrite write_safe_run. unfold wrote. rewrite H. done.
Qed.

Lemma write_safe_refused_witness :
  let w := World (Disk (File (Some (Json (VDict State.inactive_template))) true false)
                    absent absent) (fun _ => 0) 0 1 [] in
  writable (fget PROGRESS_FILE (files w)) = false
  /\ exists e,
       exc_class e = PermissionError
       /\ fst (State._write_safe PROGRESS_FILE (VDict ∅) w) = Ret tt
       /\ files (snd (State._write_safe PROGRESS_FILE (VDict ∅) w)) = files w
       /\ trace (snd (State._write_safe PROGRESS_FILE (VDict ∅) w))
          = EvLogError e :: trace w.
Proof.
  intros w.
  assert (H : writable (fget PROGRESS_FILE (files w)) = false) by reflexivity.
  split; [exact H|].
  exact (write_safe_refused PROGRESS_FILE (VDict ∅) w H).
Defined.

(** X2: What is written to a file that can be written and read is what is read
    back, whatever the file held before, even nothing. *)
Theorem write_then_read p v w :
  writable (fget p (files w)) = true ->
  readable (fget p (files w)) = true ->
  fst (State._read_safe p (snd (State._write_safe p v w))) = Ret v.
Proof.
  intros Hw Hr. rewrite write_safe_run. cbn [snd]. unfold wrote. rewrite Hw.
  rewrite (read_safe_holds p _ v); [done|].
  unfold holds, written, set_data. cbn [files]. rewrite fget_fset. by rewrite Hw, Hr.
Qed.

Lemma write_then_read_witness :
  writable (fget HISTORY_FILE (files fresh_world)) = true
  /\ readable (fget HISTORY_FILE (files fresh_world)) = true
  /\ fst (State._read_safe HISTORY_FILE
            (snd (State._write_safe HISTORY_FILE (VList [VInt 1]) fresh_world)))
     = Ret (VList [VInt 1]).
Proof.
  split; [reflexivity|]. split; [reflexivity|].
  apply (write_then_read HISTORY_FILE (VList [VInt 1]) fresh_world); reflexivity.
Defined.

(** X3: [_read_safe] changes no file.  What it returns is the value the file
    holds or, on a failure it recovers from (the file is missing, cannot be
    read, or is not a JSON document), the empty object.  When it raises, the
    file is there, could be opened and is not one of those it recovers from,
    and the exception is none of the kinds its [except] clause names. *)
Theorem read_safe_outcomes p w :
  files (snd (State._read_safe p w)) = files w
  /\ (forall v, fst (State._read_safe p w) = Ret v ->
        data (fget p (files w)) = Some (Json v)
        \/ (v = VDict ∅ /\ degraded (fget p (files w)) = true))
  /\ (forall e, fst (State._read_safe p w) = Raise e ->
        degraded (fget p (files w)) = false
        /\ is_JSONDecodeError e || is_IOError e = false).
Proof.
  split; [apply read_safe_files|].
  unfold State._read_safe, try_except, State.open_r_load, State.load, degraded.
  destruct (fget p (files w)) as [[[| |u]|] [] wr]; cbn; split; intros x Hx;
    try discriminate Hx; try (injection Hx as <-); auto.
Qed.

Lemma read_safe_outcomes_witness :
  fst (State._read_safe PROGRESS_FILE started_world)
  = Ret (VDict State.inactive_template)
  /\ (data (fget PROGRESS_FILE (files started_world))
      = Some (Json (VDict State.inactive_template))
      \/ (VDict State.inactive_template = VDict ∅
          /\ degraded (fget PROGRESS_FILE (files started_world)) = true)).
Proof.
  assert (H : fst (State._read_safe PROGRESS_FILE started_world)
              = Ret (VDict State.inactive_template)) by reflexivity.
  split; [exact H|].
  exact (proj1 (proj2 (read_safe_outcomes PROGRESS_FILE started_world))
           (VDict State.inactive_template) H).
Defined.

(** ** Initialisation *)

Lemma ensure_then {A} p (k : SE world A) w :
  (b <- State.exists_ p ;;
   when (negb b) (State._write_safe p (default_document p)) ;; k) w
  = k (ensured p w).
Proof.
  unfold bind at 1. unfold State.exists_, ensured.
  destruct (data (fget p (files w))); cbn [negb when].
  - reflexivity.
  - unfold bind. by rewrite write_safe_run.
Qed.

Lemma ensure_last p w :
  (b <- State.exists_ p ;;
   when (negb b) (State._write_safe p (default_document p))) w
  = (Ret tt, ensured p w).
Proof.
  unfold bind at 1. unfold State.exists_, ensured.
  destruct (data (fget p (files w))); cbn [negb when]; [done|].
  by rewrite write_safe_run.
Qed.

Lemma init_run w :
  State.__init__ w
  = (Ret tt, ensured WIDGET_POSITION_FILE (ensured HISTORY_FILE (ensured PROGRESS_FILE w))).
Proof.
  unfold State.__init__, State._ensure_files_exist.
  rewrite (ensure_then PROGRESS_FILE), (ensure_then HISTORY_FILE).
  apply (ensure_last WIDGET_POSITION_FILE).
Qed.

Lemma ensured_same p w : fget p (files (ensured p w)) = created p (fget p (files w)).
Proof.
  unfold ensured, created. destruct (data (fget p (files w))); [done|].
  unfold wrote, written. destruct (writable _); [|done].
  cbn [files]. by rewrite fget_fset.
Qed.

Lemma ensured_other p q w : p <> q -> fget q (files (ensured p w)) = fget q (files w).
Proof.
  intros H. unfold ensured. destruct (data (fget p (files w))); [done|].
  by apply wrote_other.
Qed.

Lemma init_file p w :
  fget p (files (snd (State.__init__ w))) = created p (fget p (files w)).
Proof.
  rewrite init_run. cbn [snd]. destruct p.
  - rewrite ensured_other, ensured_other by done. apply ensured_same.
  - rewrite ensured_other by done. rewrite ensured_same.
    by rewrite ensured_other.
  - rewrite ensured_same. by rewrite !ensured_other.
Qed.

Lemma disk_ext d1 d2 : (forall p, fget p d1 = fget p d2) -> d1 = d2.
Proof.
  intros H. destruct d1, d2.
  pose proof (H PROGRESS_FILE). pose proof (H HISTORY_FILE).
  pose proof (H WIDGET_POSITION_FILE). cbn in *. congruence.
Qed.

Lemma created_idem p f : created p (created p f) = created p f.
Proof.
  unfold created. destruct f as [[c|] r []]; reflexivity.
Qed.

(** X4: Where the existence of the state files can be tested, the
    initialisation of the store gives each file that is missing its default
    document, when the file can be written; a file that exists, whatever it
    holds, is left as it is.  Hence a second initialisation changes no
    file. *)
Theorem init_first_writer_wins w :
  (forall p, fget p (files (snd (State.__init__ w))) = created p (fget p (files w)))
  /\ (forall p c, data (fget p (files w)) = Some c ->
        fget p (files (snd (State.__init__ w))) = fget p (files w))
  /\ files (snd (State.__init__ (snd (State.__init__ w)))) = files (snd (State.__init__ w)).
Proof.
  split; [intros p; apply init_file|]. split.
  - intros p c H. rewrite init_file. unfold created. by rewrite H.
  - apply disk_ext. intros p. rewrite !init_file. apply created_idem.
Qed.

Lemma init_first_writer_wins_witness :
  data (fget PROGRESS_FILE (files started_world))
  = Some (Json (VDict State.inactive_template))
  /\ fget PROGRESS_FILE (files (snd (State.__init__ started_world)))
     = fget PROGRESS_FILE (files started_world).
Proof.
  assert (H : data (fget PROGRESS_FILE (files started_world))
              = Some (Json (VDict State.inactive_template))) by reflexivity.
  split; [exact H|].
  exact (proj1 (proj2 (init_first_writer_wins started_world))
           PROGRESS_FILE _ H).
Defined.

(** X5: On a machine without state files, where they can be created, the store
    comes out of its initialisation in working order: the getters return the
    inactive template, the empty history and the position (100, 100). *)
Theorem init_fresh_store w :
  (forall p, fget p (files w) = File None true true) ->
  store_inv (snd (State.__init__ w)) = true
  /\ fst (State.get_progress (snd (State.__init__ w))) = Ret (VDict State.inactive_template)
  /\ fst (State.get_history (snd (State.__init__ w)))
     = Ret (VDict (list_to_map [("completed_tasks", VList [])]))
  /\ fst (State.get_widget_position (snd (State.__init__ w)))
     = Ret (VDict (list_to_map [("x", VInt 100); ("y", VInt 100)])).
Proof.
  intros H.
  assert (Hf : forall p, holds (fget p (files (snd (State.__init__ w))))
                           (default_document p)).
  { intros p. rewrite init_file, H. reflexivity. }
  pose proof (Hf PROGRESS_FILE) as Hp. pose proof (Hf HISTORY_FILE) as Hh.
  pose proof (Hf WIDGET_POSITION_FILE) as Hw. cbn [fget default_document] in Hp, Hh, Hw.
  split; [|split; [|split]].
  - unfold store_inv, store_ok, progress_ok, history_ok, history_names.
    unfold holds in Hp, Hh, Hw. rewrite Hp, Hh, Hw. reflexivity.
  - unfold State.get_progress. by rewrite (read_safe_holds PROGRESS_FILE _ _ Hp).
  - unfold State.get_history. by rewrite (read_safe_holds HISTORY_FILE _ _ Hh).
  - unfold State.get_widget_position.
    rewrite (bind_run _ _ _ _ _ (read_safe_holds WIDGET_POSITION_FILE _ _ Hw)).
    reflexivity.
Qed.

Lemma init_fresh_store_witness :
  (forall p, fget p (files fresh_world) = File None true true)
  /\ store_inv (snd (State.__init__ fresh_world)) = true.
Proof.
  assert (H : forall p, fget p (files fresh_world) = File None true true)
    by (by intros []).
  split; [exact H|]. apply (init_fresh_store fresh_world H).
Defined.

(** ** The widget position *)

(** X6: A position that is saved is the position read back, when the file can be
    written and read; the progress and history files are not touched. *)
Theorem widget_position_round_trip x y w :
  writable (widget_position_json (files w)) = true ->
  readable (widget_position_json (files w)) = true ->
  fst (State.get_widget_position (snd (State.save_widget_position x y w)))
  = Ret (VDict (list_to_map [("x", VInt x); ("y", VInt y)]))
  /\ progress_json (files (snd (State.save_widget_position x y w)))
     = progress_json (files w)
  /\ history_json (files (snd (State.save_widget_position x y w)))
     = history_json (files w).
Proof.
  intros Hw Hr. unfold State.save_widget_position. rewrite write_safe_run. cbn [snd].
  unfold wrote. change (fget WIDGET_POSITION_FILE (files w)) with (widget_position_json (files w)).
  rewrite Hw. split; [|done].
  unfold State.get_widget_position.
  erewrite bind_run
    by (apply read_safe_holds; unfold holds, written, set_data; cbn;
        by rewrite Hw, Hr).
  reflexivity.
Qed.

Lemma widget_position_round_trip_witness :
  writable (widget_position_json (files started_world)) = true
  /\ readable (widget_position_json (files started_world)) = true
  /\ fst (State.get_widget_position (snd (State.save_widget_position 640 480 started_world)))
     = Ret (VDict (list_to_map [("x", VInt 640); ("y", VInt 480)])).
Proof.
  split; [reflexivity|]. split; [reflexivity|].
  apply (widget_position_round_trip 640 480 started_world); reflexivity.
Defined.

Lemma get_widget_position_run w v :
  holds (widget_position_json (files w)) v ->
  State.get_widget_position w
  = (match v with
     | VDict d =>
         Ret (VDict (list_to_map [("x", default (VInt 100) (d !! "x"));
                                  ("y", default (VInt 100) (d !! "y"))]))
     | _ => Raise (Exn AttributeError "object has no attribute 'get'")
     end, w).
Proof.
  intros H. unfold State.get_widget_position.
  rewrite (bind_run _ _ _ _ _ (read_safe_holds WIDGET_POSITION_FILE w v H)).
  by destruct v.
Qed.

(** X7: On a position file that holds a JSON object, [get_widget_position] takes
    each coordinate from the object as it is, and 100 for a coordinate the
    object lacks; on a file that holds a JSON value of another kind it raises
    [AttributeError]. *)
Theorem widget_position_of_document w v :
  holds (widget_position_json (files w)) v ->
  match v with
  | VDict d =>
      fst (State.get_widget_position w)
      = Ret (VDict (list_to_map [("x", default (VInt 100) (d !! "x"));
                                 ("y", default (VInt 100) (d !! "y"))]))
  | _ =>
      exists e, fst (State.get_widget_position w) = Raise e
                /\ exc_class e = AttributeError
  end.
Proof.
  intros H. rewrite (get_widget_position_run w v H).
  destruct v; try reflexivity; eexists; split; reflexivity.
Qed.

Lemma widget_position_of_document_witness :
  let w := snd (State._write_safe WIDGET_POSITION_FILE
                  (VDict (list_to_map [("x", VInt 7)])) started_world) in
  holds (widget_position_json (files w)) (VDict (list_to_map [("x", VInt 7)]))
  /\ fst (State.get_widget_position w)
     = Ret (VDict (list_to_map [("x", VInt 7); ("y", VInt 100)])).
Proof.
  intros w.
  assert (H : holds (widget_position_json (files w))
                (VDict (list_to_map [("x", VInt 7)]))) by reflexivity.
  split; [exact H|].
  exact (widget_position_of_document w _ H).
Defined.

(** ** The progress record *)

Lemma clamp_cases p :
  (0 <= State.clamp p)%Q /\ (State.clamp p <= 1)%Q
  /\ ((p <= 0)%Q -> State.clamp p = 0%Q)
  /\ ((1 <= p)%Q -> State.clamp p = 1%Q)
  /\ ((0 < p)%Q -> (p < 1)%Q -> State.clamp p = p).
Proof.
  unfold State.clamp, py_max, py_min.
  destruct (Qltb p 1) eqn:E1; [apply Qltb_true in E1|apply Qltb_false in E1].
  - destruct (Qltb 0 p) eqn:E0; [apply Qltb_true in E0|apply Qltb_false in E0];
      repeat split; intros; try reflexivity;
      unfold Qle, Qlt in *; cbn [Qnum Qden] in *; lia.
  - change (Qltb 0 1) with true. cbn iota.
    repeat split; intros; try reflexivity;
      unfold Qle, Qlt in *; cbn [Qnum Qden] in *; lia.
Qed.

(** X8: Whatever progress is reported, the progress that is persisted lies
    between 0 and 1: a report of 0 or less is persisted as 0, a report of 1 or
    more as 1, and a report in between as it is. *)
Theorem progress_is_clamped w d tn cs p eta err pid :
  holds (progress_json (files w)) (VDict d) ->
  exists q,
    progress_field "progress" (snd (State.update_progress tn cs p eta err pid w))
    = Some (VFloat q)
    /\ (0 <= q)%Q /\ (q <= 1)%Q
    /\ ((p <= 0)%Q -> q = 0%Q)
    /\ ((1 <= p)%Q -> q = 1%Q)
    /\ ((0 < p)%Q -> (p < 1)%Q -> q = p).
Proof.
  intros H. exists (State.clamp p). split; [|apply clamp_cases].
  rewrite (progress_field_holds _ _ _ (update_progress_holds tn cs p eta err pid w d H)).
  apply record_fields.
Qed.

Lemma progress_is_clamped_witness :
  holds (progress_json (files started_world)) (VDict State.inactive_template)
  /\ progress_field "progress"
       (snd (State.update_progress "T" "s" (17 # 10) None None None started_world))
     = Some (VFloat 1)
  /\ progress_field "progress"
       (snd (State.update_progress "T" "s" (-3 # 10) None None None started_world))
     = Some (VFloat 0).
Proof.
  assert (H : holds (progress_json (files started_world)) (VDict State.inactive_template))
    by reflexivity.
  split; [exact H|]. split.
  - destruct (progress_is_clamped started_world _ "T" "s" (17 # 10) None None None H)
      as (q & Hq & _ & _ & _ & H1 & _).
    rewrite Hq, H1; [reflexivity|]. unfold Qle. cbn. lia.
  - destruct (progress_is_clamped started_world _ "T" "s" (-3 # 10) None None None H)
      as (q & Hq & _ & _ & H0 & _).
    rewrite Hq, H0; [reflexivity|]. unfold Qle. cbn. lia.
Defined.

(** X9: What [update_progress] writes is what [get_progress] returns next: an
    active record with the task name, the step, the clamped progress, the
    estimate and the error of the call, stamped with the time of the call and
    with the process id when none, or 0, is given. *)
Theorem update_then_get w d tn cs p eta err pid :
  holds (progress_json (files w)) (VDict d) ->
  exists r,
    fst (State.get_progress (snd (State.update_progress tn cs p eta err pid w)))
    = Ret (VDict r)
    /\ r !! "active" = Some (VBool true)
    /\ r !! "task_name" = Some (VStr tn)
    /\ r !! "current_step" = Some (VStr cs)
    /\ r !! "progress" = Some (VFloat (State.clamp p))
    /\ r !! "eta_seconds" = Some (of_option VInt eta)
    /\ r !! "last_update" = Some (VTime (now_of w))
    /\ r !! "error" = Some (of_option VStr err)
    /\ r !! "pid" = Some (VInt (match pid with
                                | Some 0 | None => getpid w
                                | Some k => k
                                end)).
Proof.
  intros H. exists (updated_record tn cs p eta err pid d w).
  split.
  - unfold State.get_progress.
    by rewrite (read_safe_holds PROGRESS_FILE _ _
                  (update_progress_holds tn cs p eta err pid w d H)).
  - destruct (record_fields tn cs p eta (default VNone (d !! "started_at"))
                (now_of w) err (pid_of pid w))
      as (H1 & H2 & H3 & H4 & H5 & _ & H7 & H8 & H9).
    repeat (split; [assumption|]).
    cbv zeta in H9. unfold updated_record. rewrite H9. f_equal. f_equal.
    unfold pid_of. destruct pid as [[| |]|]; reflexivity.
Qed.

Lemma update_then_get_witness :
  holds (progress_json (files started_world)) (VDict State.inactive_template)
  /\ exists r,
       fst (State.get_progress
              (snd (State.update_progress "Test Task" "Step 1/3: Testing" (1 # 2)
                      (Some 120) None None started_world)))
       = Ret (VDict r)
       /\ r !! "active" = Some (VBool true)
       /\ r !! "task_name" = Some (VStr "Test Task")
       /\ r !! "current_step" = Some (VStr "Step 1/3: Testing")
       /\ r !! "progress" = Some (VFloat (1 # 2))
       /\ r !! "eta_seconds" = Some (VInt 120).
Proof.
  assert (H : holds (progress_json (files started_world)) (VDict State.inactive_template))
    by reflexivity.
  split; [exact H|].
  destruct (update_then_get started_world _ "Test Task" "Step 1/3: Testing" (1 # 2)
              (Some 120) None None H)
    as (r & Hr & H1 & H2 & H3 & H4 & H5 & _).
  exists r. repeat (split; [assumption|]). exact H5.
Defined.

(** ** What each operation touches *)

Lemma untouched_ret p {A} (a : A) : untouched p (ret a).
Proof. done. Qed.

Lemma untouched_raise p {A} e : untouched p (@raise world A e).
Proof. done. Qed.

Lemma untouched_bind p {A B} (m : SE world A) (k : A -> SE world B) :
  untouched p m -> (forall a, untouched p (k a)) -> untouched p (bind m k).
Proof.
  intros Hm Hk w. unfold bind. specialize (Hm w).
  destruct (m w) as [[a|e] w']; cbn [snd] in *; [|done].
  by rewrite Hk.
Qed.

Lemma untouched_try_except p {A} (m : SE world A) c h :
  untouched p m -> (forall e, untouched p (h e)) -> untouched p (try_except m c h).
Proof.
  intros Hm Hh w. unfold try_except. specialize (Hm w).
  destruct (m w) as [[a|e] w']; cbn [snd] in *; [done|].
  destruct (c e); [|done]. by rewrite Hh.
Qed.

Lemma untouched_emit p e : untouched p (emit e).
Proof. done. Qed.

Lemma untouched_datetime_now p : untouched p datetime_now.
Proof. done. Qed.

Lemma untouched_py_get p v key dflt : untouched p (py_get v key dflt).
Proof. by destruct v. Qed.

Lemma untouched_py_getitem p v key : untouched p (py_getitem v key).
Proof. destruct v; try done. cbn. by destruct (d !! key). Qed.

Lemma untouched_py_setitem p v key x : untouched p (py_setitem v key x).
Proof. by destruct v. Qed.

Lemma untouched_py_insert0 p v x : untouched p (py_insert0 v x).
Proof. by destruct v. Qed.

Lemma untouched_py_slice_to p k v : untouched p (py_slice_to k v).
Proof. by destruct v. Qed.

Lemma untouched_fromisoformat p v : untouched p (fromisoformat v).
Proof. by destruct v. Qed.

Lemma untouched_read_safe p q : untouched p (State._read_safe q).
Proof. intros w. by rewrite read_safe_files. Qed.

Lemma untouched_write_safe p q v : q <> p -> untouched p (State._write_safe q v).
Proof. intros H w. rewrite write_safe_run. by apply wrote_other. Qed.

Lemma untouched_update_progress p tn cs pr eta err pid :
  p <> PROGRESS_FILE -> untouched p (State.update_progress tn cs pr eta err pid).
Proof.
  intros Hp. unfold State.update_progress.
  apply untouched_bind; [apply untouched_emit|]. intros _.
  apply untouched_bind; [apply untouched_datetime_now|]. intros now.
  apply untouched_bind.
  { apply untouched_bind; [apply untouched_read_safe|]. intros v. apply untouched_py_get. }
  intros st. apply untouched_bind; [|intros; apply untouched_write_safe; congruence].
  destruct pid as [k|]; [destruct (truthy (VInt k))|]; done.
Qed.

Lemma untouched_calculate_duration p : untouched p State._calculate_duration.
Proof.
  unfold State._calculate_duration.
  apply untouched_bind; [apply untouched_read_safe|]. intros v.
  apply untouched_bind; [apply untouched_py_get|]. intros st.
  destruct (truthy st); [|done].
  apply untouched_bind; [apply untouched_fromisoformat|]. intros t.
  apply untouched_bind; [apply untouched_datetime_now|]. done.
Qed.

Lemma untouched_complete_task tn :
  untouched WIDGET_POSITION_FILE (State.complete_task tn).
Proof.
  unfold State.complete_task.
  apply untouched_bind; [apply untouched_emit|]. intros _.
  apply untouched_bind; [apply untouched_read_safe|]. intros cur.
  apply untouched_bind; [apply untouched_read_safe|]. intros h.
  apply untouched_bind; [apply untouched_datetime_now|]. intros now.
  apply untouched_bind; [apply untouched_calculate_duration|]. intros dur.
  apply untouched_bind; [apply untouched_py_getitem|]. intros t1.
  apply untouched_bind; [apply untouched_py_insert0|]. intros t2.
  apply untouched_bind; [apply untouched_py_setitem|]. intros h2.
  apply untouched_bind; [apply untouched_py_getitem|]. intros t3.
  apply untouched_bind; [apply untouched_py_slice_to|]. intros t4.
  apply untouched_bind; [apply untouched_py_setitem|]. intros h3.
  apply untouched_bind; [by apply untouched_write_safe|]. intros _.
  by apply untouched_write_safe.
Qed.

Lemma untouched_stale_record p v : untouched p (State.stale_record v).
Proof.
  unfold State.stale_record.
  repeat (apply untouched_bind; [apply untouched_py_get|]; intros ?).
  done.
Qed.

Lemma untouched_clear_stale p max :
  p <> PROGRESS_FILE -> untouched p (State.clear_stale_progress max).
Proof.
  intros Hp. unfold State.clear_stale_progress.
  apply untouched_try_except; [|intros; apply untouched_emit].
  apply untouched_bind; [apply untouched_read_safe|]. intros state.
  apply untouched_bind; [apply untouched_py_get|]. intros active.
  apply untouched_bind.
  { destruct (truthy active); [apply untouched_py_get|done]. }
  intros last. destruct (truthy last); [|done].
  apply untouched_bind.
  { apply untouched_bind; [apply untouched_py_getitem|].
    intros. apply untouched_fromisoformat. }
  intros lu. apply untouched_bind; [apply untouched_datetime_now|]. intros now.
  cbv zeta. destruct (Qltb _ _); [|done].
  apply untouched_bind; [apply untouched_stale_record|].
  intros. apply untouched_write_safe. congruence.
Qed.

(** X10: Each operation of the store writes its own files only, whatever the
    state of the files and whether it returns or raises: [update_progress] and
    the reaper leave the history and the widget position as they were,
    [complete_task] leaves the widget position, [save_widget_position] leaves
    the progress and the history, and the three getters leave every file. *)
Theorem store_operations_frame w :
  (forall tn cs p eta err pid q, q <> PROGRESS_FILE ->
     fget q (files (snd (State.update_progress tn cs p eta err pid w)))
     = fget q (files w))
  /\ (forall max q, q <> PROGRESS_FILE ->
        fget q (files (snd (State.clear_stale_progress max w))) = fget q (files w))
  /\ (forall tn,
        widget_position_json (files (snd (State.complete_task tn w)))
        = widget_position_json (files w))
  /\ (forall x y q, q <> WIDGET_POSITION_FILE ->
        fget q (files (snd (State.save_widget_position x y w))) = fget q (files w))
  /\ files (snd (State.get_progress w)) = files w
  /\ files (snd (State.get_history w)) = files w
  /\ files (snd (State.get_widget_position w)) = files w.
Proof.
  split; [|split; [|split; [|split; [|split; [|split]]]]].
  - intros. by apply untouched_update_progress.
  - intros. by apply untouched_clear_stale.
  - intros. apply untouched_complete_task.
  - intros. apply untouched_write_safe. congruence.
  - apply read_safe_files.
  - apply read_safe_files.
  - apply disk_ext. intros q. unfold State.get_widget_position.
    revert w. change (untouched q (pos <- State._read_safe WIDGET_POSITION_FILE ;;
                                   x <- py_get pos "x" (VInt 100) ;;
                                   y <- py_get pos "y" (VInt 100) ;;
                                   ret (VDict (list_to_map [("x", x); ("y", y)])))).
    apply untouched_bind; [apply untouched_read_safe|]. intros pos.
    apply untouched_bind; [apply untouched_py_get|]. intros x.
    apply untouched_bind; [apply untouched_py_get|]. done.
Qed.

(** ** The reaper never raises *)

Lemma clear_stale_returns max w : fst (State.clear_stale_progress max w) = Ret tt.
Proof.
  unfold State.clear_stale_progress, try_except.
  match goal with
  | |- fst (match ?b w with _ => _ end) = _ => destruct (b w) as [[[]|e] w']
  end; reflexivity.
Qed.

(** X11: One tick of the reaper returns normally in every state of the files,
    unreadable, undecodable or ill-formed as they may be, and so does any
    number of rounds of the cleanup loop, which is not ended by a failure. *)
Theorem reaper_never_raises :
  (forall max w, fst (State.clear_stale_progress max w) = Ret tt)
  /\ (forall rounds w, fst (_cleanup_worker rounds w) = Ret tt).
Proof.
  split; [apply clear_stale_returns|].
  induction rounds as [|k IH]; intros w; [done|].
  cbn [_cleanup_worker]. unfold bind.
  pose proof (clear_stale_returns 300 w) as H.
  destruct (State.clear_stale_progress 300 w) as [r w']. cbn [fst] in H. subst r.
  apply IH.
Qed.

Lemma store_operations_frame_witness :
  HISTORY_FILE <> PROGRESS_FILE
  /\ fget HISTORY_FILE (files (snd (State.update_progress "T" "s" 1 None None None
                                      started_world)))
     = fget HISTORY_FILE (files started_world).
Proof.
  assert (H : HISTORY_FILE <> PROGRESS_FILE) by discriminate.
  split; [exact H|].
  exact (proj1 (store_operations_frame started_world) "T" "s" 1%Q None None None
           HISTORY_FILE H).
Defined.

(** ** The history entry and the duration *)

Lemma py_int_Qred q : py_int (Qred q) = py_int q.
Proof.
  unfold py_int. pose proof (Qred_correct q) as H. unfold Qeq in H.
  set (a := Qnum (Qred q)) in *. set (b := Qden (Qred q)) in *.
  set (c := Qnum q) in *. set (d := Qden q) in *.
  rewrite <- (Z.quot_mul_cancel_r a (Z.pos b) (Z.pos d)) by lia.
  rewrite H. rewrite (Z.mul_comm (Z.pos b)).
  by rewrite Z.quot_mul_cancel_r by lia.
Qed.

Lemma history_entries_holds w h l :
  holds (history_json (files w)) (VDict h) ->
  h !! "completed_tasks" = Some (VList l) ->
  history_entries w = l.
Proof.
  intros Hh Hl. unfold history_entries. by rewrite (holds_good_file _ _ Hh), Hl.
Qed.

(** X12: [complete_task] puts in front of the history an entry with the name it
    is given, the time of the call, and as duration the whole seconds,
    truncated, between the stored [started_at] and a second reading of the
    clock; the duration is null when no [started_at] is stored, and is not
    negative when the clock has not gone back behind [started_at]. *)
Theorem complete_task_entry w tn :
  store_ok w = true ->
  exists e d,
    good_file (progress_json (files w)) = Some d
    /\ history_entries (snd (State.complete_task tn w))
       = take 10 (VDict e :: history_entries w)
    /\ e !! "task_name" = Some (VStr tn)
    /\ e !! "completed_at" = Some (VTime (now_of w))
    /\ (forall t, d !! "started_at" = Some (VTime t) ->
          e !! "duration_seconds"
          = Some (VInt (Z.quot (clock w (Datatypes.S (reads w)) - t) 1000000))
          /\ (t <= clock w (Datatypes.S (reads w)) ->
              0 <= Z.quot (clock w (Datatypes.S (reads w)) - t) 1000000))
    /\ (truthy (default VNone (d !! "started_at")) = false ->
        e !! "duration_seconds" = Some VNone).
Proof.
  intros H. destruct (store_ok_inv _ H) as (d & h & l & Hp & Hs & Hh & Hl).
  exists (list_to_map [
    ("task_name", VStr tn);
    ("completed_at", VTime (now_of w));
    ("duration_seconds",
      fst (duration_of d (tick (logged (EvCompleteTask tn) w))))]), d.
  split; [by apply holds_good_file|]. split.
  { rewrite (complete_task_run tn w d h l Hp Hs Hh Hl). cbn [snd].
    rewrite (history_entries_holds _ _ _ (completed_history tn d h l w Hh)
               (lookup_insert_eq _ _ _)).
    by rewrite (history_entries_holds _ _ _ Hh Hl). }
  split; [reflexivity|]. split; [reflexivity|]. split.
  - intros t Ht. split.
    + etransitivity; [reflexivity|]. unfold duration_of. rewrite Ht.
      cbn [from_option id fst]. unfold total_seconds. rewrite py_int_Qred.
      reflexivity.
    + intros Hle. apply Z.quot_pos; lia.
  - intros Hf. etransitivity; [reflexivity|]. unfold duration_of.
    destruct (default VNone (d !! "started_at")); try done.
Qed.

Lemma complete_task_entry_witness :
  let w := snd (State.update_progress "T" "s" 1 None None None started_world) in
  store_ok w = true
  /\ exists e, history_entries (snd (State.complete_task "T" w)) = [VDict e]
       /\ e !! "duration_seconds" = Some (VInt 20).
Proof.
  intros w.
  assert (H : store_ok w = true) by reflexivity.
  split; [exact H|].
  destruct (complete_task_entry w "T" H) as (e & d & Hd & He & _ & _ & Hdur & _).
  exists e. split; [exact He|].
  assert (Hd' : d = updated_record "T" "s" 1 None None None State.inactive_template
                      started_world).
  { assert (Hg : good_file (progress_json (files w))
                 = Some (updated_record "T" "s" 1 None None None State.inactive_template
                           started_world)) by reflexivity.
    congruence. }
  subst d.
  destruct (Hdur 1700000000000000 eq_refl) as [-> _]. vm_compute. reflexivity.
Defined.

Lemma read_safe_degraded_run p w :
  degraded (fget p (files w)) = true ->
  exists e, State._read_safe p w = (Ret (VDict ∅), logged (EvLogError e) w).
Proof.
  unfold degraded, State._read_safe, try_except, State.open_r_load, State.load.
  destruct (fget p (files w)) as [[[| |v]|] [] ?]; cbn; intros H;
    try discriminate H; eauto.
Qed.

(** X13: When the history file is missing, unreadable or not a JSON document,
    [complete_task] raises [KeyError] and writes nothing: the progress record
    stays as it was, still active if it was. *)
Theorem complete_task_without_history w tn :
  progress_ok (progress_json (files w)) = true ->
  degraded (history_json (files w)) = true ->
  fst (State.complete_task tn w) = Raise (Exn KeyError "completed_tasks")
  /\ files (snd (State.complete_task tn w)) = files w.
Proof.
  intros Hp Hh. unfold progress_ok in Hp.
  destruct (good_file (progress_json (files w))) as [d|] eqn:Ed; [|done].
  apply good_file_holds in Ed.
  destruct (read_safe_degraded_run HISTORY_FILE (logged (EvCompleteTask tn) w) Hh)
    as (e & He).
  unfold State.complete_task.
  rewrite (bind_run _ _ _ tt (logged (EvCompleteTask tn) w)) by reflexivity.
  rewrite (bind_run _ _ _ (VDict d) (logged (EvCompleteTask tn) w))
    by (by apply read_safe_holds).
  rewrite (bind_run _ _ _ _ _ He).
  rewrite (bind_run _ _ _ (now_of w)
             (tick (logged (EvLogError e) (logged (EvCompleteTask tn) w))))
    by reflexivity.
  rewrite (bind_run _ _ _ _ _
             (calculate_duration_run
                (tick (logged (EvLogError e) (logged (EvCompleteTask tn) w))) d Ed Hp)).
  cbn [py_getitem]. rewrite lookup_empty.
  unfold bind, raise. cbn [fst snd]. split; [done|].
  by rewrite duration_of_files.
Qed.

Lemma complete_task_without_history_witness :
  let w := with_files (fset HISTORY_FILE absent (files started_world)) started_world in
  progress_ok (progress_json (files w)) = true
  /\ degraded (history_json (files w)) = true
  /\ fst (State.complete_task "T" w) = Raise (Exn KeyError "completed_tasks").
Proof.
  intros w. split; [reflexivity|]. split; [reflexivity|].
  apply (complete_task_without_history w "T"); reflexivity.
Defined.

(** ** A new record after a completion or a reaping *)

(** X14: After [complete_task], and after the reaper has deactivated an idle
    record, the next [update_progress] starts a record anew: its [started_at]
    is the time of that update. *)
Theorem started_at_after_clearing w tn cs p eta err pid :
  store_ok w = true ->
  (forall tn',
     progress_field "started_at"
       (snd (State.update_progress tn cs p eta err pid
               (snd (State.complete_task tn' w))))
     = Some (VTime (now_of (snd (State.complete_task tn' w)))))
  /\ (forall d t max,
        good_file (progress_json (files w)) = Some d ->
        truthy (default VNone (d !! "active")) = true ->
        d !! "last_update" = Some (VTime t) ->
        max * 1000000 < now_of w - t ->
        progress_field "started_at"
          (snd (State.update_progress tn cs p eta err pid
                  (snd (State.clear_stale_progress max w))))
        = Some (VTime (now_of (snd (State.clear_stale_progress max w))))).
Proof.
  intros H. destruct (store_ok_inv _ H) as (d & h & l & Hp & Hs & Hh & Hl). split.
  - intros tn'. rewrite (complete_task_run tn' w d h l Hp Hs Hh Hl). cbn [snd].
    pose proof (completed_progress tn' d h l w Hp) as Hc.
    rewrite (progress_field_holds _ _ _
               (update_progress_holds tn cs p eta err pid _ _ Hc)).
    apply record_fields.
  - intros d' t max Hd Ha Hl' Hidle.
    apply good_file_holds in Hd.
    destruct (clear_stale_idle max w d' t Hd Ha Hl' Hidle) as (r & Hr & Hrun).
    rewrite stale_record_run in Hr. injection Hr as <-.
    rewrite Hrun. cbn [snd].
    match goal with
    | |- context [written PROGRESS_FILE (VDict ?r) (tick w)] =>
        pose proof (written_holds PROGRESS_FILE (VDict r) (VDict d') (tick w) Hd) as Hc
    end.
    cbn [fget] in Hc.
    rewrite (progress_field_holds _ _ _
               (update_progress_holds tn cs p eta err pid _ _ Hc)).
    apply record_fields.
Qed.

Lemma started_at_after_clearing_witness :
  let w := snd (State.update_progress "A" "s" 1 None None None started_world) in
  store_ok w = true
  /\ progress_field "started_at"
       (snd (State.update_progress "B" "s" 1 None None None
               (snd (State.complete_task "A" w))))
     = Some (VTime (now_of (snd (State.complete_task "A" w)))).
Proof.
  intros w.
  assert (H : store_ok w = true) by reflexivity.
  split; [exact H|].
  exact (proj1 (started_at_after_clearing w "B" "s" 1%Q None None None H) "A").
Defined.

(** ** The store stays in working order *)

Lemma spec_doc_inv d :
  spec_progress_document (VDict d) = true ->
  (exists b, d !! "active" = Some (VBool b))
  /\ is_null_or is_string (d !! "task_name") = true
  /\ is_null_or is_string (d !! "current_step") = true
  /\ (exists x, d !! "progress" = Some x /\ is_number x = true)
  /\ is_null_or is_timestamp (d !! "started_at") = true
  /\ is_null_or is_timestamp (d !! "last_update") = true
  /\ is_null_or is_string (d !! "error") = true.
Proof.
  unfold spec_progress_document. intros H.
  repeat (apply andb_prop in H as [H ?]).
  destruct (d !! "active") as [[]|]; try discriminate H.
  destruct (d !! "progress") as [x|]; [|done].
  eauto 10.
Qed.

Lemma null_or_timestamp o :
  is_null_or is_timestamp o = true -> o = Some VNone \/ exists t, o = Some (VTime t).
Proof. destruct o as [[]|]; try discriminate; eauto. Qed.

Lemma null_or_string o :
  is_null_or is_string o = true -> o = Some VNone \/ exists s, o = Some (VStr s).
Proof. destruct o as [[]|]; try discriminate; eauto. Qed.

Lemma spec_started_ok d : spec_progress_document (VDict d) = true -> started_ok d = true.
Proof.
  intros H. destruct (spec_doc_inv d H) as (_ & _ & _ & _ & Hs & _).
  unfold started_ok. by destruct (null_or_timestamp _ Hs) as [->|[t ->]].
Qed.

Lemma store_inv_same_files w w' : files w' = files w -> store_inv w' = store_inv w.
Proof. unfold store_inv, store_ok, history_names. by intros ->. Qed.

Lemma store_inv_inv w :
  store_inv w = true ->
  exists d h l x,
    holds (progress_json (files w)) (VDict d)
    /\ spec_progress_document (VDict d) = true
    /\ holds (history_json (files w)) (VDict h)
    /\ h !! "completed_tasks" = Some (VList l)
    /\ (length l <= 10)%nat
    /\ holds (widget_position_json (files w)) (VDict x).
Proof.
  unfold store_inv. intros H.
  apply andb_prop in H as [H Hw]. apply andb_prop in H as [H Hlen].
  apply andb_prop in H as [Hok Hdoc].
  destruct (store_ok_inv _ Hok) as (d & h & l & Hp & _ & Hh & Hl).
  rewrite (holds_good_file _ _ Hp) in Hdoc.
  rewrite (history_names_holds _ _ _ Hh Hl), length_map in Hlen.
  apply Nat.leb_le in Hlen.
  destruct (good_file (widget_position_json (files w))) as [x|] eqn:Ex; [|done].
  exists d, h, l, x. eauto 10 using good_file_holds.
Qed.

Lemma store_inv_intro w d h l x :
  holds (progress_json (files w)) (VDict d) ->
  spec_progress_document (VDict d) = true ->
  holds (history_json (files w)) (VDict h) ->
  h !! "completed_tasks" = Some (VList l) ->
  (length l <= 10)%nat ->
  holds (widget_position_json (files w)) (VDict x) ->
  store_inv w = true.
Proof.
  intros Hp Hd Hh Hl Hlen Hw. unfold store_inv.
  rewrite (store_ok_intro w d h l Hp (spec_started_ok d Hd) Hh Hl).
  rewrite (holds_good_file _ _ Hp), Hd, (holds_good_file _ _ Hw).
  rewrite (history_names_holds _ _ _ Hh Hl), length_map.
  by rewrite (proj2 (Nat.leb_le _ _) Hlen).
Qed.

Lemma record_is_document tn cs p eta st now err pid :
  st = VNone \/ (exists t, st = VTime t) ->
  spec_progress_document (VDict (State.progress_record tn cs p eta st now err pid)) = true.
Proof.
  intros [->|[t ->]]; destruct eta, err; reflexivity.
Qed.

Lemma clear_stale_no_timestamp max w d :
  holds (progress_json (files w)) (VDict d) ->
  d !! "last_update" = Some VNone ->
  State.clear_stale_progress max w = (Ret tt, w).
Proof.
  intros Hp Hl.
  unfold State.clear_stale_progress, try_except.
  unfold State.get_progress.
  run_with ltac:(by apply read_safe_holds).
  run_with ltac:(apply py_get_dict).
  destruct (truthy (default VNone (d !! "active"))) eqn:Ha.
  - run_with ltac:(apply py_get_dict). by rewrite Hl.
  - run. by rewrite Ha.
Qed.

Lemma store_inv_update tn cs p eta err pid w :
  store_inv w = true ->
  fst (State.update_progress tn cs p eta err pid w) = Ret tt
  /\ store_inv (snd (State.update_progress tn cs p eta err pid w)) = true.
Proof.
  intros H. destruct (store_inv_inv _ H) as (d & h & l & x & Hp & Hd & Hh & Hl & Hlen & Hw).
  rewrite (update_progress_run _ _ _ _ _ _ _ d Hp). split; [done|]. cbn [snd].
  eapply (store_inv_intro _ _ h l x).
  - by apply (written_holds PROGRESS_FILE _ (VDict d)).
  - apply record_is_document.
    destruct (spec_doc_inv d Hd) as (_ & _ & _ & _ & Hs & _).
    destruct (null_or_timestamp _ Hs) as [->|[t ->]]; eauto.
  - change (history_json ?y) with (fget HISTORY_FILE y). by rewrite written_other.
  - done.
  - done.
  - change (widget_position_json ?y) with (fget WIDGET_POSITION_FILE y).
    by rewrite written_other.
Qed.

Lemma store_inv_complete tn w :
  store_inv w = true ->
  fst (State.complete_task tn w) = Ret tt
  /\ store_inv (snd (State.complete_task tn w)) = true.
Proof.
  intros H. destruct (store_inv_inv _ H) as (d & h & l & x & Hp & Hd & Hh & Hl & Hlen & Hw).
  pose proof (untouched_complete_task tn w) as Hu.
  rewrite (complete_task_run tn w d h l Hp (spec_started_ok d Hd) Hh Hl) in *.
  split; [done|]. cbn [snd] in *.
  eapply (store_inv_intro _ _ _ _ x).
  - by apply completed_progress.
  - reflexivity.
  - by apply completed_history.
  - apply lookup_insert_eq.
  - rewrite length_take. lia.
  - cbn [fget] in Hu. unfold holds in *. by rewrite Hu.
Qed.

Lemma store_inv_clear_stale max w :
  store_inv w = true ->
  store_inv (snd (State.clear_stale_progress max w)) = true.
Proof.
  intros H. destruct (store_inv_inv _ H) as (d & h & l & x & Hp & Hd & Hh & Hl & Hlen & Hw).
  destruct (spec_doc_inv d Hd) as ([b Hb] & Htn & Hcs & (pv & Hpv & Hnum) & _ & Hlu & Herr).
  destruct b.
  2:{ rewrite (clear_stale_inactive max w d Hp); [done|]. by rewrite Hb. }
  destruct (null_or_timestamp _ Hlu) as [Hn|[t Ht]].
  { by rewrite (clear_stale_no_timestamp max w d Hp Hn). }
  destruct (Z_lt_le_dec (max * 1000000) (now_of w - t)) as [Hidle|Hrecent].
  - destruct (clear_stale_idle max w d t Hp) as (r & Hr & Hrun);
      [by rewrite Hb|done|done|].
    rewrite stale_record_run in Hr. injection Hr as <-.
    rewrite Hrun. cbn [snd].
    eapply (store_inv_intro _ _ h l x).
    + by apply (written_holds PROGRESS_FILE _ (VDict d)).
    + rewrite Hpv. cbn [from_option id].
      destruct (null_or_string _ Htn) as [->|[s1 ->]];
        destruct (null_or_string _ Hcs) as [->|[s2 ->]];
        destruct (null_or_string _ Herr) as [->|[s3 ->]];
        destruct pv; try discriminate Hnum; reflexivity.
    + change (history_json ?y) with (fget HISTORY_FILE y). by rewrite written_other.
    + done.
    + done.
    + change (widget_position_json ?y) with (fget WIDGET_POSITION_FILE y).
      by rewrite written_other.
  - rewrite (clear_stale_recent max w d t Hp); [|by rewrite Hb|done|done].
    cbn [snd]. by rewrite (store_inv_same_files w (tick w)).
Qed.

Lemma store_inv_save_position x y w :
  store_inv w = true ->
  fst (State.save_widget_position x y w) = Ret tt
  /\ store_inv (snd (State.save_widget_position x y w)) = true.
Proof.
  intros H. destruct (store_inv_inv _ H) as (d & h & l & x0 & Hp & Hd & Hh & Hl & Hlen & Hw).
  unfold State.save_widget_position.
  rewrite (write_safe_holds WIDGET_POSITION_FILE _ (VDict x0)) by done.
  split; [done|]. cbn [snd].
  eapply (store_inv_intro _ d h l).
  - change (progress_json ?z) with (fget PROGRESS_FILE z). by rewrite written_other.
  - done.
  - change (history_json ?z) with (fget HISTORY_FILE z). by rewrite written_other.
  - done.
  - done.
  - by apply (written_holds WIDGET_POSITION_FILE _ (VDict x0)).
Qed.

Lemma store_inv_call c w :
  store_inv w = true ->
  fst (run_call c w) = Ret tt /\ store_inv (snd (run_call c w)) = true.
Proof.
  intros H. destruct c; cbn [run_call].
  - by apply store_inv_update.
  - by apply store_inv_complete.
  - split; [apply clear_stale_returns|by apply store_inv_clear_stale].
  - by apply store_inv_save_position.
  - destruct (store_inv_inv _ H) as (d & _ & _ & _ & Hp & _).
    unfold State.get_progress.
    by rewrite (bind_run _ _ _ _ _ (read_safe_holds PROGRESS_FILE w _ Hp)).
  - destruct (store_inv_inv _ H) as (_ & h & _ & _ & _ & _ & Hh & _).
    unfold State.get_history.
    by rewrite (bind_run _ _ _ _ _ (read_safe_holds HISTORY_FILE w _ Hh)).
  - destruct (store_inv_inv _ H) as (_ & _ & _ & x & _ & _ & _ & _ & _ & Hw).
    unfold bind. by rewrite (get_widget_position_run w _ Hw).
Qed.

(** X15: On a store in working order (the three documents present, accessible
    and of their shapes, the history with at most ten entries), calls of the
    store with arguments that [json.dump] can write, integers of at most 4300
    digits, do not raise, in whatever order they come, and the store is in
    working order after them: the progress document always has its nine
    fields with values of their kinds, and the history never has more than ten
    entries. *)
Theorem store_stays_in_order cs : forall w,
  store_inv w = true ->
  forallb call_prints cs = true ->
  fst (run_calls cs w) = Ret tt
  /\ store_inv (snd (run_calls cs w)) = true
  /\ (exists d, good_file (progress_json (files (snd (run_calls cs w)))) = Some d
        /\ spec_progress_document (VDict d) = true)
  /\ (length (history_entries (snd (run_calls cs w))) <= 10)%nat.
Proof.
  assert (Hinv : forall w, store_inv w = true ->
            fst (run_calls cs w) = Ret tt /\ store_inv (snd (run_calls cs w)) = true).
  { induction cs as [|c rest IH]; intros w H; [done|].
    destruct (store_inv_call c w H) as [Hr Hs].
    cbn [run_calls]. unfold bind.
    destruct (run_call c w) as [r w1]. cbn [fst snd] in Hr, Hs. subst r.
    by apply IH. }
  intros w H _. destruct (Hinv w H) as [Hr Hs].
  split; [done|]. split; [done|].
  destruct (store_inv_inv _ Hs) as (d & h & l & x & Hp & Hd & Hh & Hl & Hlen & _).
  split.
  - exists d. split; [by apply holds_good_file|done].
  - by rewrite (history_entries_holds _ _ _ Hh Hl).
Qed.

Lemma store_stays_in_order_witness :
  store_inv started_world = true
  /\ forallb call_prints
       [DoUpdate "A" "s" (1 # 2) None None None; DoClearStale 5;
        DoUpdate "B" "s" 2 (Some 3) (Some "e") None; DoComplete "A";
        DoSavePosition 1 2; DoGetPosition] = true
  /\ fst (run_calls [DoUpdate "A" "s" (1 # 2) None None None; DoClearStale 5;
                     DoUpdate "B" "s" 2 (Some 3) (Some "e") None; DoComplete "A";
                     DoSavePosition 1 2; DoGetPosition] started_world) = Ret tt.
Proof.
  assert (H : forallb call_prints
                [DoUpdate "A" "s" (1 # 2) None None None; DoClearStale 5;
                 DoUpdate "B" "s" 2 (Some 3) (Some "e") None; DoComplete "A";
                 DoSavePosition 1 2; DoGetPosition] = true)
    by (vm_compute; reflexivity).
  split; [reflexivity|]. split; [exact H|].
  apply (store_stays_in_order _ started_world eq_refl H).
Defined.

(** * Further properties of the wrapper *)

Lemma store_update_fields {S} (s : S) tn cs p eta err pid w :
  store_ok w = true ->
  exists w',
    in_world (State.update_progress tn cs p eta err pid) (s, w) = (Ret tt, (s, w'))
    /\ store_ok w' = true
    /\ completions w' = completions w
    /\ history_names w' = history_names w
    /\ progress_field "active" w' = Some (VBool true)
    /\ progress_field "task_name" w' = Some (VStr tn)
    /\ progress_field "current_step" w' = Some (VStr cs)
    /\ progress_field "progress" w' = Some (VFloat (State.clamp p))
    /\ progress_field "eta_seconds" w' = Some (of_option VInt eta)
    /\ progress_field "error" w' = Some (of_option VStr err).
Proof.
  intros H.
  destruct (update_progress_ok tn cs p eta err pid w H) as [Hr Hok].
  pose proof (quiet_update_progress tn cs p eta err pid w) as Hq.
  pose proof (history_names_update tn cs p eta err pid w H) as Hh.
  destruct (store_ok_inv _ H) as (d & _ & _ & Hp & _).
  pose proof (update_progress_holds tn cs p eta err pid w d Hp) as Hd.
  destruct (State.update_progress tn cs p eta err pid w) as [r w'] eqn:E.
  cbn [fst snd] in *. subst r. exists w'.
  split; [by apply in_world_run|].
  rewrite !(progress_field_holds _ _ _ Hd).
  destruct (record_fields tn cs p eta (default VNone (d !! "started_at"))
              (now_of w) err (pid_of pid w))
    as (H1 & H2 & H3 & H4 & H5 & _ & _ & H8 & _).
  by repeat (split; [assumption|]).
Qed.

Lemma report_progress_self {A} (self : PulseProgress.t A) w :
  fst (snd (PulseProgress._report_progress (self, w))) = self.
Proof.
  unfold PulseProgress._report_progress.
  rewrite (bind_run _ _ _ self (self, w)) by reflexivity.
  destruct (PulseProgress.disable self); [done|].
  destruct (PulseProgress.has_total self).
  - destruct (calculate_eta_run self w) as (eta & w1 & E1 & _).
    unfold bind at 1. unfold bind at 1. rewrite E1.
    unfold ret at 1. cbv beta iota. unfold in_world. cbn [fst snd].
    by destruct (State.update_progress _ _ _ _ _ _ w1).
  - unfold bind, ret, in_world. cbn [fst snd].
    by destruct (State.update_progress _ _ _ _ _ _ w).
Qed.

Lemma tracker_update_self {A} (self : PulseProgress.t A) k w :
  let self' := fst (snd (PulseProgress.update k (self, w))) in
  let counted := PulseProgress.set_n (PulseProgress.n self + k) self in
  (PulseProgress.disable self = true /\ self' = self)
  \/ (PulseProgress.disable self = false
      /\ (self' = counted
          \/ self' = PulseProgress.set_last_update_t (Qred (now_of w # 1000000)) counted)).
Proof.
  intros self' counted. subst self'. unfold PulseProgress.update.
  rewrite (bind_run _ _ _ self (self, w)) by reflexivity.
  destruct (PulseProgress.disable self) eqn:Hd; [by left|]. right. split; [done|].
  rewrite (bind_run _ _ _ tt (counted, w)) by reflexivity.
  rewrite (bind_run _ _ _ (Qred (now_of w # 1000000)) (counted, tick w)) by reflexivity.
  rewrite (bind_run _ _ _ counted (counted, tick w)) by reflexivity.
  destruct (Qle_bool _ _); [|by left].
  pose proof (report_progress_self counted (tick w)) as Hs.
  unfold bind.
  destruct (PulseProgress._report_progress (counted, tick w)) as [[[]|e] [s2 w2]];
    cbn [fst snd] in Hs; subst s2; [by right|by left].
Qed.

(** X16: The counter of an enabled wrapper advances by the amount given at every
    [update], reported or not, and also when the store raises; a disabled
    wrapper keeps its counter.  The description, the total and the switch are
    never changed. *)
Theorem tracker_update_counts {A} (self : PulseProgress.t A) k w :
  let self' := fst (snd (PulseProgress.update k (self, w))) in
  PulseProgress.n self'
  = (if PulseProgress.disable self then PulseProgress.n self
     else PulseProgress.n self + k)
  /\ PulseProgress.desc self' = PulseProgress.desc self
  /\ PulseProgress.total self' = PulseProgress.total self
  /\ PulseProgress.disable self' = PulseProgress.disable self
  /\ PulseProgress.start_t self' = PulseProgress.start_t self.
Proof.
  intros self'.
  destruct (tracker_update_self self k w) as [[Hd H]|[Hd [H|H]]];
    fold self' in H; rewrite H, Hd; by cbn.
Qed.

(** X17: An [update] that comes sooner after the last report than the minimum
    interval only counts: no file is touched and the store is not called.  An
    [update] that comes later reports the new count, and the time of that
    report is the time the next interval is measured from. *)
Theorem tracker_update_throttle {A} (self : PulseProgress.t A) k w :
  PulseProgress.disable self = false ->
  let now := Qred (now_of w # 1000000) in
  let counted := PulseProgress.set_n (PulseProgress.n self + k) self in
  ((Qred (now - PulseProgress.last_update_t self) < PulseProgress.mininterval self)%Q ->
   PulseProgress.update k (self, w) = (Ret tt, (counted, tick w)))
  /\ ((PulseProgress.mininterval self <= Qred (now - PulseProgress.last_update_t self))%Q ->
      store_ok w = true ->
      PulseProgress.update k (self, w)
      = (Ret tt, (PulseProgress.set_last_update_t now counted,
                  snd (snd (PulseProgress._report_progress (counted, tick w)))))).
Proof.
  intros Hd now counted. unfold PulseProgress.update.
  rewrite (bind_run _ _ _ self (self, w)) by reflexivity. rewrite Hd.
  rewrite (bind_run _ _ _ tt (counted, w)) by reflexivity.
  rewrite (bind_run _ _ _ now (counted, tick w)) by reflexivity.
  rewrite (bind_run _ _ _ counted (counted, tick w)) by reflexivity.
  change (PulseProgress.mininterval counted) with (PulseProgress.mininterval self).
  change (PulseProgress.last_update_t counted) with (PulseProgress.last_update_t self).
  split.
  - intros Hlt.
    destruct (Qle_bool (PulseProgress.mininterval self)
                (Qred (now - PulseProgress.last_update_t self))) eqn:E; [|reflexivity].
    apply Qle_bool_iff in E. exfalso. by apply (Qlt_not_le _ _ Hlt).
  - intros Hle Hok. rewrite (proj2 (Qle_bool_iff _ _) Hle).
    destruct (report_progress_ok counted (tick w) Hok Hd) as (eta & w1 & E1 & _).
    rewrite (bind_run _ _ _ _ _ E1), E1.
    rewrite (bind_run _ _ _ counted (counted, w1)) by reflexivity.
    reflexivity.
Qed.

Lemma tracker_update_throttle_witness :
  let self := sample_tracker [1; 2; 3] in
  PulseProgress.disable self = false
  /\ (PulseProgress.mininterval self
      <= Qred (Qred (now_of started_world # 1000000) - PulseProgress.last_update_t self))%Q
  /\ store_ok started_world = true
  /\ PulseProgress.last_update_t
       (fst (snd (PulseProgress.update 1 (self, started_world))))
     = Qred (now_of started_world # 1000000).
Proof.
  intros self.
  assert (Hle : (PulseProgress.mininterval self
                 <= Qred (Qred (now_of started_world # 1000000)
                          - PulseProgress.last_update_t self))%Q)
    by (vm_compute; discriminate).
  split; [reflexivity|]. split; [exact Hle|]. split; [reflexivity|].
  destruct (tracker_update_throttle self 1 started_world eq_refl) as [_ H].
  rewrite (H Hle eq_refl). reflexivity.
Defined.

(** X18: What a report of an enabled wrapper persists, on a store in working
    order: an active record under the description of the wrapper, with the
    step text [step: n/total unit], the progress [n / total] clamped, or with
    [?] for the total, progress 0 and no estimate when the total is unknown or
    0. *)
Theorem report_progress_record {A} (self : PulseProgress.t A) w :
  store_ok w = true ->
  PulseProgress.disable self = false ->
  let w' := snd (snd (PulseProgress._report_progress (self, w))) in
  fst (PulseProgress._report_progress (self, w)) = Ret tt
  /\ progress_field "active" w' = Some (VBool true)
  /\ progress_field "task_name" w' = Some (VStr (PulseProgress.desc self))
  /\ (forall T, PulseProgress.total self = Some T -> T <> 0 ->
        progress_field "progress" w'
        = Some (VFloat (State.clamp (true_div (inject_Z (PulseProgress.n self))
                                       (inject_Z T))))
        /\ progress_field "current_step" w'
           = Some (VStr (PulseProgress.step self ++ ": " ++ pretty (PulseProgress.n self)
                           ++ "/" ++ pretty T ++ PulseProgress.unit_ self)))
  /\ (PulseProgress.has_total self = false ->
      progress_field "progress" w' = Some (VFloat 0)
      /\ progress_field "eta_seconds" w' = Some VNone
      /\ progress_field "current_step" w'
         = Some (VStr (PulseProgress.step self ++ ": " ++ pretty (PulseProgress.n self)
                         ++ "/?" ++ PulseProgress.unit_ self))).
Proof.
  intros Hok Hd w'. subst w'. unfold PulseProgress._report_progress.
  rewrite (bind_run _ _ _ self (self, w)) by reflexivity. rewrite Hd.
  destruct (PulseProgress.has_total self) eqn:Ht.
  - destruct (calculate_eta_run self w) as (eta & w1 & E1 & Hf & Htr).
    assert (Hok1 : store_ok w1 = true) by by rewrite (store_ok_same_files w w1).
    match goal with
    | |- context [State.update_progress ?tn ?cs _ _ _ _] =>
        destruct (store_update_fields self tn cs
                    (true_div (inject_Z (PulseProgress.n self))
                       (inject_Z (default 0 (PulseProgress.total self))))
                    eta None None w1 Hok1)
          as (w2 & E2 & _ & _ & _ & Ha & Htn & Hcs & Hp & _)
    end.
    match goal with
    | |- context [bind ?m ?k (self, w)] =>
        rewrite (bind_run m k (self, w)
                   (true_div (inject_Z (PulseProgress.n self))
                      (inject_Z (default 0 (PulseProgress.total self))), eta)
                   (self, w1)) by (by rewrite (bind_run _ _ _ _ _ E1))
    end.
    cbn [fst snd]. rewrite E2. cbn [fst snd].
    split; [done|]. split; [done|]. split; [done|]. split; [|done].
    intros T HT HT0. rewrite HT in Hp, Hcs. cbn [from_option id] in Hp, Hcs.
    split; [exact Hp|]. exact Hcs.
  - match goal with
    | |- context [State.update_progress ?tn ?cs _ _ _ _] =>
        destruct (store_update_fields self tn cs 0%Q None None None w Hok)
          as (w2 & E2 & _ & _ & _ & Ha & Htn & Hcs & Hp & Heta & _)
    end.
    rewrite (bind_run _ _ _ (0%Q, None) (self, w)) by reflexivity.
    cbn [fst snd]. rewrite E2. cbn [fst snd].
    split; [done|]. split; [done|]. split; [done|]. split.
    + intros T HT HT0. exfalso. unfold PulseProgress.has_total in Ht.
      rewrite HT in Ht. cbn in Ht. apply negb_false_iff, Z.eqb_eq in Ht. done.
    + intros _. split; [exact Hp|]. split; [exact Heta|]. exact Hcs.
Qed.

Lemma report_progress_record_witness :
  let self := PulseProgress.set_n 5 (sample_tracker [1; 2; 3]) in
  store_ok started_world = true
  /\ PulseProgress.disable self = false
  /\ progress_field "progress"
       (snd (snd (PulseProgress._report_progress (self, started_world))))
     = Some (VFloat 1)
  /\ progress_field "current_step"
       (snd (snd (PulseProgress._report_progress (self, started_world))))
     = Some (VStr "1/1: 5/3it").
Proof.
  intros self. split; [reflexivity|]. split; [reflexivity|].
  destruct (report_progress_record self started_world eq_refl eq_refl)
    as (_ & _ & _ & H & _).
  destruct (H 3 eq_refl ltac:(discriminate)) as [Hp Hc].
  split; [etransitivity; [exact Hp|]; vm_compute; reflexivity|].
  etransitivity; [exact Hc|]. vm_compute. reflexivity.
Defined.

Lemma store_complete_fields {S} (s : S) tn w :
  store_ok w = true ->
  exists w',
    in_world (State.complete_task tn) (s, w) = (Ret tt, (s, w'))
    /\ store_ok w' = true
    /\ completions w' = Datatypes.S (completions w)
    /\ good_file (progress_json (files w')) = Some State.inactive_template
    /\ head (history_names w') = Some (Some (VStr tn)).
Proof.
  intros H.
  destruct (store_complete_run s tn w H) as (w' & E & Hok & Hc & Hh).
  exists w'. split; [done|]. split; [done|]. split; [done|].
  split; [|by rewrite Hh].
  destruct (store_ok_inv _ H) as (d & h & l & Hp & Hs & Hh' & Hl).
  pose proof (complete_task_run tn w d h l Hp Hs Hh' Hl) as Hrun.
  unfold in_world in E. cbn [fst snd] in E. rewrite Hrun in E.
  injection E as <-.
  by apply holds_good_file, completed_progress.
Qed.

Lemma report_progress_basic {A} (self : PulseProgress.t A) w :
  store_ok w = true ->
  PulseProgress.disable self = false ->
  exists w',
    PulseProgress._report_progress (self, w) = (Ret tt, (self, w'))
    /\ store_ok w' = true
    /\ progress_field "active" w' = Some (VBool true)
    /\ progress_field "task_name" w' = Some (VStr (PulseProgress.desc self)).
Proof.
  intros Hok Hd. unfold PulseProgress._report_progress.
  rewrite (bind_run _ _ _ self (self, w)) by reflexivity. rewrite Hd.
  destruct (PulseProgress.has_total self) eqn:Ht.
  - destruct (calculate_eta_run self w) as (eta & w1 & E1 & Hf & Htr).
    assert (Hok1 : store_ok w1 = true) by by rewrite (store_ok_same_files w w1).
    match goal with
    | |- context [State.update_progress ?tn ?cs _ _ _ _] =>
        destruct (store_update_fields self tn cs
                    (true_div (inject_Z (PulseProgress.n self))
                       (inject_Z (default 0 (PulseProgress.total self))))
                    eta None None w1 Hok1)
          as (w2 & E2 & Hok2 & _ & _ & Ha & Htn & _)
    end.
    exists w2. split; [|done].
    match goal with
    | |- bind ?m ?k (self, w) = _ =>
        rewrite (bind_run m k (self, w)
                   (true_div (inject_Z (PulseProgress.n self))
                      (inject_Z (default 0 (PulseProgress.total self))), eta)
                   (self, w1))
    end; [exact E2|].
    by rewrite (bind_run _ _ _ _ _ E1).
  - match goal with
    | |- context [State.update_progress ?tn ?cs _ _ _ _] =>
        destruct (store_update_fields self tn cs 0%Q None None None w Hok)
          as (w2 & E2 & Hok2 & _ & _ & Ha & Htn & _)
    end.
    exists w2.
    split; [by rewrite (bind_run _ _ _ (0%Q, None) (self, w)) by reflexivity|].
    done.
Qed.

(** X19: An enabled wrapper takes its description from [desc], else from [task],
    else "Processing", and its total from the argument or, when none is given,
    from the length of an iterable that has one, a lazy iterable being left
    unmeasured; it starts counting at [initial], and its construction already
    publishes an active record under its description. *)
Theorem tracker_init {A} (it : option (iterable A)) desc total task step unit_
    leave mininterval initial w :
  store_ok w = true ->
  exists self,
    fst (PulseProgress.__init__ it desc total task step unit_ leave mininterval
           false initial w) = Ret self
    /\ PulseProgress.desc self
       = match desc, task with
         | Some d, _ => if String.eqb d "" then
                          match task with
                          | Some t => if String.eqb t "" then "Processing" else t
                          | None => "Processing"
                          end
                        else d
         | None, Some t => if String.eqb t "" then "Processing" else t
         | None, None => "Processing"
         end
    /\ PulseProgress.total self
       = match total, it with
         | Some T, _ => Some T
         | None, Some (Sized l) => Some (Z.of_nat (length l))
         | None, _ => None
         end
    /\ PulseProgress.n self = initial
    /\ PulseProgress.start_t self = Qred (now_of w # 1000000)
    /\ progress_field "active"
         (snd (PulseProgress.__init__ it desc total task step unit_ leave mininterval
                 false initial w)) = Some (VBool true)
    /\ progress_field "task_name"
         (snd (PulseProgress.__init__ it desc total task step unit_ leave mininterval
                 false initial w)) = Some (VStr (PulseProgress.desc self)).
Proof.
  intros Hok. unfold PulseProgress.__init__.
  rewrite (bind_run _ _ _ (Qred (now_of w # 1000000)) (tick w)) by reflexivity.
  cbv zeta. cbn [negb when]. unfold construct.
  match goal with
  | |- context [PulseProgress._report_progress (?s, tick w)] =>
      destruct (report_progress_basic s (tick w) Hok eq_refl)
        as (w' & E & _ & Ha & Htn); rewrite E; exists s
  end.
  cbn [fst snd]. split; [done|]. split.
  { cbn [PulseProgress.desc]. unfold str_or. cbn [truthy].
    destruct desc as [d|], task as [t|]; try reflexivity;
      try (destruct (String.eqb d "")); try (destruct (String.eqb t ""));
      reflexivity. }
  split.
  { cbn [PulseProgress.total]. unfold len_of.
    destruct total; [done|]. by destruct it as [[]|]. }
  split; [done|]. split; [done|]. split; [exact Ha|exact Htn].
Qed.

Lemma tracker_init_witness :
  store_ok started_world = true
  /\ exists self,
       fst (PulseProgress.__init__ (Some (Lazy [1; 2])) None None (Some "Load") None "it"
              true (1 # 10) false 0 started_world) = Ret self
       /\ PulseProgress.desc self = "Load"
       /\ PulseProgress.total self = None.
Proof.
  split; [reflexivity|].
  destruct (tracker_init (Some (Lazy [1; 2])) None None (Some "Load") None "it" true
              (1 # 10) 0 started_world eq_refl)
    as (self & H1 & H2 & H3 & _).
  exists self. split; [exact H1|]. split; [exact H2|exact H3].
Defined.

Lemma keeps_tracker_update {A} (P : PulseProgress.t A -> Prop) k :
  (forall s x, P s -> P (PulseProgress.set_n x s)) ->
  (forall s x, P s -> P (PulseProgress.set_last_update_t x s)) ->
  keeps (fun sw : PulseProgress.t A * world => P (fst sw)) (PulseProgress.update k).
Proof.
  intros Hn Ht [s w] H. cbn [fst] in *.
  destruct (tracker_update_self s k w) as [[_ ->]|[_ [->| ->]]]; auto.
Qed.

Lemma keeps_iter_loop {A} (P : PulseProgress.t A -> Prop) objs :
  (forall s x, P s -> P (PulseProgress.set_n x s)) ->
  (forall s x, P s -> P (PulseProgress.set_last_update_t x s)) ->
  keeps (fun sw : PulseProgress.t A * world => P (fst sw)) (PulseProgress.iter_loop objs).
Proof.
  intros Hn Ht. induction objs as [|obj rest IH]; [apply keeps_ret|].
  cbn [PulseProgress.iter_loop].
  apply keeps_bind; [by apply keeps_tracker_update|]. intros _.
  apply keeps_bind; [exact IH|]. intros ys. apply keeps_ret.
Qed.

Lemma print_final_run {A} (self : PulseProgress.t A) w :
  exists w', PulseProgress._print_final (self, w) = (Ret tt, (self, w'))
             /\ files w' = files w.
Proof.
  exists (logged
            (EvPrintFinal (PulseProgress.desc self) (PulseProgress.n self)
               (PulseProgress._format_time
                  (py_int (Qred (Qred (now_of w # 1000000)
                                 - PulseProgress.start_t self)))))
            (tick w)).
  split; reflexivity.
Qed.

(** X20: When the [for] loop over an enabled wrapper has taken every item, and
    the wrapper has counted at least one, the task is archived: the progress
    document is the inactive template and the description of the wrapper is at
    the head of the history. *)
Theorem tracker_iteration_archives {A} (self : PulseProgress.t A) it w :
  store_ok w = true ->
  PulseProgress.disable self = false ->
  PulseProgress.iterable_ self = Some it ->
  0 < PulseProgress.n self + Z.of_nat (length (elements_of it)) ->
  let w' := snd (snd (PulseProgress.__iter__ (self, w))) in
  good_file (progress_json (files w')) = Some State.inactive_template
  /\ head (history_names w') = Some (Some (VStr (PulseProgress.desc self)))
  /\ store_ok w' = true.
Proof.
  intros Hok Hd Hit Hpos w'. subst w'.
  destruct (iter_loop_ok (elements_of it) self w Hok Hd)
    as (s1 & w1 & E1 & Hok1 & _ & Hd1 & Hn1).
  assert (Hdesc : PulseProgress.desc s1 = PulseProgress.desc self).
  { pose proof (keeps_iter_loop (fun s => PulseProgress.desc s = PulseProgress.desc self)
                  (elements_of it) (fun s x H => H) (fun s x H => H) (self, w) eq_refl)
      as Hk.
    by rewrite E1 in Hk. }
  destruct (store_complete_fields s1 (PulseProgress.desc s1) w1 Hok1)
    as (w2 & E2 & Hok2 & _ & Hp2 & Hh2).
  unfold PulseProgress.__iter__.
  rewrite (bind_run _ _ _ self (self, w)) by reflexivity.
  rewrite Hit, Hd. unfold try_finally. rewrite E1.
  assert (Hclose : exists w3, PulseProgress.close (s1, w1) = (Ret tt, (s1, w3))
                              /\ files w3 = files w2).
  { unfold PulseProgress.close.
    rewrite (bind_run _ _ _ s1 (s1, w1)) by reflexivity.
    rewrite Hd1, (proj2 (Z.ltb_lt _ _) (eq_ind_r (fun z => 0 < z) Hpos Hn1)).
    cbn [negb andb]. rewrite (bind_run _ _ _ _ _ E2).
    destruct (PulseProgress.leave s1); [|by exists w2].
    destruct (print_final_run s1 w2) as (w3 & E3 & Hf3). by exists w3. }
  destruct Hclose as (w3 & -> & Hf). cbn [fst snd].
  unfold history_names, store_ok in *. rewrite Hf, Hdesc in *. done.
Qed.

Lemma tracker_iteration_archives_witness :
  store_ok started_world = true
  /\ PulseProgress.disable (sample_tracker [1; 2; 3]) = false
  /\ 0 < PulseProgress.n (sample_tracker [1; 2; 3]) + Z.of_nat (length [1; 2; 3])
  /\ head (history_names
             (snd (snd (PulseProgress.__iter__ (sample_tracker [1; 2; 3], started_world)))))
     = Some (Some (VStr "Test")).
Proof.
  split; [reflexivity|]. split; [reflexivity|]. split; [reflexivity|].
  apply (tracker_iteration_archives (sample_tracker [1; 2; 3]) (Sized [1; 2; 3])
           started_world eq_refl eq_refl eq_refl eq_refl).
Defined.

(** * Further properties of the session *)

Lemma true_div_ge_1 a b : 0 < b -> b <= a -> (1 <= true_div (inject_Z a) (inject_Z b))%Q.
Proof.
  intros Hb Hab. unfold true_div. rewrite Qred_correct. apply round_float_ge_1.
  apply Qle_shift_div_l; [by apply inject_Z_pos|].
  rewrite Qmult_1_l. unfold Qle. cbn. lia.
Qed.

Lemma string_app_nil_r (s : string) : (s ++ "")%string = s.
Proof.
  induction s as [|c s IH]; [done|].
  change (String c (s ++ "")%string = String c s). by rewrite IH.
Qed.

Lemma task_step_run s d p w :
  store_ok w = true ->
  PulseTask.closed s = false ->
  let s' := PulseTask.set_current_step (PulseTask.current_step s + 1) s in
  let q := match p with Some x => x | None => PulseTask.ratio s' end in
  let text := PulseTask.format (PulseTask.step_format s) (PulseTask.current_step s + 1)
                (PulseTask.total_steps s) d in
  exists w',
    PulseTask.step d p (s, w) = (Ret tt, (s', w'))
    /\ store_ok w' = true
    /\ completions w' = completions w
    /\ history_names w' = history_names w
    /\ progress_field "active" w' = Some (VBool true)
    /\ progress_field "task_name" w' = Some (VStr (PulseTask.task_name s))
    /\ progress_field "current_step" w' = Some (VStr text)
    /\ progress_field "progress" w' = Some (VFloat (State.clamp q))
    /\ progress_field "error" w' = Some VNone.
Proof.
  intros Hok Hc s' q text.
  destruct (store_update_fields s' (PulseTask.task_name s) text q None None None w Hok)
    as (w' & E & Hok' & Hcm & Hh & Ha & Htn & Hcs & Hp & _ & Herr).
  exists w'. split; [|done].
  unfold PulseTask.step.
  rewrite (bind_run _ _ _ s (s, w)) by reflexivity. rewrite Hc.
  rewrite (bind_run _ _ _ tt (s', w)) by reflexivity.
  rewrite (bind_run _ _ _ s' (s', w)) by reflexivity.
  exact E.
Qed.

(** X21: A step of an open session, on a store in working order, advances the
    step counter by one and publishes an active record under the name of the
    task, labelled by the format of the session.  Without an explicit
    progress, the progress persisted is [counter / total_steps] clamped: it is
    1 from the step that reaches [total_steps] on, however many steps follow,
    and 0 when [total_steps] is 0 or less. *)
Theorem session_step_record s d p w :
  store_ok w = true ->
  PulseTask.closed s = false ->
  let r := PulseTask.step d p (s, w) in
  let k := PulseTask.current_step s + 1 in
  let T := PulseTask.total_steps s in
  fst r = Ret tt
  /\ PulseTask.current_step (fst (snd r)) = k
  /\ PulseTask.closed (fst (snd r)) = false
  /\ progress_field "task_name" (snd (snd r)) = Some (VStr (PulseTask.task_name s))
  /\ (PulseTask.step_format s = PulseTask.default_step_format ->
      progress_field "current_step" (snd (snd r))
      = Some (VStr ("Step " ++ pretty k ++ "/" ++ pretty T ++ ": " ++ d)))
  /\ (forall x, p = Some x ->
        progress_field "progress" (snd (snd r)) = Some (VFloat (State.clamp x)))
  /\ (p = None -> 0 < T ->
      progress_field "progress" (snd (snd r))
      = Some (VFloat (State.clamp (true_div (inject_Z k) (inject_Z T)))))
  /\ (p = None -> 0 < T <= k ->
      progress_field "progress" (snd (snd r)) = Some (VFloat 1))
  /\ (p = None -> T <= 0 ->
      progress_field "progress" (snd (snd r)) = Some (VFloat 0)).
Proof.
  intros Hok Hc r k T. subst r k T.
  destruct (task_step_run s d p w Hok Hc)
    as (w' & -> & _ & _ & _ & _ & Htn & Hcs & Hp & _).
  cbn [fst snd]. split; [done|]. split; [done|]. split; [done|]. split; [done|].
  split.
  { intros Hf. rewrite Hcs, Hf. cbn [PulseTask.format PulseTask.default_step_format].
    by rewrite string_app_nil_r. }
  split; [by intros x ->|].
  assert (Hratio : forall a, 0 < PulseTask.total_steps s ->
            PulseTask.ratio (PulseTask.set_current_step a s)
            = true_div (inject_Z a) (inject_Z (PulseTask.total_steps s))).
  { intros a HT. unfold PulseTask.ratio. cbn [PulseTask.total_steps PulseTask.current_step
      PulseTask.set_current_step]. by rewrite (proj2 (Z.ltb_lt _ _) HT). }
  split; [|split].
  - intros -> HT. by rewrite Hp, Hratio.
  - intros -> [HT Hk]. rewrite Hp, Hratio by done.
    pose proof (clamp_cases (true_div (inject_Z (PulseTask.current_step s + 1))
                               (inject_Z (PulseTask.total_steps s))))
      as (_ & _ & _ & H1 & _).
    by rewrite (H1 (true_div_ge_1 _ _ HT Hk)).
  - intros -> HT. rewrite Hp. unfold PulseTask.ratio.
    cbn [PulseTask.total_steps PulseTask.set_current_step].
    by rewrite (proj2 (Z.ltb_ge _ _) HT).
Qed.

Lemma session_step_record_witness :
  let s := PulseTask.set_current_step 4
             (PulseTask.set_start_time (Some 1%Q) (pulse_task "Job" 3)) in
  store_ok started_world = true
  /\ PulseTask.closed s = false
  /\ 0 < PulseTask.total_steps s <= PulseTask.current_step s + 1
  /\ progress_field "progress" (snd (snd (PulseTask.step "more" None (s, started_world))))
     = Some (VFloat 1)
  /\ progress_field "current_step"
       (snd (snd (PulseTask.step "more" None (s, started_world))))
     = Some (VStr "Step 5/3: more").
Proof.
  intros s.
  assert (Hb : 0 < PulseTask.total_steps s <= PulseTask.current_step s + 1)
    by (split; [reflexivity|discriminate]).
  destruct (session_step_record s "more" None started_world eq_refl eq_refl)
    as (_ & _ & _ & _ & Hcs & _ & _ & H1 & _).
  split; [reflexivity|]. split; [reflexivity|]. split; [exact Hb|].
  split; [exact (H1 eq_refl Hb)|].
  etransitivity; [exact (Hcs eq_refl)|]. vm_compute. reflexivity.
Defined.

(** X22: [update_progress] of an open session, on a store in working order,
    publishes the progress given, clamped, and leaves the session as it was,
    its step counter included; the record is labelled by the description, or
    by "Step counter/total_steps" when there is none or it is empty. *)
Theorem session_update_progress_record s q dd w :
  store_ok w = true ->
  PulseTask.closed s = false ->
  let r := PulseTask.update_progress q dd (s, w) in
  fst r = Ret tt
  /\ fst (snd r) = s
  /\ progress_field "progress" (snd (snd r)) = Some (VFloat (State.clamp q))
  /\ progress_field "task_name" (snd (snd r)) = Some (VStr (PulseTask.task_name s))
  /\ progress_field "current_step" (snd (snd r))
     = Some (VStr (match dd with
                   | Some x => if String.eqb x "" then
                                 "Step " ++ pretty (PulseTask.current_step s) ++ "/"
                                   ++ pretty (PulseTask.total_steps s)
                               else x
                   | None => "Step " ++ pretty (PulseTask.current_step s) ++ "/"
                               ++ pretty (PulseTask.total_steps s)
                   end)).
Proof.
  intros Hok Hc r. subst r. unfold PulseTask.update_progress.
  rewrite (bind_run _ _ _ s (s, w)) by reflexivity. rewrite Hc.
  match goal with
  | |- context [State.update_progress ?tn ?cs _ _ _ _] =>
      destruct (store_update_fields s tn cs q None None None w Hok)
        as (w' & -> & _ & _ & _ & _ & Htn & Hcs & Hp & _)
  end.
  cbn [fst snd]. split; [done|]. split; [done|]. split; [done|]. split; [done|].
  rewrite Hcs. unfold str_or. cbn [truthy].
  destruct dd as [x|]; [|done]. by destruct (String.eqb x "").
Qed.

Lemma session_update_progress_record_witness :
  let s := PulseTask.set_start_time (Some 1%Q) (pulse_task "Job" 3) in
  store_ok started_world = true
  /\ PulseTask.closed s = false
  /\ progress_field "current_step"
       (snd (snd (PulseTask.update_progress (1 # 4) None (s, started_world))))
     = Some (VStr "Step 0/3").
Proof.
  intros s.
  destruct (session_update_progress_record s (1 # 4) None started_world eq_refl eq_refl)
    as (_ & _ & _ & _ & H).
  split; [reflexivity|]. split; [reflexivity|].
  etransitivity; [exact H|]. vm_compute. reflexivity.
Defined.

(** ** The scope of a session *)

Lemma scope_close s w c0 :
  scope_inv c0 (s, w) ->
  exists s' w',
    PulseTask.close (s, w) = (Ret tt, (s', w'))
    /\ scope_inv c0 (s', w')
    /\ PulseTask.closed s' = true
    /\ PulseTask.task_name s' = PulseTask.task_name s
    /\ PulseTask.current_step s' = PulseTask.current_step s
    /\ PulseTask.total_steps s' = PulseTask.total_steps s.
Proof.
  intros (Hok & Ht & Hc). cbn [fst snd] in *. unfold PulseTask.close.
  rewrite (bind_run _ _ _ s (s, w)) by reflexivity.
  destruct (PulseTask.closed s) eqn:Ecl; cbn [negb andb].
  - exists s, w. split; [done|]. split; [|done].
    split; [done|]. split; [done|]. cbn [fst snd]. by rewrite Ecl.
  - rewrite Ht.
    rewrite (bind_run _ _ _ tt (PulseTask.set_closed true s, w)) by reflexivity.
    destruct (store_complete_fields (PulseTask.set_closed true s)
                (PulseTask.task_name s) w Hok)
      as (w' & E & Hok' & Hcm & Hp & Hh).
    exists (PulseTask.set_closed true s), w'. split; [exact E|].
    split; [|done]. split; [done|]. split; [done|].
    cbn [fst snd PulseTask.closed PulseTask.set_closed PulseTask.task_name].
    by rewrite Hcm, Hc.
Qed.

Lemma scope_perform c s w c0 :
  (match c with PulseTask.CallRaise _ => false | _ => true end) = true ->
  scope_inv c0 (s, w) ->
  exists s' w',
    PulseTask.perform c (s, w) = (Ret tt, (s', w'))
    /\ scope_inv c0 (s', w')
    /\ PulseTask.task_name s' = PulseTask.task_name s
    /\ PulseTask.total_steps s' = PulseTask.total_steps s.
Proof.
  intros Hc Hinv. destruct c as [d p|q dd| |e]; [| | |done]; cbn [PulseTask.perform].
  - destruct Hinv as (Hok & Ht & Hi). cbn [fst snd] in *.
    destruct (PulseTask.closed s) eqn:Ecl.
    + exists s, w. unfold PulseTask.step.
      rewrite (bind_run _ _ _ s (s, w)) by reflexivity. rewrite Ecl.
      split; [done|]. split; [|done]. split; [done|]. split; [done|].
      cbn [fst snd]. by rewrite Ecl.
    + destruct (task_step_run s d p w Hok Ecl) as (w' & E & Hok' & Hcm & _).
      eexists _, w'. split; [exact E|]. split; [|done].
      split; [done|]. split; [done|].
      cbn [fst snd PulseTask.closed PulseTask.set_current_step]. rewrite Ecl.
      by rewrite Hcm.
  - destruct Hinv as (Hok & Ht & Hi). cbn [fst snd] in *.
    unfold PulseTask.update_progress.
    rewrite (bind_run _ _ _ s (s, w)) by reflexivity.
    destruct (PulseTask.closed s) eqn:Ecl.
    + exists s, w. split; [done|]. split; [|done]. split; [done|]. split; [done|].
      cbn [fst snd]. by rewrite Ecl.
    + match goal with
      | |- context [State.update_progress ?tn ?cs _ _ _ _] =>
          destruct (store_update_fields s tn cs q None None None w Hok)
            as (w' & E & Hok' & Hcm & _)
      end.
      exists s, w'. split; [exact E|]. split; [|done].
      split; [done|]. split; [done|]. cbn [fst snd]. rewrite Ecl. by rewrite Hcm.
  - destruct (scope_close s w c0 Hinv) as (s' & w' & E & Hi & _ & Htn & _ & Hts).
    by exists s', w'.
Qed.

Lemma scope_script cs : forall s w c0,
  raises_nothing cs = true ->
  scope_inv c0 (s, w) ->
  exists s' w',
    PulseTask.script cs (s, w) = (Ret tt, (s', w'))
    /\ scope_inv c0 (s', w')
    /\ PulseTask.task_name s' = PulseTask.task_name s
    /\ PulseTask.total_steps s' = PulseTask.total_steps s.
Proof.
  induction cs as [|c rest IH]; intros s w c0 Hr Hinv.
  - by exists s, w.
  - cbn [raises_nothing forallb] in Hr. apply andb_prop in Hr as [Hc Hr].
    destruct (scope_perform c s w c0 Hc Hinv) as (s1 & w1 & E1 & Hi1 & Htn1 & Hts1).
    destruct (IH s1 w1 c0 Hr Hi1) as (s2 & w2 & E2 & Hi2 & Htn2 & Hts2).
    exists s2, w2. cbn [PulseTask.script]. rewrite (bind_run _ _ _ _ _ E1).
    split; [exact E2|]. split; [done|]. split; congruence.
Qed.

Lemma script_then_raise cs e : forall sw sw',
  PulseTask.script cs sw = (Ret tt, sw') ->
  PulseTask.script (cs ++ [PulseTask.CallRaise e]) sw = (Raise e, sw').
Proof.
  induction cs as [|c rest IH]; intros sw sw' H.
  - cbn in H. injection H as <-. reflexivity.
  - cbn [PulseTask.script app] in *. unfold bind in *.
    destruct (PulseTask.perform c sw) as [[[]|x] sw1]; [|discriminate H].
    by apply IH.
Qed.

Lemma scope_enter tn ts w :
  store_ok w = true ->
  now_of w <> 0 ->
  exists s w',
    PulseTask.__enter__ (pulse_task tn ts, w) = (Ret tt, (s, w'))
    /\ scope_inv (completions w) (s, w')
    /\ PulseTask.closed s = false
    /\ PulseTask.task_name s = tn
    /\ PulseTask.total_steps s = ts.
Proof.
  intros Hok Hnow.
  set (s0 := pulse_task tn ts).
  set (s1 := PulseTask.set_start_time (Some (Qred (now_of w # 1000000))) s0).
  destruct (store_update_fields s1 tn "Starting..." 0 None None None (tick w) Hok)
    as (w' & E & Hok' & Hcm & _).
  exists s1, w'. split.
  { unfold PulseTask.__enter__.
    rewrite (bind_run _ _ _ (Qred (now_of w # 1000000)) (s0, tick w)) by reflexivity.
    rewrite (bind_run _ _ _ s0 (s0, tick w)) by reflexivity.
    rewrite (bind_run _ _ _ tt (s1, tick w)) by reflexivity.
    exact E. }
  split; [|done]. split; [done|]. split; [by apply time_truthy|].
  cbn [fst snd]. by rewrite Hcm.
Qed.

(** X23: A scope whose body makes any calls on its session and raises nothing
    ends, on a store in working order, with the session closed and the task
    archived once: the progress document is the inactive template and the
    task is at the head of the history.  This holds too when the body closes
    the session itself, the calls that follow a [close] being ignored. *)
Theorem session_scope_normal tn ts cs w :
  store_ok w = true ->
  now_of w <> 0 ->
  raises_nothing cs = true ->
  let r := session_scope tn ts cs w in
  fst r = Ret tt
  /\ PulseTask.closed (fst (snd r)) = true
  /\ good_file (progress_json (files (snd (snd r)))) = Some State.inactive_template
  /\ head (history_names (snd (snd r))) = Some (Some (VStr tn))
  /\ completions (snd (snd r)) = Datatypes.S (completions w)
  /\ store_ok (snd (snd r)) = true.
Proof.
  intros Hok Hnow Hr r. subst r. unfold session_scope, PulseTask.with_.
  destruct (scope_enter tn ts w Hok Hnow) as (s1 & w1 & E1 & Hi1 & _ & Htn1 & _).
  rewrite (bind_run _ _ _ _ _ E1).
  destruct (scope_script cs s1 w1 _ Hr Hi1) as (s2 & w2 & E2 & Hi2 & Htn2 & _).
  rewrite E2.
  destruct (scope_close s2 w2 _ Hi2) as (s3 & w3 & E3 & Hi3 & Hc3 & Htn3 & _).
  unfold PulseTask.__exit__.
  rewrite (bind_run _ _ _ tt (s3, w3))
    by (by rewrite (bind_run _ _ _ _ _ E3)).
  cbn [ret fst snd]. destruct Hi3 as (Hok3 & _ & Hi3). cbn [fst snd] in *.
  rewrite Hc3 in Hi3. destruct Hi3 as (Hcm & Hp & Hh).
  repeat (split; [done|]). split; [|done]. rewrite Hh. congruence.
Qed.

Lemma session_scope_normal_witness :
  store_ok started_world = true
  /\ now_of started_world <> 0
  /\ fst (session_scope "Data Analysis" 4
            [PulseTask.CallStep "Loading data" (Some (1 # 5));
             PulseTask.CallClose;
             PulseTask.CallStep "Cleaning data" (Some (2 # 5));
             PulseTask.CallUpdateProgress 1 (Some "Complete")] started_world) = Ret tt.
Proof.
  assert (H : now_of started_world <> 0) by (vm_compute; discriminate).
  split; [reflexivity|]. split; [exact H|].
  apply (session_scope_normal "Data Analysis" 4
           [PulseTask.CallStep "Loading data" (Some (1 # 5));
            PulseTask.CallClose;
            PulseTask.CallStep "Cleaning data" (Some (2 # 5));
            PulseTask.CallUpdateProgress 1 (Some "Complete")]
           started_world eq_refl H eq_refl).
Defined.

(** X24: A scope whose body raises after any calls on its session ends, on a store
    in working order, with the exception going on to the caller, the session
    closed and the task archived once, and then the error record published:
    an active record under the name of the task, labelled "Error occurred",
    with the error "Kind: message" and the progress
    [current_step / total_steps], clamped, that the session had reached. *)
Theorem session_scope_exception tn ts cs e w :
  store_ok w = true ->
  now_of w <> 0 ->
  raises_nothing cs = true ->
  let r := session_scope tn ts (cs ++ [PulseTask.CallRaise e]) w in
  fst r = Raise e
  /\ PulseTask.closed (fst (snd r)) = true
  /\ progress_field "active" (snd (snd r)) = Some (VBool true)
  /\ progress_field "task_name" (snd (snd r)) = Some (VStr tn)
  /\ progress_field "current_step" (snd (snd r)) = Some (VStr "Error occurred")
  /\ progress_field "error" (snd (snd r))
     = Some (VStr (__name__ (exc_class e) ++ ": " ++ exc_val e))
  /\ progress_field "progress" (snd (snd r))
     = Some (VFloat (State.clamp (PulseTask.ratio (fst (snd r)))))
  /\ head (history_names (snd (snd r))) = Some (Some (VStr tn))
  /\ completions (snd (snd r)) = Datatypes.S (completions w).
Proof.
  intros Hok Hnow Hr r. subst r. unfold session_scope, PulseTask.with_.
  destruct (scope_enter tn ts w Hok Hnow) as (s1 & w1 & E1 & Hi1 & _ & Htn1 & _).
  rewrite (bind_run _ _ _ _ _ E1).
  destruct (scope_script cs s1 w1 _ Hr Hi1) as (s2 & w2 & E2 & Hi2 & Htn2 & _).
  rewrite (script_then_raise cs e _ _ E2).
  destruct (scope_close s2 w2 _ Hi2) as (s3 & w3 & E3 & Hi3 & Hc3 & Htn3 & _).
  destruct Hi3 as (Hok3 & _ & Hi3). cbn [fst snd] in *.
  rewrite Hc3 in Hi3. destruct Hi3 as (Hcm & Hp & Hh).
  destruct (store_update_fields s3 (PulseTask.task_name s3) "Error occurred"
              (PulseTask.ratio s3) None
              (Some (__name__ (exc_class e) ++ ": " ++ exc_val e)%string) None w3 Hok3)
    as (w4 & E4 & _ & Hcm4 & Hh4 & Ha & Htn & Hcs & Hpr & _ & Herr).
  assert (Hexit : PulseTask.__exit__ (Some e) (s2, w2) = (Ret tt, (s3, w4))).
  { unfold PulseTask.__exit__. rewrite (bind_run _ _ _ _ _ E3).
    rewrite (bind_run _ _ _ s3 (s3, w3)) by reflexivity. exact E4. }
  rewrite (bind_run _ _ _ _ _ Hexit). cbn [raise fst snd].
  split; [done|]. split; [done|]. split; [done|].
  split; [rewrite Htn; congruence|]. split; [done|]. split; [done|]. split; [done|].
  split; [rewrite Hh4, Hh; congruence|]. by rewrite Hcm4.
Qed.

Lemma session_scope_exception_witness :
  store_ok started_world = true
  /\ now_of started_world <> 0
  /\ progress_field "error"
       (snd (snd (session_scope "Job" 3
                    ([PulseTask.CallStep "one" None; PulseTask.CallStep "two" None]
                     ++ [PulseTask.CallRaise (Exn (UserError "Boom") "bang")])
                    started_world)))
     = Some (VStr "Boom: bang").
Proof.
  assert (H : now_of started_world <> 0) by (vm_compute; discriminate).
  split; [reflexivity|]. split; [exact H|].
  apply (session_scope_exception "Job" 3
           [PulseTask.CallStep "one" None; PulseTask.CallStep "two" None]
           (Exn (UserError "Boom") "bang") started_world eq_refl H eq_refl).
Defined.

(** ** The elapsed time of the summary line *)

(** X25: A duration of [h] hours, [m] minutes and [r] seconds is printed in its
    two largest units: seconds alone below a minute, minutes and seconds
    below an hour, and hours and minutes from an hour on, where the seconds
    are dropped, not rounded. *)
Theorem format_time_units h m r :
  0 <= h -> 0 <= m < 60 -> 0 <= r < 60 ->
  PulseProgress._format_time (3600 * h + 60 * m + r)
  = if (h =? 0)%Z
    then if (m =? 0)%Z then (pretty r ++ "s")%string
         else (pretty m ++ "m " ++ pretty r ++ "s")%string
    else (pretty h ++ "h " ++ pretty m ++ "m")%string.
Proof.
  intros Hh Hm Hr. unfold PulseProgress._format_time.
  destruct (Z.eqb_spec h 0) as [->|Hh0].
  - destruct (Z.eqb_spec m 0) as [->|Hm0].
    + replace (3600 * 0 + 60 * 0 + r) with r by lia.
      destruct (Z.ltb_spec r 60); [reflexivity|lia].
    + replace (3600 * 0 + 60 * m + r) with (60 * m + r) by lia.
      destruct (Z.ltb_spec (60 * m + r) 60); [lia|].
      destruct (Z.ltb_spec (60 * m + r) 3600); [|lia].
      assert ((60 * m + r) / 60 = m) as -> by (symmetry; apply (Z.div_unique _ _ _ r); lia).
      assert ((60 * m + r) mod 60 = r) as -> by (symmetry; apply (Z.mod_unique _ _ m); lia).
      reflexivity.
  - destruct (Z.ltb_spec (3600 * h + 60 * m + r) 60); [lia|].
    destruct (Z.ltb_spec (3600 * h + 60 * m + r) 3600); [lia|].
    cbv zeta.
    assert ((3600 * h + 60 * m + r) / 3600 = h) as ->
      by (symmetry; apply (Z.div_unique _ _ _ (60 * m + r)); lia).
    assert ((3600 * h + 60 * m + r) mod 3600 = 60 * m + r) as ->
      by (symmetry; apply (Z.mod_unique _ _ h); lia).
    assert ((60 * m + r) / 60 = m) as -> by (symmetry; apply (Z.div_unique _ _ _ r); lia).
    reflexivity.
Qed.

Lemma format_time_units_witness :
  0 <= 2 /\ 0 <= 5 < 60 /\ 0 <= 59 < 60
  /\ PulseProgress._format_time 7559 = "2h 5m".
Proof.
  assert (H1 : 0 <= 2) by lia.
  assert (H2 : 0 <= 5 < 60) by lia.
  assert (H3 : 0 <= 59 < 60) by lia.
  split; [exact H1|]. split; [exact H2|]. split; [exact H3|].
  exact (format_time_units 2 5 59 H1 H2 H3).
Defined.
